(** * The process table of xv6 (proc.c): a shallow embedding

    The kernel's process table, the allocator, fork and its copy-on-write
    variant, wait, sleep and wakeup, kill, the thread calls, signal delivery,
    mprotect and the copy-on-write fault hook, as functions on an explicit
    kernel state.  Calls that leave proc.c (kalloc, copyuvm, applyprot, ...)
    take their return value as an argument and leave an event in the log. *)

From Stdlib Require Import ZArith Lia List Bool.
From stdpp Require Import base list.
Import ListNotations.
Local Open Scope Z_scope.

(** ** Machine integers *)

(** [uint] arithmetic: results are taken modulo 2^32. *)
Definition wrap32 (x : Z) : Z := x mod 2 ^ 32.

(** The value of a 32-bit pattern read as a signed [int]. *)
Definition sint32 (x : Z) : Z :=
  let u := wrap32 x in if u <? 2 ^ 31 then u else u - 2 ^ 32.

(** ** The process structure (proc.h, as proc.c uses it) *)

Inductive procstate : Type :=
  UNUSED | EMBRYO | SLEEPING | RUNNABLE | RUNNING | ZOMBIE.

Definition procstate_eqb (a b : procstate) : bool :=
  match a, b with
  | UNUSED, UNUSED | EMBRYO, EMBRYO | SLEEPING, SLEEPING
  | RUNNABLE, RUNNABLE | RUNNING, RUNNING | ZOMBIE, ZOMBIE => true
  | _, _ => false
  end.

(** A sleep channel is a [void*] compared for equality only.  proc.c uses
    three kinds: the null pointer, the address of a slot of the table, and
    an integer cast to a pointer (a pid, in join and texit). *)
Inductive chan_t : Type :=
| CNull
| CProc (slot : nat)
| CVal (v : Z).

Definition chan_eqb (a b : chan_t) : bool :=
  match a, b with
  | CNull, CNull => true
  | CProc i, CProc j => Nat.eqb i j
  | CVal v, CVal w => Z.eqb v w
  | _, _ => false
  end.

(** [(void* )pid]: the integer 0 is the null pointer. *)
Definition chan_of_int (v : Z) : chan_t := if v =? 0 then CNull else CVal v.

(** A [struct proc*] used as a channel. *)
Definition chan_of_ptr (p : option nat) : chan_t :=
  match p with Some i => CProc i | None => CNull end.

(** The registers of the trap frame that proc.c reads or writes. *)
Record trapframe : Type := {
  tf_eax : Z; tf_ecx : Z; tf_edx : Z; tf_eip : Z; tf_esp : Z
}.

(** [parent] is an index into the table ([None] is the null pointer); the
    trap frame is kept by value; integers and raw pointers are [Z], with 0
    for the null pointer. *)
Record proc : Type := {
  sz : Z;
  pgdir : Z;
  kstack : Z;
  state : procstate;
  pid : Z;
  parent : option nat;
  tf : trapframe;
  chan : chan_t;
  killed : Z;
  ofile : list Z;
  cwd : Z;
  name : list Z;
  handlers : list Z;
  restorer_addr : Z;
  cow : Z;
  athread : Z;
  tstack : Z;
  tretval : Z
}.

Definition set_tf_eax (v : Z) (t : trapframe) : trapframe :=
  {| tf_eax := v; tf_ecx := tf_ecx t; tf_edx := tf_edx t;
     tf_eip := tf_eip t; tf_esp := tf_esp t |}.

Definition set_tf_eip (v : Z) (t : trapframe) : trapframe :=
  {| tf_eax := tf_eax t; tf_ecx := tf_ecx t; tf_edx := tf_edx t;
     tf_eip := v; tf_esp := tf_esp t |}.

Definition set_tf_esp (v : Z) (t : trapframe) : trapframe :=
  {| tf_eax := tf_eax t; tf_ecx := tf_ecx t; tf_edx := tf_edx t;
     tf_eip := tf_eip t; tf_esp := v |}.

Definition set_sz (v : Z) (p : proc) : proc :=
  {| sz := v; pgdir := pgdir p; kstack := kstack p; state := state p;
     pid := pid p; parent := parent p; tf := tf p; chan := chan p;
     killed := killed p; ofile := ofile p; cwd := cwd p; name := name p;
     handlers := handlers p; restorer_addr := restorer_addr p; cow := cow p;
     athread := athread p; tstack := tstack p; tretval := tretval p |}.

Definition set_pgdir (v : Z) (p : proc) : proc :=
  {| sz := sz p; pgdir := v; kstack := kstack p; state := state p;
     pid := pid p; parent := parent p; tf := tf p; chan := chan p;
     killed := killed p; ofile := ofile p; cwd := cwd p; name := name p;
     handlers := handlers p; restorer_addr := restorer_addr p; cow := cow p;
     athread := athread p; tstack := tstack p; tretval := tretval p |}.

Definition set_kstack (v : Z) (p : proc) : proc :=
  {| sz := sz p; pgdir := pgdir p; kstack := v; state := state p;
     pid := pid p; parent := parent p; tf := tf p; chan := chan p;
     killed := killed p; ofile := ofile p; cwd := cwd p; name := name p;
     handlers := handlers p; restorer_addr := restorer_addr p; cow := cow p;
     athread := athread p; tstack := tstack p; tretval := tretval p |}.

Definition set_state (v : procstate) (p : proc) : proc :=
  {| sz := sz p; pgdir := pgdir p; kstack := kstack p; state := v;
     pid := pid p; parent := parent p; tf := tf p; chan := chan p;
     killed := killed p; ofile := ofile p; cwd := cwd p; name := name p;
     handlers := handlers p; restorer_addr := restorer_addr p; cow := cow p;
     athread := athread p; tstack := tstack p; tretval := tretval p |}.

Definition set_pid (v : Z) (p : proc) : proc :=
  {| sz := sz p; pgdir := pgdir p; kstack := kstack p; state := state p;
     pid := v; parent := parent p; tf := tf p; chan := chan p;
     killed := killed p; ofile := ofile p; cwd := cwd p; name := name p;
     handlers := handlers p; restorer_addr := restorer_addr p; cow := cow p;
     athread := athread p; tstack := tstack p; tretval := tretval p |}.

Definition set_parent (v : option nat) (p : proc) : proc :=
  {| sz := sz p; pgdir := pgdir p; kstack := kstack p; state := state p;
     pid := pid p; parent := v; tf := tf p; chan := chan p;
     killed := killed p; ofile := ofile p; cwd := cwd p; name := name p;
     handlers := handlers p; restorer_addr := restorer_addr p; cow := cow p;
     athread := athread p; tstack := tstack p; tretval := tretval p |}.

Definition set_tf (v : trapframe) (p : proc) : proc :=
  {| sz := sz p; pgdir := pgdir p; kstack := kstack p; state := state p;
     pid := pid p; parent := parent p; tf := v; chan := chan p;
     killed := killed p; ofile := ofile p; cwd := cwd p; name := name p;
     handlers := handlers p; restorer_addr := restorer_addr p; cow := cow p;
     athread := athread p; tstack := tstack p; tretval := tretval p |}.

Definition set_chan (v : chan_t) (p : proc) : proc :=
  {| sz := sz p; pgdir := pgdir p; kstack := kstack p; state := state p;
     pid := pid p; parent := parent p; tf := tf p; chan := v;
     killed := killed p; ofile := ofile p; cwd := cwd p; name := name p;
     handlers := handlers p; restorer_addr := restorer_addr p; cow := cow p;
     athread := athread p; tstack := tstack p; tretval := tretval p |}.

Definition set_killed (v : Z) (p : proc) : proc :=
  {| sz := sz p; pgdir := pgdir p; kstack := kstack p; state := state p;
     pid := pid p; parent := parent p; tf := tf p; chan := chan p;
     killed := v; ofile := ofile p; cwd := cwd p; name := name p;
     handlers := handlers p; restorer_addr := restorer_addr p; cow := cow p;
     athread := athread p; tstack := tstack p; tretval := tretval p |}.

Definition set_ofile (v : list Z) (p : proc) : proc :=
  {| sz := sz p; pgdir := pgdir p; kstack := kstack p; state := state p;
     pid := pid p; parent := parent p; tf := tf p; chan := chan p;
     killed := killed p; ofile := v; cwd := cwd p; name := name p;
     handlers := handlers p; restorer_addr := restorer_addr p; cow := cow p;
     athread := athread p; tstack := tstack p; tretval := tretval p |}.

Definition set_cwd (v : Z) (p : proc) : proc :=
  {| sz := sz p; pgdir := pgdir p; kstack := kstack p; state := state p;
     pid := pid p; parent := parent p; tf := tf p; chan := chan p;
     killed := killed p; ofile := ofile p; cwd := v; name := name p;
     handlers := handlers p; restorer_addr := restorer_addr p; cow := cow p;
     athread := athread p; tstack := tstack p; tretval := tretval p |}.

Definition set_name (v : list Z) (p : proc) : proc :=
  {| sz := sz p; pgdir := pgdir p; kstack := kstack p; state := state p;
     pid := pid p; parent := parent p; tf := tf p; chan := chan p;
     killed := killed p; ofile := ofile p; cwd := cwd p; name := v;
     handlers := handlers p; restorer_addr := restorer_addr p; cow := cow p;
     athread := athread p; tstack := tstack p; tretval := tretval p |}.

Definition set_handlers (v : list Z) (p : proc) : proc :=
  {| sz := sz p; pgdir := pgdir p; kstack := kstack p; state := state p;
     pid := pid p; parent := parent p; tf := tf p; chan := chan p;
     killed := killed p; ofile := ofile p; cwd := cwd p; name := name p;
     handlers := v; restorer_addr := restorer_addr p; cow := cow p;
     athread := athread p; tstack := tstack p; tretval := tretval p |}.

Definition set_restorer_addr (v : Z) (p : proc) : proc :=
  {| sz := sz p; pgdir := pgdir p; kstack := kstack p; state := state p;
     pid := pid p; parent := parent p; tf := tf p; chan := chan p;
     killed := killed p; ofile := ofile p; cwd := cwd p; name := name p;
     handlers := handlers p; restorer_addr := v; cow := cow p;
     athread := athread p; tstack := tstack p; tretval := tretval p |}.

Definition set_cow (v : Z) (p : proc) : proc :=
  {| sz := sz p; pgdir := pgdir p; kstack := kstack p; state := state p;
     pid := pid p; parent := parent p; tf := tf p; chan := chan p;
     killed := killed p; ofile := ofile p; cwd := cwd p; name := name p;
     handlers := handlers p; restorer_addr := restorer_addr p; cow := v;
     athread := athread p; tstack := tstack p; tretval := tretval p |}.

Definition set_athread (v : Z) (p : proc) : proc :=
  {| sz := sz p; pgdir := pgdir p; kstack := kstack p; state := state p;
     pid := pid p; parent := parent p; tf := tf p; chan := chan p;
     killed := killed p; ofile := ofile p; cwd := cwd p; name := name p;
     handlers := handlers p; restorer_addr := restorer_addr p; cow := cow p;
     athread := v; tstack := tstack p; tretval := tretval p |}.

Definition set_tstack (v : Z) (p : proc) : proc :=
  {| sz := sz p; pgdir := pgdir p; kstack := kstack p; state := state p;
     pid := pid p; parent := parent p; tf := tf p; chan := chan p;
     killed := killed p; ofile := ofile p; cwd := cwd p; name := name p;
     handlers := handlers p; restorer_addr := restorer_addr p; cow := cow p;
     athread := athread p; tstack := v; tretval := tretval p |}.

Definition set_tretval (v : Z) (p : proc) : proc :=
  {| sz := sz p; pgdir := pgdir p; kstack := kstack p; state := state p;
     pid := pid p; parent := parent p; tf := tf p; chan := chan p;
     killed := killed p; ofile := ofile p; cwd := cwd p; name := name p;
     handlers := handlers p; restorer_addr := restorer_addr p; cow := cow p;
     athread := athread p; tstack := tstack p; tretval := v |}.


(** ** The kernel state *)

(** What proc.c does outside the table: pages and page directories handed
    back, references taken, and, for every write of a slot's [state], the
    slot, the old and the new state and whether [ptable.lock] was held. *)
Inductive event : Type :=
| EvKfree (page : Z)
| EvFreevm (pd : Z)
| EvFiledup (f : Z)
| EvIdup (ip : Z)
| EvFileclose (f : Z)
| EvIput (ip : Z)
| EvState (slot : nat) (from to : procstate) (held : bool).

(** [ptable.proc], whether [ptable.lock] is held, [nextpid], [initproc]
    and the log.  NPROC is the length of [ptable]. *)
Record kstate : Type := {
  ptable : list proc;
  locked : bool;
  nextpid : Z;
  initproc : option nat;
  klog : list event
}.

Definition set_ptable (v : list proc) (s : kstate) : kstate :=
  {| ptable := v; locked := locked s; nextpid := nextpid s;
     initproc := initproc s; klog := klog s |}.

Definition set_locked (v : bool) (s : kstate) : kstate :=
  {| ptable := ptable s; locked := v; nextpid := nextpid s;
     initproc := initproc s; klog := klog s |}.

Definition set_nextpid (v : Z) (s : kstate) : kstate :=
  {| ptable := ptable s; locked := locked s; nextpid := v;
     initproc := initproc s; klog := klog s |}.

Definition emit (evs : list event) (s : kstate) : kstate :=
  {| ptable := ptable s; locked := locked s; nextpid := nextpid s;
     initproc := initproc s; klog := klog s ++ evs |}.

(** [acquire(&ptable.lock)] and [release(&ptable.lock)]. *)
Definition acquire (s : kstate) : kstate := set_locked true s.
Definition release (s : kstate) : kstate := set_locked false s.

(** [p->field = v] for the slot [i]. *)
Definition upd_slot (i : nat) (f : proc -> proc) (s : kstate) : kstate :=
  set_ptable (alter f i (ptable s)) s.

(** [p->state = st] for the slot [i], with its entry in the log. *)
Definition write_state (i : nat) (st : procstate) (s : kstate) : kstate :=
  match ptable s !! i with
  | Some p => emit [EvState i (state p) st (locked s)] (upd_slot i (set_state st) s)
  | None => s
  end.

(** A cleared slot. *)
Definition proc0 : proc :=
  {| sz := 0; pgdir := 0; kstack := 0; state := UNUSED; pid := 0;
     parent := None;
     tf := {| tf_eax := 0; tf_ecx := 0; tf_edx := 0; tf_eip := 0; tf_esp := 0 |};
     chan := CNull; killed := 0; ofile := []; cwd := 0; name := [];
     handlers := []; restorer_addr := 0; cow := 0; athread := 0;
     tstack := 0; tretval := 0 |}.

(** The slot [i], for reads through a pointer known to be valid. *)
Definition getp (s : kstate) (i : nat) : proc := default proc0 (ptable s !! i).

(** [kfree(p->kstack)] and [freevm(p->pgdir)] for the slot [i]. *)
Definition kfree_kstack (i : nat) (s : kstate) : kstate :=
  emit [EvKfree (kstack (getp s i))] s.

Definition freevm_pgdir (i : nat) (s : kstate) : kstate :=
  emit [EvFreevm (pgdir (getp s i))] s.

(** What proc.c takes from files that are not part of it: the signal
    numbers, the page size, the kernel base, and the string copy
    [safestrcpy(s, t, n)], which maps the destination [s], the source [t]
    and the size [n] to the new contents of the destination. *)
Record kconsts : Type := {
  SIGKILL : Z;
  SIGFPE : Z;
  SIGSEGV : Z;
  PGSIZE : Z;
  KERNBASE : Z;
  safestrcpy : list Z -> list Z -> Z -> list Z
}.

(** ** allocproc *)

(** The scan for the first UNUSED slot. *)
Fixpoint find_unused (ps : list proc) (i : nat) : option nat :=
  match ps with
  | [] => None
  | p :: ps' =>
      if procstate_eqb (state p) UNUSED then Some i else find_unused ps' (S i)
  end.

(** [(sighandler_t) -1] and [restorer_addr = -1] as 32-bit patterns. *)
Definition minus_one : Z := wrap32 (-1).

(** [allocproc()]; [ka] is what [kalloc()] returns (0 when no page is
    left).  The result is the slot found, or [None] for the null pointer.
    The contents of the new kernel stack (the trap-return word and the
    context) are not part of the state; the trap frame keeps what the slot
    held, as the page kalloc returns is not cleared, and every caller
    overwrites it. *)
Definition allocproc (K : kconsts) (ka : Z) (s : kstate) : option nat * kstate :=
  match find_unused (ptable s) 0 with
  | None => (None, s)
  | Some i =>
      let s := write_state i EMBRYO s in
      let s := set_nextpid (sint32 (nextpid s + 1))
                 (upd_slot i (set_pid (nextpid s)) s) in
      let s := upd_slot i (set_kstack ka) s in
      if ka =? 0 then (None, write_state i UNUSED s)
      else
        let init p :=
          set_athread 0 (set_restorer_addr minus_one (set_cow 0
            (set_handlers
               (<[Z.to_nat (SIGSEGV K) := minus_one]>
                  (<[Z.to_nat (SIGFPE K) := minus_one]>
                     (<[Z.to_nat (SIGKILL K) := minus_one]> (handlers p))))
               p))) in
        (Some i, upd_slot i init s)
  end.

(** ** fork and cowfork *)

(** The loop over the descriptors: [np->ofile[i] = filedup(proc->ofile[i])]
    where the parent's entry is not null. *)
Fixpoint dup_ofile (pf nf : list Z) : list Z * list event :=
  match pf, nf with
  | f :: pf', n :: nf' =>
      let '(r, ev) := dup_ofile pf' nf' in
      if f =? 0 then (n :: r, ev) else (f :: r, EvFiledup f :: ev)
  | _, _ => (nf, [])
  end.

(** What fork, cowfork and clone share after the address space is set up:
    the descriptors and the working directory. *)
Definition dup_files (cur np : nat) (s : kstate) : kstate :=
  let '(fs, ev) := dup_ofile (ofile (getp s cur)) (ofile (getp s np)) in
  let s := emit ev (upd_slot np (set_ofile fs) s) in
  emit [EvIdup (cwd (getp s cur))] (upd_slot np (set_cwd (cwd (getp s cur))) s).

Definition name_size (p : proc) : Z := Z.of_nat (length (name p)).

(** [fork()]; [ka] is what kalloc returns, [pd] what copyuvm returns. *)
Definition fork (K : kconsts) (ka pd : Z) (cur : nat) (s : kstate) : Z * kstate :=
  let s := acquire s in
  match allocproc K ka s with
  | (None, s) => (-1, release s)
  | (Some np, s) =>
      let s := upd_slot np (set_pgdir pd) s in
      if pd =? 0 then
        let s := kfree_kstack np s in
        let s := upd_slot np (set_kstack 0) s in
        let s := write_state np UNUSED s in
        (-1, release s)
      else
        let s := upd_slot np (set_sz (sz (getp s cur))) s in
        let s := upd_slot np (set_parent (Some cur)) s in
        let s := upd_slot np (set_tf (tf (getp s cur))) s in
        let s := upd_slot np (fun p => set_tf (set_tf_eax 0 (tf p)) p) s in
        let s := dup_files cur np s in
        let s := upd_slot np (set_name (safestrcpy K (name (getp s np))
                   (name (getp s cur)) (name_size (getp s cur)))) s in
        let pid := pid (getp s np) in
        let s := write_state np RUNNABLE s in
        (pid, release s)
  end.

(** [cowfork()]; [pd] is what cow_copyuvm returns. *)
Definition cowfork (K : kconsts) (ka pd : Z) (cur : nat) (s : kstate) : Z * kstate :=
  match allocproc K ka s with
  | (None, s) => (-1, s)
  | (Some np, s) =>
      let s := upd_slot np (set_pgdir pd) s in
      if pd =? 0 then
        let s := kfree_kstack np s in
        let s := upd_slot np (set_kstack 0) s in
        let s := write_state np UNUSED s in
        (-1, s)
      else
        let s := upd_slot cur (set_cow 1) s in
        let s := upd_slot np (set_cow 1) s in
        let s := upd_slot np (set_sz (sz (getp s cur))) s in
        let s := upd_slot np (set_parent (Some cur)) s in
        let s := upd_slot np (set_tf (tf (getp s cur))) s in
        let s := upd_slot np (fun p => set_tf (set_tf_eax 0 (tf p)) p) s in
        let s := dup_files cur np s in
        let s := upd_slot np (set_name (safestrcpy K (name (getp s np))
                   (name (getp s cur)) (name_size (getp s cur)))) s in
        let pid := pid (getp s np) in
        let s := acquire s in
        let s := write_state np RUNNABLE s in
        let s := release s in
        (pid, s)
  end.

(** ** sleep and wakeup *)

(** A lock that sleep can be handed: [&ptable.lock], or another lock
    (whose own state is outside proc.c).  The argument [lk] of sleep is a
    pointer to one, [None] for the null pointer. *)
Inductive lockref : Type := LkPtable | LkOther.

Definition is_ptable_lock (lk : lockref) : bool :=
  match lk with LkPtable => true | LkOther => false end.

(** [sleep(chan, lk)] past its two checks, up to the point where sched()
    switches away from the process.  The scheduler and the other processes
    run on the state this returns. *)
Definition sleep_enter (cur : nat) (c : chan_t) (lk : lockref) (s : kstate) : kstate :=
  let s := if is_ptable_lock lk then s else acquire s in
  let s := upd_slot cur (set_chan c) s in
  write_state cur SLEEPING s.

(** [sleep(chan, lk)] from its entry, [cur] being the running process:
    with a null [lk] it panics, and a panic halts the kernel, so there is
    no state to go on from ([None]); [chan] is not looked at. *)
Definition sleep (cur : nat) (c : chan_t) (lk : option lockref) (s : kstate)
  : option kstate :=
  match lk with
  | None => None
  | Some lk => Some (sleep_enter cur c lk s)
  end.

(** The rest of sleep, once the scheduler has switched back. *)
Definition sleep_resume (cur : nat) (lk : lockref) (s : kstate) : kstate :=
  let s := upd_slot cur (set_chan CNull) s in
  if is_ptable_lock lk then s else release s.

(** The loop of wakeup1 from slot [i] on: the new slots and the state
    writes, [held] being whether the lock is held. *)
Fixpoint wakeup1_scan (c : chan_t) (held : bool) (i : nat) (ps : list proc)
  : list proc * list event :=
  match ps with
  | [] => ([], [])
  | p :: ps' =>
      let '(r, ev) := wakeup1_scan c held (S i) ps' in
      if procstate_eqb (state p) SLEEPING && chan_eqb (chan p) c
      then (set_state RUNNABLE p :: r, EvState i SLEEPING RUNNABLE held :: ev)
      else (p :: r, ev)
  end.

Definition wakeup1 (c : chan_t) (s : kstate) : kstate :=
  let '(ps, ev) := wakeup1_scan c (locked s) 0 (ptable s) in
  emit ev (set_ptable ps s).

Definition wakeup (c : chan_t) (s : kstate) : kstate :=
  release (wakeup1 c (acquire s)).

(** ** kill *)

(** The first slot whose pid field equals [v]. *)
Fixpoint find_pid (v : Z) (ps : list proc) (i : nat) : option nat :=
  match ps with
  | [] => None
  | p :: ps' => if pid p =? v then Some i else find_pid v ps' (S i)
  end.

(** [if(p->state == SLEEPING) p->state = RUNNABLE] for the slot [i]. *)
Definition wake_sleeper (i : nat) (s : kstate) : kstate :=
  if procstate_eqb (state (getp s i)) SLEEPING then write_state i RUNNABLE s else s.

Definition kill (v : Z) (s : kstate) : Z * kstate :=
  let s := acquire s in
  match find_pid v (ptable s) 0 with
  | Some i =>
      let s := upd_slot i (set_killed 1) s in
      let s := wake_sleeper i s in
      (0, release s)
  | None => (-1, release s)
  end.

(** ** wait *)

(** [p->parent == proc]. *)
Definition child_of (cur : nat) (p : proc) : bool :=
  match parent p with Some j => Nat.eqb j cur | None => false end.

(** One scan of the table from slot [i] on: the first ZOMBIE child of
    [cur], or else whether a child was seen. *)
Fixpoint wait_find (cur : nat) (ps : list proc) (i : nat) (havekids : bool)
  : nat + bool :=
  match ps with
  | [] => inr havekids
  | p :: ps' =>
      if child_of cur p then
        if procstate_eqb (state p) ZOMBIE then inl i
        else wait_find cur ps' (S i) true
      else wait_find cur ps' (S i) havekids
  end.

(** A system call either returns a value or has put its caller to sleep. *)
Inductive outcome : Type :=
| Ret (v : Z)
| Sleeps.

(** One turn of the [for(;;)] of wait, the lock held. *)
Definition wait_pass (cur : nat) (s : kstate) : outcome * kstate :=
  match wait_find cur (ptable s) 0 false with
  | inl i =>
      let v := pid (getp s i) in
      let s := kfree_kstack i s in
      let s := upd_slot i (set_kstack 0) s in
      let s := freevm_pgdir i s in
      let s := upd_slot i (set_pid 0) s in
      let s := upd_slot i (set_parent None) s in
      let s := upd_slot i (fun p => set_name (<[0%nat := 0]> (name p)) p) s in
      let s := upd_slot i (set_killed 0) s in
      let s := write_state i UNUSED s in
      (Ret v, release s)
  | inr havekids =>
      if negb havekids || negb (killed (getp s cur) =? 0)
      then (Ret (-1), release s)
      else (Sleeps, sleep_enter cur (CProc cur) LkPtable s)
  end.

(** [wait()] from its entry, and from the return of its sleep. *)
Definition wait (cur : nat) (s : kstate) : outcome * kstate :=
  wait_pass cur (acquire s).

Definition wait_resume (cur : nat) (s : kstate) : outcome * kstate :=
  wait_pass cur (sleep_resume cur LkPtable s).

(** ** Threads: clone and join *)

(** The first slot that is a child of [cur] with pid [v]. *)
Fixpoint join_find (cur : nat) (v : Z) (ps : list proc) (i : nat) : option nat :=
  match ps with
  | [] => None
  | p :: ps' =>
      if child_of cur p && (pid p =? v) then Some i
      else join_find cur v ps' (S i)
  end.

(** The [while] of join and what follows it; the result carries
    [( *retval, *stack)] when join returns 0. *)
Definition join_pass (cur : nat) (v : Z) (child : nat) (s : kstate)
  : outcome * kstate * option (Z * Z) :=
  if negb (procstate_eqb (state (getp s child)) ZOMBIE)
  then (Sleeps, sleep_enter cur (chan_of_int v) LkPtable s, None)
  else
    let out := (tretval (getp s child), tstack (getp s child)) in
    let s := upd_slot child (set_athread 0) s in
    let s := upd_slot child (set_tretval 0) s in
    let s := upd_slot child (set_tstack 0) s in
    let s := upd_slot child (set_sz 0) s in
    let s := upd_slot child (set_pgdir 0) s in
    let s := kfree_kstack child s in
    let s := upd_slot child (set_kstack 0) s in
    let s := write_state child UNUSED s in
    let s := upd_slot child (set_parent None) s in
    let s := upd_slot child (set_killed 0) s in
    let s := upd_slot child (fun p => set_name (<[0%nat := 0]> (name p)) p) s in
    (Ret 0, release s, Some out).

Definition join (cur : nat) (v : Z) (s : kstate)
  : outcome * kstate * option (Z * Z) :=
  let s := acquire s in
  match join_find cur v (ptable s) 0 with
  | None => (Ret (-1), release s, None)
  | Some child => join_pass cur v child s
  end.

Definition thread_init (K : kconsts) (np : nat) (stack : Z) (cur : nat)
    (s : kstate) : kstate :=
  let s := upd_slot np (set_athread 1) s in
  let s := upd_slot np (set_tstack stack) s in
  let s := upd_slot np (set_pgdir (pgdir (getp s cur))) s in
  let s := upd_slot np (set_sz (sz (getp s cur))) s in
  let s := upd_slot np (set_parent (Some cur)) s in
  let s := upd_slot np (set_killed 0) s in
  upd_slot cur (set_name (safestrcpy K (name (getp s cur)) (name (getp s np))
                            (name_size (getp s np)))) s.

(** ** User memory *)

(** The address space of the running process: a byte at every 32-bit
    address. *)
Definition mem : Type := Z -> Z.

Definition store8 (m : mem) (a b : Z) : mem :=
  fun x => if x =? wrap32 a then b mod 256 else m x.

Definition load8 (m : mem) (a : Z) : Z := m (wrap32 a).

(** [*(uint* )a = v], little-endian. *)
Definition store32 (m : mem) (a v : Z) : mem :=
  store8 (store8 (store8 (store8 m a v) (a + 1) (v / 2 ^ 8))
            (a + 2) (v / 2 ^ 16)) (a + 3) (v / 2 ^ 24).

Definition load32 (m : mem) (a : Z) : Z :=
  load8 m a + 2 ^ 8 * load8 m (a + 1) + 2 ^ 16 * load8 m (a + 2)
  + 2 ^ 24 * load8 m (a + 3).

(** [clone(func, arg, stack)]. *)
Definition clone (K : kconsts) (ka func arg stack : Z) (cur : nat)
    (s : kstate) (m : mem) : Z * kstate * mem :=
  let s := acquire s in
  match allocproc K ka s with
  | (None, s) => (-1, s, m)
  | (Some np, s) =>
      let s := thread_init K np stack cur s in
      let s := upd_slot np (set_tf (tf (getp s cur))) s in
      let s := dup_files cur np s in
      let esp := wrap32 (stack + PGSIZE K - 8) in
      let s := upd_slot np (fun p => set_tf (set_tf_esp esp (tf p)) p) s in
      let m := store32 m esp 0 in
      let m := store32 m (esp + 4) arg in
      let s := upd_slot np (fun p => set_tf (set_tf_eip func (tf p)) p) s in
      let s := write_state np RUNNABLE s in
      let s := release s in
      (pid (getp s np), s, m)
  end.

(** ** Signal delivery *)

(** [handlers[signum]].  The array is the list [hs]; an index outside it
    reaches whatever lies beside the array in [struct proc], which proc.c
    does not say: there the model has no value. *)
Definition handler_at (hs : list Z) (signum : Z) : option Z :=
  if signum <? 0 then None else hs !! Z.to_nat signum.

(** [signal_deliver(signum)] on the running process [p], up to its last
    statement: the frame on the user stack and the new esp.  [cr2] is what
    rcr2() returns, [getprot] the page-table query of the VM layer, and
    [info0] what the local [info] holds when no case of the switch assigns
    it.  [siginfo_t] is (addr, type), four bytes each. *)
Definition signal_frame (K : kconsts) (cr2 : Z) (getprot : Z -> Z -> Z)
    (info0 : Z * Z) (signum : Z) (p : proc) (m : mem) : proc * mem :=
  let info := if signum =? SIGSEGV K
              then (cr2, getprot (pgdir p) cr2) else info0 in
  let old_eip := tf_eip (tf p) in
  let esp := tf_esp (tf p) in
  let m := store32 m (esp - 4) old_eip in
  let m := store32 m (esp - 8) (tf_eax (tf p)) in
  let m := store32 m (esp - 12) (tf_ecx (tf p)) in
  let m := store32 m (esp - 16) (tf_edx (tf p)) in
  let m := store32 (store32 m (esp - 24) (fst info)) (esp - 24 + 4) (snd info) in
  let m := store32 m (esp - 28) signum in
  let m := store32 m (esp - 32) (restorer_addr p) in
  let p := set_tf (set_tf_esp (wrap32 (esp - 32)) (tf p)) p in
  (p, m).

(** [signal_deliver(signum)]: the frame, then
    [eip = handlers[signum]]; no result when [signum] is outside the
    array. *)
Definition signal_deliver (K : kconsts) (cr2 : Z) (getprot : Z -> Z -> Z)
    (info0 : Z * Z) (signum : Z) (p : proc) (m : mem) : option (proc * mem) :=
  let '(p, m) := signal_frame K cr2 getprot info0 signum p m in
  match handler_at (handlers p) signum with
  | Some h => Some (set_tf (set_tf_eip h (tf p)) p, m)
  | None => None
  end.

(** ** mprotect and the copy-on-write hook *)

(** The page tables belong to the VM layer: [V] is its state, and each of
    its routines maps a state and its arguments to the new state and the
    value returned. *)
(** What cow_on does outside proc.c. *)
Inductive vmcall : Type :=
| CallCprintf
| CallCopyFreePg (pd addr : Z).

Section VM.
Context {V : Type}.
Variable K : kconsts.
Variable applyprot : V -> Z -> Z -> Z -> V * Z.
Variable cow_copyfreepg : V -> Z -> Z -> V * Z.

(** The [for] of mprotect; [i] and [lim] are [int]s.  [None] when the
    fuel runs out before the loop ends. *)
Fixpoint mprotect_loop (fuel : nat) (v : V) (pd i lim prot : Z)
  : option (Z * V) :=
  match fuel with
  | O => None
  | S fuel' =>
      if i <? lim then
        let '(v', bad) := applyprot v pd (wrap32 i) prot in
        if bad =? 0
        then mprotect_loop fuel' v' pd (sint32 (i + PGSIZE K)) lim prot
        else Some (-1, v')
      else Some (0, v)
  end.

(** [mprotect(addr, len, prot)] of the process with page directory [pd]. *)
Definition mprotect (fuel : nat) (v : V) (pd addr len prot : Z)
  : option (Z * V) :=
  if negb (Z.rem (sint32 addr) (PGSIZE K) =? 0) then Some (-1, v)
  else mprotect_loop fuel v pd (sint32 addr) (sint32 (sint32 addr + len)) prot.

(** [cow_on()]; [cr2] is what rcr2() returns. *)
Definition cow_on (cr2 : Z) (pd : Z) (v : V) : Z * V * list vmcall :=
  let addr := cr2 in
  if KERNBASE K <? addr then (-1, v, [CallCprintf])
  else
    let '(v', r) := cow_copyfreepg v pd addr in
    (r, v', [CallCopyFreePg pd addr]).
End VM.

(** ** texit and the scheduler's dispatch *)

(** The loop of exit and texit that hands the children of [cur] to init,
    over the [n] slots from [i] on. *)
Fixpoint reparent (cur : nat) (n i : nat) (s : kstate) : kstate :=
  match n with
  | O => s
  | S n' =>
      let s :=
        if child_of cur (getp s i) then
          let s := upd_slot i (set_parent (initproc s)) s in
          if procstate_eqb (state (getp s i)) ZOMBIE
          then wakeup1 (chan_of_ptr (initproc s)) s else s
        else s in
      reparent cur n' (S i) s
  end.

(** [fileclose] for every open descriptor, in order. *)
Definition close_events (fs : list Z) : list event :=
  map EvFileclose (List.filter (fun f => negb (f =? 0)) fs).

(** [exit()] up to its sched(), for a process other than init (for init
    it panics). *)
Definition exit (cur : nat) (s : kstate) : kstate :=
  let s := emit (close_events (ofile (getp s cur))) s in
  let s := upd_slot cur (fun p => set_ofile (map (fun _ => 0) (ofile p)) p) s in
  let s := emit [EvIput (cwd (getp s cur))] s in
  let s := upd_slot cur (set_cwd 0) s in
  let s := acquire s in
  let s := wakeup1 (chan_of_ptr (parent (getp s cur))) s in
  let s := reparent cur (length (ptable s)) 0 s in
  write_state cur ZOMBIE s.

(** [texit(retval)] up to its sched(); a process that is not a thread
    returns at once. *)
Definition texit (retval : Z) (cur : nat) (s : kstate) : kstate :=
  if athread (getp s cur) =? 0 then s
  else
    let s := upd_slot cur (set_tretval retval) s in
    let s := acquire s in
    let s := wakeup1 (chan_of_int (pid (getp s cur))) s in
    let s := reparent cur (length (ptable s)) 0 s in
    write_state cur ZOMBIE s.

(** The scheduler choosing the slot [i]: it runs the slot with the lock
    held; a new process then starts in forkret, which releases it. *)
Definition scheduler_pick (i : nat) (s : kstate) : kstate :=
  let s := acquire s in
  if procstate_eqb (state (getp s i)) RUNNABLE then write_state i RUNNING s else s.

Definition forkret (s : kstate) : kstate := release s.

(** The scheduler again, after a process has switched back to it: at the
    end of its scan it releases the lock. *)
Definition scheduler_done (s : kstate) : kstate := release s.

(** ** The properties of the specification *)

(** P4: what a reaped slot looks like; [thread] is the [athread] mark the
    child had when it was reaped. *)
Definition reaped_clean (thread : Z) (p : proc) : Prop :=
  state p = UNUSED /\ pid p = 0 /\ parent p = None /\ kstack p = 0 /\
  (thread = 0 -> pgdir p = 0).

(** The slot wait leaves behind when it reaps the ZOMBIE [p]. *)
Definition reaped (p : proc) : proc :=
  set_state UNUSED (set_killed 0 (set_name (<[0%nat := 0]> (name p))
    (set_parent None (set_pid 0 (set_kstack 0 p))))).


(** One half of it: a SLEEPING slot has a channel. *)
Definition sleeping_has_chan (s : kstate) : Prop :=
  Forall (fun p => state p = SLEEPING -> chan p <> CNull) (ptable s).

(** What wakeup1 does to one slot. *)
Definition wake_on (c : chan_t) (p : proc) : proc :=
  if procstate_eqb (state p) SLEEPING && chan_eqb (chan p) c
  then set_state RUNNABLE p else p.

(** No slot with pid 0 is in use. *)
Definition pid0_unused (s : kstate) : Prop :=
  Forall (fun p => pid p = 0 -> state p = UNUSED) (ptable s).

(** L3: the pages of a range and what the VM layer says to each. *)
Section Pages.
Context {V : Type}.
Variable K : kconsts.
Variable applyprot : V -> Z -> Z -> Z -> V * Z.

(** The VM state once applyprot has been called on the [n] pages from
    the address [a] on. *)
Fixpoint vm_after (n : nat) (v : V) (pd a prot : Z) : V :=
  match n with
  | O => v
  | S n' =>
      vm_after n' (fst (applyprot v pd (wrap32 a) prot)) pd (a + PGSIZE K) prot
  end.

(** The page number [k] of the range that starts at [a] cannot accept
    [prot]: applyprot fails on it, once the pages before it are done. *)
Definition page_refused (k : nat) (v : V) (pd a prot : Z) : Prop :=
  snd (applyprot (vm_after k v pd a prot) pd
         (wrap32 (a + Z.of_nat k * PGSIZE K)) prot) <> 0.
End Pages.

(** ** A small machine for the worked examples *)

(** The string copy of the examples, bounded and NUL-terminated as in
    xv6's string.c: at most [n - 1] bytes of [t], stopping after a NUL,
    then a closing NUL.  [n] counts as C's [n] before [--n]. *)
Fixpoint bounded_copy_from (i : nat) (s t : list Z) (n : nat) : list Z :=
  match n with
  | S (S _ as n') =>
      let c := default 0 (t !! i) in
      let s1 := <[i := c]> s in
      if c =? 0 then <[S i := 0]> s1 else bounded_copy_from (S i) s1 t n'
  | _ => <[i := 0]> s
  end.

Definition bounded_copy (s t : list Z) (n : Z) : list Z :=
  if n <=? 0 then s else bounded_copy_from 0 s t (Z.to_nat n).

(** The page size and kernel base of xv6 on x86; the signal numbers are
    those of the examples only. *)
Definition xv6 : kconsts :=
  {| SIGKILL := 0; SIGFPE := 1; SIGSEGV := 2; PGSIZE := 4096;
     KERNBASE := 2147483648; safestrcpy := bounded_copy |}.

(** A name field of 16 bytes holding "sh". *)
Definition name_sh : list Z := [115; 104; 0; 0; 0; 0; 0; 0; 0; 0; 0; 0; 0; 0; 0; 0].

Definition free_slot : proc :=
  set_handlers [0; 0; 0; 0] (set_ofile [0; 0] (set_name (repeat 0 16) proc0)).

(** A shell: pid 1, running, its page directory at 0x1000. *)
Definition shell : proc :=
  set_tf {| tf_eax := 22; tf_ecx := 7; tf_edx := 9; tf_eip := 4660; tf_esp := 12272 |}
    (set_ofile [0; 77] (set_cwd 55 (set_name name_sh (set_sz 12288
      (set_pgdir 4096 (set_kstack 2147500032 (set_pid 1
        (set_state RUNNING free_slot)))))))).

(** The shell alone in a table of three slots. *)
Definition boot : kstate :=
  {| ptable := [shell; free_slot; free_slot]; locked := false; nextpid := 2;
     initproc := Some 0%nat; klog := [] |}.

Definition mem0 : mem := fun _ => 0.

(** The shell forks (kernel stack at 0x80005000, page directory 0x5000);
    the child runs and exits. *)
Definition forked : kstate := snd (fork xv6 2147504128 20480 0 boot).
Definition child_exited : kstate :=
  scheduler_done (exit 1 (forkret (scheduler_pick 1 forked))).

(** The shell starts a thread on the stack page 0x2000; the thread runs
    and calls texit. *)
Definition cloned : kstate :=
  snd (fst (clone xv6 2147504128 256 5 8192 0 boot mem0)).
Definition thread_exited : kstate :=
  scheduler_done (texit 42 1 (forkret (scheduler_pick 1 cloned))).

(** The shell sleeps on the channel 7, giving up another lock; then a
    wakeup on that channel, or a kill of pid 1, comes from another CPU. *)
Definition asleep : kstate :=
  scheduler_done (sleep_enter 0 (CVal 7) LkOther boot).

(** The shell forks a second time: the three slots are taken. *)
Definition crowded : kstate := snd (fork xv6 2147508224 24576 0 forked).

(** The two children of the shell run and exit, one after the other, and
    the shell calls wait twice. *)
Definition both_exited : kstate :=
  scheduler_done (exit 2 (forkret (scheduler_pick 2
    (scheduler_done (exit 1 (forkret (scheduler_pick 1 crowded))))))).
Definition reaped_one : kstate := snd (wait 0 both_exited).
Definition reaped_two : kstate := snd (wait 0 reaped_one).

(** The shell with a handler at 0x2000 for signal 2 and its restorer at
    0x2100. *)
Definition shell_sig : proc :=
  set_handlers [minus_one; minus_one; 8192; 0] (set_restorer_addr 8448 shell).

(** A VM layer for the examples: its state is the list of the pages whose
    protection was changed; the page at 0x3000 accepts no change. *)
Definition applyprot_ex (v : list (Z * Z)) (pd a prot : Z) : list (Z * Z) * Z :=
  if a =? 12288 then (v, -1) else (v ++ [(a, prot)], 0).

(** A VM layer that refuses every page. *)
Definition applyprot_no (v : list (Z * Z)) (pd a prot : Z) : list (Z * Z) * Z :=
  (v ++ [(a, prot)], -1).

(** ** The rest of proc.c *)

(** [signal_register_handler(signum, handler)]; [p] is the running
    process, [None] when there is none.  The result is the value returned
    and the process afterwards; there is none when [signum] is outside the
    array, where the code reads and writes beside it. *)
Definition signal_register_handler (signum handler : Z) (p : option proc)
  : option (Z * option proc) :=
  match p with
  | None => Some (minus_one, None)
  | Some p =>
      match handler_at (handlers p) signum with
      | Some previous =>
          Some (previous,
                Some (set_handlers (<[Z.to_nat signum := handler]> (handlers p)) p))
      | None => None
      end
  end.

(** [yield()] up to its sched(), and after the scheduler has switched
    back. *)
Definition yield_enter (cur : nat) (s : kstate) : kstate :=
  let s := acquire s in
  write_state cur RUNNABLE s.

Definition yield_resume (s : kstate) : kstate := release s.

(** [growproc(n)] over the VM layer: [allocuvm] and [deallocuvm] map the
    VM state, the page directory, the old and the new size to the new VM
    state and the size they return (0 on failure); [switchuvm] loads the
    address space of a process. *)
Section Grow.
Context {V : Type}.
Variable allocuvm : V -> Z -> Z -> Z -> V * Z.
Variable deallocuvm : V -> Z -> Z -> Z -> V * Z.
Variable switchuvm : V -> proc -> V.

Definition growproc (n : Z) (cur : nat) (s : kstate) (v : V) : Z * kstate * V :=
  let sz0 := sz (getp s cur) in
  let '(v, sz1, failed) :=
    if 0 <? n then
      let '(v, r) := allocuvm v (pgdir (getp s cur)) sz0 (wrap32 (sz0 + n)) in
      (v, r, r =? 0)
    else if n <? 0 then
      let '(v, r) := deallocuvm v (pgdir (getp s cur)) sz0 (wrap32 (sz0 + n)) in
      (v, r, r =? 0)
    else (v, sz0, false) in
  if failed then (-1, s, v)
  else
    let s := upd_slot cur (set_sz sz1) s in
    (0, s, switchuvm v (getp s cur)).
End Grow.

(** ** Further properties of the table *)

(** The slot allocproc hands out, before its caller fills it in. *)
Definition slot_defaults (K : kconsts) (p : proc) : proc :=
  set_athread 0 (set_restorer_addr minus_one (set_cow 0
    (set_handlers
       (<[Z.to_nat (SIGSEGV K) := minus_one]>
          (<[Z.to_nat (SIGFPE K) := minus_one]>
             (<[Z.to_nat (SIGKILL K) := minus_one]> (handlers p))))
       p))).

(** P1, one half: every pid in the table was drawn before [nextpid]. *)
Definition pids_below (s : kstate) : Prop :=
  Forall (fun p => pid p < nextpid s) (ptable s).

(** A slot with its state and its parent blanked: what the loop of exit
    and texit leaves alone. *)
Definition but_state_parent (p : proc) : proc :=
  set_parent None (set_state UNUSED p).

(** What the loop that hands the children of [cur] to init, run over the
    slots from [lo] up to [hi], does to the slot [j]: [p] before, [q]
    after, [ini] being [initproc]. *)
Definition reparent_spec (cur : nat) (lo hi : nat) (ini : option nat)
    (p q : proc) (j : nat) : Prop :=
  but_state_parent q = but_state_parent p /\
  parent q = (if (lo <=? j)%nat && (j <? hi)%nat && child_of cur p
              then ini else parent p) /\
  (state q = state p \/ (state p = SLEEPING /\ state q = RUNNABLE)).

(** A VM layer for the examples of growproc: its state counts the calls;
    allocation and deallocation return the size asked for. *)
Definition allocuvm_ex (v : nat) (pd oldsz newsz : Z) : nat * Z := (S v, newsz).
Definition switchuvm_ex (v : nat) (p : proc) : nat := S v.


(** ** The operations on the table *)



(** A process with a stale descriptor in the free slot it forks into. *)
Definition stale_slot : kstate :=
  upd_slot 1 (set_ofile [99; 0]) boot.

(** * Properties *)

(** Closed statements about the worked examples are settled by running
    the functions. *)
Ltac by_evaluation :=
  repeat match goal with |- _ /\ _ => split end; vm_compute; reflexivity.

(** ** Slots and their updates *)

Lemma getp_lookup (s : kstate) (i : nat) (p : proc) :
  ptable s !! i = Some p -> getp s i = p.
Proof. unfold getp. intros ->. reflexivity. Qed.

Lemma getp_upd_same (s : kstate) (i : nat) (f : proc -> proc) :
  (i < length (ptable s))%nat -> getp (upd_slot i f s) i = f (getp s i).
Proof.
  intros Hi. unfold getp, upd_slot. simpl.
  rewrite list_lookup_alter_eq.
  destruct (lookup_lt_is_Some_2 (ptable s) i Hi) as [p Hp].
  rewrite Hp. reflexivity.
Qed.

Lemma getp_upd_ne (s : kstate) (i j : nat) (f : proc -> proc) :
  i <> j -> getp (upd_slot i f s) j = getp s j.
Proof.
  intros Hij. unfold getp, upd_slot. simpl.
  rewrite list_lookup_alter_ne by exact Hij. reflexivity.
Qed.

Lemma alter_lookup_insert (f : proc -> proc) (l : list proc) (i : nat) (p : proc) :
  l !! i = Some p -> alter f i l = <[i := f p]> l.
Proof.
  intros Hp. apply list_eq. intros j.
  destruct (decide (i = j)) as [<- | Hne].
  - rewrite list_lookup_alter_eq, Hp.
    rewrite list_lookup_insert_eq by (eapply lookup_lt_Some; eassumption).
    reflexivity.
  - rewrite list_lookup_alter_ne, list_lookup_insert_ne by exact Hne.
    reflexivity.
Qed.

(** The primitives on a state whose slot [i] is known. *)
Section Primitives.
Variables (pt : list proc) (lk : bool) (np : Z) (ip : option nat)
          (lg : list event) (i : nat) (q : proc).
Hypothesis Hi : (i < length pt)%nat.

Let st (t : list proc) (g : list event) (l : bool) : kstate :=
  {| ptable := t; locked := l; nextpid := np; initproc := ip; klog := g |}.

Lemma getp_ins : getp (st (<[i := q]> pt) lg lk) i = q.
Proof. unfold getp. simpl. rewrite list_lookup_insert_eq by exact Hi. reflexivity. Qed.

Lemma upd_slot_ins (f : proc -> proc) :
  upd_slot i f (st (<[i := q]> pt) lg lk) = st (<[i := f q]> pt) lg lk.
Proof.
  unfold upd_slot, set_ptable, st. simpl. f_equal.
  rewrite (alter_lookup_insert f _ i q)
    by (apply list_lookup_insert_eq; exact Hi).
  apply list_insert_insert_eq.
Qed.

Lemma write_state_ins (x : procstate) :
  write_state i x (st (<[i := q]> pt) lg lk)
  = st (<[i := set_state x q]> pt) (lg ++ [EvState i (state q) x lk]) lk.
Proof.
  unfold write_state. cbn [ptable st].
  rewrite list_lookup_insert_eq by exact Hi.
  fold (st (<[i := q]> pt) lg lk). rewrite upd_slot_ins. reflexivity.
Qed.

Lemma kfree_kstack_ins :
  kfree_kstack i (st (<[i := q]> pt) lg lk)
  = st (<[i := q]> pt) (lg ++ [EvKfree (kstack q)]) lk.
Proof. unfold kfree_kstack. rewrite getp_ins. reflexivity. Qed.

Lemma freevm_pgdir_ins :
  freevm_pgdir i (st (<[i := q]> pt) lg lk)
  = st (<[i := q]> pt) (lg ++ [EvFreevm (pgdir q)]) lk.
Proof. unfold freevm_pgdir. rewrite getp_ins. reflexivity. Qed.

Lemma wake_sleeper_ins :
  wake_sleeper i (st (<[i := q]> pt) lg lk)
  = if procstate_eqb (state q) SLEEPING
    then st (<[i := set_state RUNNABLE q]> pt)
            (lg ++ [EvState i (state q) RUNNABLE lk]) lk
    else st (<[i := q]> pt) lg lk.
Proof.
  unfold wake_sleeper. rewrite getp_ins.
  destruct (procstate_eqb (state q) SLEEPING); [apply write_state_ins | reflexivity].
Qed.
End Primitives.

Lemma state_eta (s : kstate) (i : nat) (p : proc) :
  ptable s !! i = Some p ->
  s = {| ptable := <[i := p]> (ptable s); locked := locked s;
         nextpid := nextpid s; initproc := initproc s; klog := klog s |}.
Proof. intros Hp. rewrite (list_insert_id _ _ _ Hp). destruct s; reflexivity. Qed.

Lemma procstate_eqb_eq (a b : procstate) : procstate_eqb a b = true <-> a = b.
Proof. destruct a, b; simpl; split; intros H; congruence. Qed.

(** ** wait *)

Lemma wait_find_inl (cur : nat) (ps : list proc) (k : nat) (hk : bool) (i : nat) :
  wait_find cur ps k hk = inl i ->
  exists p, (k <= i)%nat /\ ps !! (i - k)%nat = Some p /\
            child_of cur p = true /\ state p = ZOMBIE.
Proof.
  revert k hk. induction ps as [| q ps IH]; intros k hk H; simpl in H.
  - discriminate.
  - destruct (child_of cur q) eqn:Hc.
    + destruct (procstate_eqb (state q) ZOMBIE) eqn:Hz.
      * injection H as <-. exists q. rewrite Nat.sub_diag.
        repeat split; auto. destruct (state q); simpl in Hz; congruence.
      * apply IH in H as (p & Hle & Hp & Hcp & Hzp).
        exists p. repeat split; auto; [lia |].
        replace (i - k)%nat with (S (i - S k)) by lia. exact Hp.
    + apply IH in H as (p & Hle & Hp & Hcp & Hzp).
      exists p. repeat split; auto; [lia |].
      replace (i - k)%nat with (S (i - S k)) by lia. exact Hp.
Qed.

Lemma wait_pass_reaps (cur : nat) (s : kstate) (i : nat) (p : proc) :
  wait_find cur (ptable s) 0 false = inl i ->
  ptable s !! i = Some p ->
  wait_pass cur s =
    (Ret (pid p),
     {| ptable := <[i := reaped p]> (ptable s); locked := false;
        nextpid := nextpid s; initproc := initproc s;
        klog := klog s ++ [EvKfree (kstack p); EvFreevm (pgdir p);
                           EvState i ZOMBIE UNUSED (locked s)] |}).
Proof.
  intros Hf Hp.
  destruct (wait_find_inl _ _ _ _ _ Hf) as (p' & _ & Hp' & _ & Hz).
  rewrite Nat.sub_0_r, Hp in Hp'. injection Hp' as <-.
  assert (Hi : (i < length (ptable s))%nat) by (eapply lookup_lt_Some; eassumption).
  unfold wait_pass. rewrite Hf. cbv zeta.
  rewrite (getp_lookup s i p Hp).
  rewrite (state_eta s i p Hp) at 1.
  rewrite kfree_kstack_ins, upd_slot_ins, freevm_pgdir_ins by exact Hi.
  rewrite !upd_slot_ins, write_state_ins by exact Hi.
  unfold release, set_locked, reaped. simpl. rewrite Hz.
  rewrite <- !app_assoc. reflexivity.
Qed.

(** C1, as the code has it: after a call of wait that returns the pid of a
    child, the reaped slot is UNUSED with pid 0, no parent, no kernel stack
    and [killed] cleared, the lock is released, and the slot's [pgdir]
    field still holds the pointer that was handed to freevm: wait does not
    clear it, for a thread or for a process. *)
Theorem wait_reaped_slot (cur : nat) (s : kstate) (i : nat) :
  wait_find cur (ptable s) 0 false = inl i ->
  exists s', wait_pass cur s = (Ret (pid (getp s i)), s') /\
    state (getp s' i) = UNUSED /\ pid (getp s' i) = 0 /\
    parent (getp s' i) = None /\ kstack (getp s' i) = 0 /\
    killed (getp s' i) = 0 /\
    pgdir (getp s' i) = pgdir (getp s i) /\
    locked s' = false.
Proof.
  intros Hf.
  destruct (wait_find_inl _ _ _ _ _ Hf) as (p & _ & Hp & _ & _).
  rewrite Nat.sub_0_r in Hp.
  rewrite (getp_lookup s i p Hp).
  eexists. split; [apply (wait_pass_reaps cur s i p Hf Hp) |].
  unfold getp. simpl.
  rewrite list_lookup_insert_eq by (eapply lookup_lt_Some; eassumption). simpl.
  repeat split; reflexivity.
Qed.

Lemma wait_reaped_slot_witness :
  wait_find 0 (ptable (acquire child_exited)) 0 false = inl 1%nat /\
  exists s',
    wait_pass 0 (acquire child_exited)
      = (Ret (pid (getp (acquire child_exited) 1)), s') /\
    state (getp s' 1) = UNUSED /\ pid (getp s' 1) = 0 /\
    parent (getp s' 1) = None /\ kstack (getp s' 1) = 0 /\
    killed (getp s' 1) = 0 /\
    pgdir (getp s' 1) = pgdir (getp (acquire child_exited) 1) /\
    locked s' = false.
Proof.
  split; [vm_compute; reflexivity |].
  apply (wait_reaped_slot 0 (acquire child_exited) 1).
  vm_compute; reflexivity.
Defined.

(** C1 as the specification words it fails on a process that forked a
    child which exited: wait returns the child's pid 2, the child was no
    thread, and its slot keeps the page directory 0x5000. *)
Lemma wait_keeps_pgdir_field :
  fst (wait 0 child_exited) = Ret 2 /\
  athread (getp child_exited 1) = 0 /\
  ~ reaped_clean (athread (getp child_exited 1))
      (getp (snd (wait 0 child_exited)) 1).
Proof.
  split; [vm_compute; reflexivity |]. split; [vm_compute; reflexivity |].
  intros (_ & _ & _ & _ & Hpd).
  assert (Ht : athread (getp child_exited 1) = 0) by (vm_compute; reflexivity).
  specialize (Hpd Ht). vm_compute in Hpd. discriminate Hpd.
Qed.

(** C2: wait hands the page directory of every child it reaps to freevm,
    thread or not.  A shell (page directory 0x1000) starts a thread, the
    thread calls texit, the shell calls wait: wait returns the thread's
    pid and frees the page directory the shell itself runs on. *)
Theorem wait_frees_thread_pgdir :
  athread (getp thread_exited 1) = 1 /\
  pgdir (getp thread_exited 1) = pgdir (getp thread_exited 0) /\
  fst (wait 0 thread_exited) = Ret 2 /\
  klog (snd (wait 0 thread_exited)) =
    klog thread_exited ++
    [EvKfree 2147504128; EvFreevm (pgdir (getp thread_exited 0));
     EvState 1 ZOMBIE UNUSED true].
Proof. by_evaluation. Qed.

(** The same for any table: the reaping path of wait never looks at
    [athread]. *)
Lemma wait_frees_any_child (cur : nat) (s : kstate) (i : nat) :
  wait_find cur (ptable s) 0 false = inl i ->
  In (EvFreevm (pgdir (getp s i))) (klog (snd (wait_pass cur s))).
Proof.
  intros Hf.
  destruct (wait_find_inl _ _ _ _ _ Hf) as (p & _ & Hp & _ & _).
  rewrite Nat.sub_0_r in Hp.
  rewrite (wait_pass_reaps cur s i p Hf Hp), (getp_lookup s i p Hp). simpl.
  apply in_or_app. right. simpl. auto.
Qed.

(** join, the other reaping path, clears the field and frees only the
    kernel stack. *)
Lemma join_spares_pgdir :
  fst (fst (join 0 2 thread_exited)) = Ret 0 /\
  klog (snd (fst (join 0 2 thread_exited))) =
    klog thread_exited ++ [EvKfree 2147504128; EvState 1 ZOMBIE UNUSED true] /\
  pgdir (getp (snd (fst (join 0 2 thread_exited))) 1) = 0.
Proof. by_evaluation. Qed.

(** ** kill *)

Lemma find_pid_Some (v : Z) (ps : list proc) (k j : nat) :
  find_pid v ps k = Some j ->
  (k <= j)%nat /\ exists p, ps !! (j - k)%nat = Some p /\ pid p = v.
Proof.
  revert k. induction ps as [| q ps IH]; intros k H; simpl in H.
  - discriminate.
  - destruct (pid q =? v) eqn:E.
    + injection H as <-. split; [lia |]. exists q.
      rewrite Nat.sub_diag. split; [reflexivity | lia].
    + apply IH in H as (Hle & p & Hp & Hv). split; [lia |].
      exists p. split; [| exact Hv].
      replace (j - k)%nat with (S (j - S k)) by lia. exact Hp.
Qed.

Lemma find_pid_first (v : Z) (ps : list proc) (k j m : nat) (p : proc) :
  find_pid v ps k = Some j -> (m < j - k)%nat -> ps !! m = Some p -> pid p <> v.
Proof.
  revert k m. induction ps as [| q ps IH]; intros k m H Hm Hp; simpl in H.
  - discriminate.
  - destruct (pid q =? v) eqn:E.
    + injection H as <-. lia.
    + destruct m as [| m']; simpl in Hp.
      * injection Hp as <-. lia.
      * apply (IH (S k) m' H); [| exact Hp].
        pose proof (find_pid_Some _ _ _ _ H) as [Hle _]. lia.
Qed.

Lemma find_pid_exists (v : Z) (ps : list proc) (k i : nat) (p : proc) :
  ps !! i = Some p -> pid p = v ->
  exists j, find_pid v ps k = Some j /\ (j <= k + i)%nat.
Proof.
  revert k i. induction ps as [| q ps IH]; intros k i Hp Hv.
  - destruct i; discriminate.
  - simpl. destruct (pid q =? v) eqn:E.
    + exists k. split; [reflexivity | lia].
    + destruct i as [| i']; simpl in Hp.
      * injection Hp as <-. lia.
      * destruct (IH (S k) i' Hp Hv) as (j & Hj & Hle).
        exists j. split; [exact Hj | lia].
Qed.

(** What kill does when the scan stops at the slot [j]. *)
Lemma kill_found (v : Z) (s : kstate) (j : nat) (p : proc) :
  find_pid v (ptable s) 0 = Some j ->
  ptable s !! j = Some p ->
  kill v s =
    (0, if procstate_eqb (state p) SLEEPING
        then {| ptable := <[j := set_state RUNNABLE (set_killed 1 p)]> (ptable s);
                locked := false; nextpid := nextpid s; initproc := initproc s;
                klog := klog s ++ [EvState j SLEEPING RUNNABLE true] |}
        else {| ptable := <[j := set_killed 1 p]> (ptable s);
                locked := false; nextpid := nextpid s; initproc := initproc s;
                klog := klog s |}).
Proof.
  intros Hf Hp.
  assert (Hj : (j < length (ptable s))%nat) by (eapply lookup_lt_Some; eassumption).
  unfold kill. cbn [acquire set_locked ptable]. rewrite Hf. cbv zeta.
  unfold acquire, set_locked. rewrite <- (list_insert_id _ _ _ Hp) at 1.
  rewrite upd_slot_ins, wake_sleeper_ins by exact Hj.
  cbn [state set_killed].
  destruct (procstate_eqb (state p) SLEEPING) eqn:E; [| reflexivity].
  apply procstate_eqb_eq in E. rewrite E. reflexivity.
Qed.

Lemma kill_not_found (v : Z) (s : kstate) :
  find_pid v (ptable s) 0 = None -> kill v s = (-1, release s).
Proof.
  intros Hf. unfold kill. cbn [acquire set_locked ptable]. rewrite Hf.
  reflexivity.
Qed.

(** C10, as the code has it: kill compares pids and nothing else.  Once
    wait has reaped the slot [i], in a table where only UNUSED slots hold
    pid 0, kill(0) returns 0 and sets [killed] on an UNUSED slot whose pid
    is 0: the first such slot [j] of the table, which is the reaped slot
    itself when no slot before it holds pid 0. *)
Theorem kill_zero_hits_unused_slot (cur : nat) (s : kstate) (i : nat) :
  wait_find cur (ptable s) 0 false = inl i ->
  pid0_unused s ->
  exists j q,
    (j <= i)%nat /\
    find_pid 0 (ptable (snd (wait_pass cur s))) 0 = Some j /\
    fst (kill 0 (snd (wait_pass cur s))) = 0 /\
    ptable (snd (kill 0 (snd (wait_pass cur s)))) !! j = Some q /\
    pid q = 0 /\ state q = UNUSED /\ killed q = 1 /\
    ((forall k p, (k < i)%nat -> ptable s !! k = Some p -> pid p <> 0) -> j = i).
Proof.
  intros Hf Hinv.
  destruct (wait_find_inl _ _ _ _ _ Hf) as (p & _ & Hp & _ & _).
  rewrite Nat.sub_0_r in Hp.
  assert (Hi : (i < length (ptable s))%nat) by (eapply lookup_lt_Some; eassumption).
  rewrite (wait_pass_reaps cur s i p Hf Hp). cbn [snd ptable].
  set (pt' := <[i := reaped p]> (ptable s)).
  assert (Hpi : pt' !! i = Some (reaped p))
    by (apply list_lookup_insert_eq; exact Hi).
  destruct (find_pid_exists 0 pt' 0 i (reaped p) Hpi eq_refl) as (j & Hj & Hle).
  destruct (find_pid_Some _ _ _ _ Hj) as (_ & q & Hq & Hq0).
  rewrite Nat.sub_0_r in Hq.
  assert (Hinv' : Forall (fun p => pid p = 0 -> state p = UNUSED) pt').
  { apply Forall_insert; [exact Hinv | reflexivity]. }
  pose proof (Forall_lookup_1 _ _ _ _ Hinv' Hq Hq0) as Hqu.
  match goal with |- context [kill 0 ?s0] => set (s' := s0) end.
  pose proof (kill_found 0 s' j q Hj Hq) as Hk.
  rewrite Hqu in Hk. cbn [procstate_eqb] in Hk.
  exists j, (set_killed 1 q). rewrite Hk. cbn [fst snd ptable].
  split; [lia |]. split; [exact Hj |]. split; [reflexivity |].
  split.
  { apply list_lookup_insert_eq. eapply lookup_lt_Some. exact Hq. }
  split; [exact Hq0 |]. split; [exact Hqu |]. split; [reflexivity |].
  intros Hfirst. destruct (decide (j = i)) as [-> | Hne]; [reflexivity |].
  exfalso. assert (Hlt : (j < i)%nat) by lia.
  unfold pt' in Hq. rewrite list_lookup_insert_ne in Hq by lia.
  exact (Hfirst j q Hlt Hq Hq0).
Qed.

Lemma kill_zero_hits_unused_slot_witness :
  wait_find 0 (ptable (acquire child_exited)) 0 false = inl 1%nat /\
  pid0_unused (acquire child_exited) /\
  exists j q,
    (j <= 1)%nat /\
    find_pid 0 (ptable (snd (wait_pass 0 (acquire child_exited)))) 0 = Some j /\
    fst (kill 0 (snd (wait_pass 0 (acquire child_exited)))) = 0 /\
    ptable (snd (kill 0 (snd (wait_pass 0 (acquire child_exited))))) !! j = Some q /\
    pid q = 0 /\ state q = UNUSED /\ killed q = 1 /\
    ((forall k p, (k < 1)%nat -> ptable (acquire child_exited) !! k = Some p ->
                  pid p <> 0) -> j = 1%nat).
Proof.
  assert (Hf : wait_find 0 (ptable (acquire child_exited)) 0 false = inl 1%nat)
    by (vm_compute; reflexivity).
  assert (Hinv : pid0_unused (acquire child_exited)).
  { unfold pid0_unused. vm_compute ptable.
    repeat constructor; intros H; solve [reflexivity | discriminate H]. }
  split; [exact Hf |]. split; [exact Hinv |].
  exact (kill_zero_hits_unused_slot 0 (acquire child_exited) 1 Hf Hinv).
Defined.

(** C10 as it is worded fails once two slots have been reaped.  The shell
    forks twice, both children exit, and the shell reaps slot 1 and then
    slot 2.  Slot 2, which wait has just reaped, is UNUSED with pid 0;
    kill(0) returns 0, but its scan stops at slot 1: slot 2 keeps
    [killed = 0]. *)
Lemma kill_zero_misses_reaped_slot :
  fst (wait 0 both_exited) = Ret 2 /\ fst (wait 0 reaped_one) = Ret 3 /\
  wait_find 0 (ptable (acquire reaped_one)) 0 false = inl 2%nat /\
  state (getp reaped_two 2) = UNUSED /\ pid (getp reaped_two 2) = 0 /\
  fst (kill 0 reaped_two) = 0 /\
  killed (getp (snd (kill 0 reaped_two)) 2) = 0 /\
  state (getp (snd (kill 0 reaped_two)) 1) = UNUSED /\
  killed (getp (snd (kill 0 reaped_two)) 1) = 1.
Proof. by_evaluation. Qed.

(** ** sleep and wakeup *)

Lemma wakeup1_scan_map (c : chan_t) (held : bool) (k : nat) (ps : list proc) :
  fst (wakeup1_scan c held k ps) = map (wake_on c) ps.
Proof.
  revert k. induction ps as [| p ps IH]; intros k; simpl; [reflexivity |].
  specialize (IH (S k)). destruct (wakeup1_scan c held (S k) ps) as [r ev].
  simpl in IH. unfold wake_on at 1.
  destruct (procstate_eqb (state p) SLEEPING && chan_eqb (chan p) c);
    simpl; rewrite IH; reflexivity.
Qed.

Lemma ptable_wakeup (c : chan_t) (s : kstate) :
  ptable (wakeup c s) = map (wake_on c) (ptable s).
Proof.
  unfold wakeup, wakeup1. cbn [acquire set_locked ptable locked].
  rewrite <- (wakeup1_scan_map c true 0 (ptable s)).
  destruct (wakeup1_scan c true 0 (ptable s)); reflexivity.
Qed.



Lemma chan_eqb_refl (c : chan_t) : chan_eqb c c = true.
Proof.
  destruct c; simpl; [reflexivity | apply Nat.eqb_refl | apply Z.eqb_refl].
Qed.

(** *** The wait channel of a sleeper *)





















Lemma sleep_on_null_channel (cur : nat) (lk : lockref) (s : kstate) :
  (cur < length (ptable s))%nat ->
  ~ sleeping_has_chan (sleep_enter cur CNull lk s).
Proof.
  intros Hcur H.
  destruct (lookup_lt_is_Some_2 (ptable s) cur Hcur) as [p Hp].
  assert (Hq : ptable (sleep_enter cur CNull lk s) !! cur
               = Some (set_state SLEEPING (set_chan CNull p))).
  { unfold sleep_enter. cbv zeta.
    set (s0 := if is_ptable_lock lk then s else acquire s).
    assert (Hl : ptable s0 = ptable s) by (unfold s0; destruct lk; reflexivity).
    clearbody s0.
    assert (H1 : ptable (upd_slot cur (set_chan CNull) s0) !! cur
                 = Some (set_chan CNull p)).
    { unfold upd_slot. cbn [set_ptable ptable].
      rewrite list_lookup_alter_eq, Hl, Hp. reflexivity. }
    unfold write_state. rewrite H1. cbn [emit ptable].
    unfold upd_slot at 1. cbn [set_ptable ptable].
    rewrite list_lookup_alter_eq, H1. reflexivity. }
  exact (Forall_lookup_1 _ _ _ _ H Hq eq_refl eq_refl).
Qed.











(** A table without a sleeper has the property. *)
Lemma no_sleeper_has_chan (s : kstate) :
  Forall (fun p => state p <> SLEEPING) (ptable s) -> sleeping_has_chan s.
Proof.
  unfold sleeping_has_chan. intros H.
  eapply Forall_impl; [exact H |]. intros p Hp Hs. contradiction.
Qed.





(** ** allocproc and its callers *)

Lemma allocproc_full (K : kconsts) (ka : Z) (s : kstate) :
  find_unused (ptable s) 0 = None -> allocproc K ka s = (None, s).
Proof. intros H. unfold allocproc. rewrite H. reflexivity. Qed.

(** The failure of clone for want of a slot, on any table: -1, and the
    lock taken at entry is still held. *)
Lemma clone_full (K : kconsts) (ka func arg stack : Z) (cur : nat)
    (s : kstate) (m : mem) :
  find_unused (ptable s) 0 = None ->
  clone K ka func arg stack cur s m = (-1, acquire s, m).
Proof.
  intros H. unfold clone.
  rewrite (allocproc_full K ka (acquire s)) by exact H. reflexivity.
Qed.

(** fork on the same table gives the lock back. *)
Lemma fork_full (K : kconsts) (ka pd : Z) (cur : nat) (s : kstate) :
  find_unused (ptable s) 0 = None ->
  fork K ka pd cur s = (-1, release (acquire s)).
Proof.
  intros H. unfold fork.
  rewrite (allocproc_full K ka (acquire s)) by exact H. reflexivity.
Qed.

Lemma find_unused_Some (ps : list proc) (k i : nat) :
  find_unused ps k = Some i ->
  (k <= i)%nat /\ exists p, ps !! (i - k)%nat = Some p /\ state p = UNUSED.
Proof.
  revert k. induction ps as [| q ps IH]; intros k H; simpl in H.
  - discriminate.
  - destruct (procstate_eqb (state q) UNUSED) eqn:E.
    + injection H as <-. split; [lia |]. exists q.
      rewrite Nat.sub_diag. split; [reflexivity |].
      apply procstate_eqb_eq. exact E.
    + apply IH in H as (Hle & p & Hp & Hu). split; [lia |].
      exists p. split; [| exact Hu].
      replace (i - k)%nat with (S (i - S k)) by lia. exact Hp.
Qed.

(** cowfork when cow_copyuvm fails, on any table with a free slot [i]:
    both writes of the slot's state are made under whatever the lock was
    at entry, for cowfork does not take it. *)
Lemma cowfork_copy_fails (K : kconsts) (ka : Z) (cur : nat) (s : kstate) (i : nat) :
  find_unused (ptable s) 0 = Some i -> ka <> 0 ->
  fst (cowfork K ka 0 cur s) = -1 /\
  locked (snd (cowfork K ka 0 cur s)) = locked s /\
  klog (snd (cowfork K ka 0 cur s)) =
    klog s ++ [EvState i UNUSED EMBRYO (locked s); EvKfree ka;
               EvState i EMBRYO UNUSED (locked s)].
Proof.
  intros Hf Hka.
  destruct (find_unused_Some _ _ _ Hf) as (_ & p & Hp & Hu).
  rewrite Nat.sub_0_r in Hp.
  assert (Hi : (i < length (ptable s))%nat) by (eapply lookup_lt_Some; eassumption).
  apply Z.eqb_neq in Hka.
  unfold cowfork, allocproc. rewrite Hf. cbv zeta.
  destruct s as [pt lk np ip lg]. cbn [ptable locked klog] in *.
  rewrite <- (list_insert_id pt i p Hp).
  rewrite write_state_ins by exact Hi.
  cbn [nextpid].
  rewrite upd_slot_ins by exact Hi.
  unfold set_nextpid. cbn [ptable locked nextpid initproc klog].
  rewrite upd_slot_ins by exact Hi.
  rewrite Hka.
  rewrite !upd_slot_ins by exact Hi. cbn [Z.eqb].
  rewrite kfree_kstack_ins, upd_slot_ins, write_state_ins by exact Hi.
  cbn. rewrite Hu, <- !app_assoc. auto.
Qed.

(** C7: with the three slots of the table taken, clone returns -1 and
    leaves nothing behind but the lock: [ptable.lock], free before the
    call, is held after it.  fork, on the same table, returns -1 with the
    lock released. *)
Theorem clone_failure_keeps_lock :
  find_unused (ptable crowded) 0 = None /\
  locked crowded = false /\
  fst (fst (clone xv6 2147512320 256 5 8192 0 crowded mem0)) = -1 /\
  locked (snd (fst (clone xv6 2147512320 256 5 8192 0 crowded mem0))) = true /\
  ptable (snd (fst (clone xv6 2147512320 256 5 8192 0 crowded mem0)))
    = ptable crowded /\
  fst (fork xv6 2147512320 28672 0 crowded) = -1 /\
  locked (snd (fork xv6 2147512320 28672 0 crowded)) = false.
Proof. by_evaluation. Qed.

(** C4: cowfork calls allocproc and undoes it without the lock.  On the
    boot table, with cow_copyuvm out of memory, slot 1 goes UNUSED to
    EMBRYO and EMBRYO back to UNUSED while [ptable.lock] is free; fork, in
    the same case, makes both writes with the lock held. *)
Theorem cowfork_rollback_without_lock :
  locked boot = false /\
  fst (cowfork xv6 2147504128 0 0 boot) = -1 /\
  klog (snd (cowfork xv6 2147504128 0 0 boot)) =
    [EvState 1 UNUSED EMBRYO false; EvKfree 2147504128;
     EvState 1 EMBRYO UNUSED false] /\
  klog (snd (fork xv6 2147504128 0 0 boot)) =
    [EvState 1 UNUSED EMBRYO true; EvKfree 2147504128;
     EvState 1 EMBRYO UNUSED true].
Proof. by_evaluation. Qed.

(** The same when kalloc fails inside allocproc, and on success: no state
    write of cowfork but the last is made under the lock. *)
Lemma cowfork_allocates_without_lock :
  klog (snd (cowfork xv6 0 20480 0 boot)) =
    [EvState 1 UNUSED EMBRYO false; EvState 1 EMBRYO UNUSED false] /\
  fst (cowfork xv6 2147504128 20480 0 boot) = 2 /\
  klog (snd (cowfork xv6 2147504128 20480 0 boot)) =
    [EvState 1 UNUSED EMBRYO false; EvFiledup 77; EvIdup 55;
     EvState 1 EMBRYO RUNNABLE true].
Proof. by_evaluation. Qed.

Lemma upd_slot_length (i : nat) (f : proc -> proc) (s : kstate) :
  length (ptable (upd_slot i f s)) = length (ptable s).
Proof. unfold upd_slot. simpl. apply length_alter. Qed.

(** thread_init on any table: the caller's name is overwritten with the
    new slot's, and the new slot's name is left as it was. *)
Lemma thread_init_names (K : kconsts) (np : nat) (stack : Z) (cur : nat)
    (s : kstate) (pn pc : proc) :
  np <> cur -> ptable s !! np = Some pn -> ptable s !! cur = Some pc ->
  name (getp (thread_init K np stack cur s) cur)
    = safestrcpy K (name pc) (name pn) (name_size pn) /\
  name (getp (thread_init K np stack cur s) np) = name pn.
Proof.
  intros Hne Hn Hc.
  assert (Hln : (np < length (ptable s))%nat) by (eapply lookup_lt_Some; eassumption).
  assert (Hlc : (cur < length (ptable s))%nat) by (eapply lookup_lt_Some; eassumption).
  unfold thread_init. cbv zeta.
  split.
  - rewrite getp_upd_same by (rewrite !upd_slot_length; exact Hlc).
    rewrite !(getp_upd_ne _ np cur) by exact Hne.
    repeat (rewrite getp_upd_same by (rewrite ?upd_slot_length; exact Hln)).
    rewrite (getp_lookup s np pn Hn), (getp_lookup s cur pc Hc). reflexivity.
  - rewrite (getp_upd_ne _ cur np) by (intros E; apply Hne; symmetry; exact E).
    repeat (rewrite getp_upd_same by (rewrite ?upd_slot_length; exact Hln)).
    rewrite (getp_lookup s np pn Hn). reflexivity.
Qed.

(** C8: thread_init copies the name from the new slot into the caller's.
    The shell, named "sh", clones a thread into a fresh slot: clone
    returns the thread's pid 2, and afterwards the shell's name is empty,
    as is the thread's; neither is "sh". *)
Theorem clone_overwrites_caller_name :
  name (getp boot 0) = name_sh /\
  fst (fst (clone xv6 2147504128 256 5 8192 0 boot mem0)) = 2 /\
  name (getp cloned 0) = repeat 0 16 /\
  name (getp cloned 1) = repeat 0 16 /\
  name (getp cloned 0) <> name (getp boot 0) /\
  name (getp cloned 1) <> name (getp boot 0).
Proof.
  repeat match goal with |- _ /\ _ => split end;
    try (vm_compute; reflexivity); vm_compute; discriminate.
Qed.

(** fork copies the other way round: the child is named after the parent,
    whose name stays. *)
Lemma fork_copies_name_to_child :
  name (getp forked 1) = name_sh /\ name (getp forked 0) = name_sh.
Proof. by_evaluation. Qed.

(** ** The copy-on-write hook *)

Section CowOn.
Context {V : Type}.
Variable K : kconsts.
Variable cow_copyfreepg : V -> Z -> Z -> V * Z.

(** A fault above the kernel base: -1, and the VM layer is not called. *)
Lemma cow_on_above (cr2 pd : Z) (v : V) :
  KERNBASE K < cr2 -> cow_on K cow_copyfreepg cr2 pd v = (-1, v, [CallCprintf]).
Proof. intros H. unfold cow_on. apply Z.ltb_lt in H. rewrite H. reflexivity. Qed.

(** A fault at or below the kernel base: the frame is copied, and cow_on
    returns what the copy returns. *)
Lemma cow_on_not_above (cr2 pd : Z) (v : V) :
  cr2 <= KERNBASE K ->
  cow_on K cow_copyfreepg cr2 pd v =
    (snd (cow_copyfreepg v pd cr2), fst (cow_copyfreepg v pd cr2),
     [CallCopyFreePg pd cr2]).
Proof.
  intros H. unfold cow_on. apply Z.ltb_ge in H. rewrite H.
  destruct (cow_copyfreepg v pd cr2); reflexivity.
Qed.

(** C5: a fault at the kernel base itself is not refused.  The test is
    [addr > KERNBASE]: for [cr2 = KERNBASE], the first address of the
    kernel, cow_on calls cow_copyfreepg on it and returns its result. *)
Theorem cow_on_at_kernbase (pd : Z) (v : V) :
  cow_on K cow_copyfreepg (KERNBASE K) pd v =
    (snd (cow_copyfreepg v pd (KERNBASE K)),
     fst (cow_copyfreepg v pd (KERNBASE K)),
     [CallCopyFreePg pd (KERNBASE K)]).
Proof. apply cow_on_not_above. lia. Qed.
End CowOn.

(** ** User memory *)

Lemma wrap32_small (x : Z) : 0 <= x < 2 ^ 32 -> wrap32 x = x.
Proof. intros H. unfold wrap32. apply Z.mod_small. exact H. Qed.

Lemma wrap32_neq (x y : Z) :
  0 < Z.abs (x - y) < 2 ^ 32 -> wrap32 x <> wrap32 y.
Proof.
  intros Hd Heq. unfold wrap32 in Heq.
  assert (Hm : (x - y) mod 2 ^ 32 = 0).
  { rewrite Zminus_mod, Heq, Z.sub_diag. reflexivity. }
  apply Z.mod_divide in Hm; [| lia].
  destruct Hm as [k Hk]. lia.
Qed.

Lemma load8_store8_same (m : mem) (a b : Z) :
  load8 (store8 m a b) a = b mod 256.
Proof. unfold load8, store8. rewrite Z.eqb_refl. reflexivity. Qed.

Lemma load8_store8_other (m : mem) (a a' b : Z) :
  0 < Z.abs (a' - a) < 2 ^ 32 -> load8 (store8 m a b) a' = load8 m a'.
Proof.
  intros H. unfold load8, store8.
  destruct (wrap32 a' =? wrap32 a) eqn:E; [| reflexivity].
  apply Z.eqb_eq in E. exfalso. exact (wrap32_neq _ _ H E).
Qed.

(** The four bytes of a word put together again. *)
Lemma bytes_of_word (v : Z) :
  v mod 256 + 2 ^ 8 * ((v / 2 ^ 8) mod 256) + 2 ^ 16 * ((v / 2 ^ 16) mod 256)
  + 2 ^ 24 * ((v / 2 ^ 24) mod 256) = v mod 2 ^ 32.
Proof.
  replace (v / 2 ^ 16) with (v / 2 ^ 8 / 2 ^ 8)
    by (rewrite Z.div_div by lia; reflexivity).
  replace (v / 2 ^ 24) with (v / 2 ^ 8 / 2 ^ 8 / 2 ^ 8)
    by (rewrite !Z.div_div by lia; reflexivity).
  change (2 ^ 8) with 256. change (2 ^ 16) with 65536.
  change (2 ^ 24) with 16777216. change (2 ^ 32) with 4294967296.
  pose proof (Z.div_mod v 256 ltac:(lia)) as H0.
  pose proof (Z.mod_pos_bound v 256 ltac:(lia)) as B0.
  set (q1 := v / 256) in *.
  pose proof (Z.div_mod q1 256 ltac:(lia)) as H1.
  pose proof (Z.mod_pos_bound q1 256 ltac:(lia)) as B1.
  set (q2 := q1 / 256) in *.
  pose proof (Z.div_mod q2 256 ltac:(lia)) as H2.
  pose proof (Z.mod_pos_bound q2 256 ltac:(lia)) as B2.
  set (q3 := q2 / 256) in *.
  pose proof (Z.div_mod q3 256 ltac:(lia)) as H3.
  pose proof (Z.mod_pos_bound q3 256 ltac:(lia)) as B3.
  apply (Zmod_unique v 4294967296 (q3 / 256)); lia.
Qed.

Lemma load32_store32_same (m : mem) (a v : Z) :
  load32 (store32 m a v) a = wrap32 v.
Proof.
  unfold load32, store32.
  rewrite (load8_store8_other _ (a + 3) a) by lia.
  rewrite (load8_store8_other _ (a + 2) a) by lia.
  rewrite (load8_store8_other _ (a + 1) a) by lia.
  rewrite load8_store8_same.
  rewrite (load8_store8_other _ (a + 3) (a + 1)) by lia.
  rewrite (load8_store8_other _ (a + 2) (a + 1)) by lia.
  rewrite load8_store8_same.
  rewrite (load8_store8_other _ (a + 3) (a + 2)) by lia.
  rewrite !load8_store8_same.
  unfold wrap32. apply bytes_of_word.
Qed.

Lemma load32_store32_other (m : mem) (a b v : Z) :
  4 <= Z.abs (b - a) <= 2 ^ 32 - 4 ->
  load32 (store32 m a v) b = load32 m b.
Proof.
  intros H. unfold load32, store32.
  rewrite !load8_store8_other by lia. reflexivity.
Qed.

(** ** Signal delivery *)

Lemma handler_at_Some (hs : list Z) (signum h : Z) :
  handler_at hs signum = Some h <-> 0 <= signum /\ hs !! Z.to_nat signum = Some h.
Proof.
  unfold handler_at. destruct (signum <? 0) eqn:E.
  - apply Z.ltb_lt in E. split; [discriminate | lia].
  - apply Z.ltb_ge in E. tauto.
Qed.

(** C6: the frame signal_deliver builds, for a signal number [signum]
    within the array of handlers.  Below the user stack pointer [esp] of
    the trap frame it stores, as 32-bit words, the old eip at [esp - 4],
    eax at [esp - 8], ecx at [esp - 12], edx at [esp - 16], the two words
    of the signal info at [esp - 24] and [esp - 20], the signal number at
    [esp - 28] and the restorer's address at [esp - 32]; then the trap
    frame has [esp - 32] for esp (in [uint] arithmetic, so [esp - 32]
    itself when [esp] is at least 32) and [handlers[signum]] for eip.
    Reading a word back gives the stored value as a [uint]. *)
Theorem signal_deliver_frame (K : kconsts) (cr2 : Z) (getprot : Z -> Z -> Z)
    (info0 : Z * Z) (signum : Z) (p : proc) (m : mem) (h : Z) :
  0 <= signum ->
  handlers p !! Z.to_nat signum = Some h ->
  let esp := tf_esp (tf p) in
  let info := if signum =? SIGSEGV K
              then (cr2, getprot (pgdir p) cr2) else info0 in
  exists p' m',
    signal_deliver K cr2 getprot info0 signum p m = Some (p', m') /\
    load32 m' (esp - 4) = wrap32 (tf_eip (tf p)) /\
    load32 m' (esp - 8) = wrap32 (tf_eax (tf p)) /\
    load32 m' (esp - 12) = wrap32 (tf_ecx (tf p)) /\
    load32 m' (esp - 16) = wrap32 (tf_edx (tf p)) /\
    load32 m' (esp - 24) = wrap32 (fst info) /\
    load32 m' (esp - 24 + 4) = wrap32 (snd info) /\
    load32 m' (esp - 28) = wrap32 signum /\
    load32 m' (esp - 32) = wrap32 (restorer_addr p) /\
    tf_esp (tf p') = wrap32 (esp - 32) /\
    (32 <= esp < 2 ^ 32 -> tf_esp (tf p') = esp - 32) /\
    tf_eip (tf p') = h.
Proof.
  intros Hs Hh esp info. unfold signal_deliver, signal_frame. cbv zeta.
  cbn [handlers set_tf].
  assert (Hat : handler_at (handlers p) signum = Some h)
    by (apply handler_at_Some; split; assumption).
  rewrite Hat. eexists. eexists. split; [reflexivity |].
  cbn [tf set_tf set_tf_esp set_tf_eip tf_esp tf_eip].
  fold esp. fold info.
  repeat match goal with |- _ /\ _ => split end;
    try (rewrite ?load32_store32_other by lia; apply load32_store32_same).
  - reflexivity.
  - intros Hr. apply wrap32_small. lia.
  - reflexivity.
Qed.

Lemma signal_deliver_frame_witness :
  0 <= 2 /\
  handlers shell_sig !! Z.to_nat 2 = Some 8192 /\
  let esp := tf_esp (tf shell_sig) in
  let info := if 2 =? SIGSEGV xv6
              then (4096, 3) else (0, 0) in
  exists p' m',
    signal_deliver xv6 4096 (fun _ _ => 3) (0, 0) 2 shell_sig mem0 = Some (p', m') /\
    load32 m' (esp - 4) = wrap32 (tf_eip (tf shell_sig)) /\
    load32 m' (esp - 8) = wrap32 (tf_eax (tf shell_sig)) /\
    load32 m' (esp - 12) = wrap32 (tf_ecx (tf shell_sig)) /\
    load32 m' (esp - 16) = wrap32 (tf_edx (tf shell_sig)) /\
    load32 m' (esp - 24) = wrap32 (fst info) /\
    load32 m' (esp - 24 + 4) = wrap32 (snd info) /\
    load32 m' (esp - 28) = wrap32 2 /\
    load32 m' (esp - 32) = wrap32 (restorer_addr shell_sig) /\
    tf_esp (tf p') = wrap32 (esp - 32) /\
    (32 <= esp < 2 ^ 32 -> tf_esp (tf p') = esp - 32) /\
    tf_eip (tf p') = 8192.
Proof.
  split; [lia |]. split; [reflexivity |].
  apply (signal_deliver_frame xv6 4096 (fun _ _ => 3) (0, 0) 2 shell_sig mem0 8192).
  - lia.
  - reflexivity.
Defined.

(** The frame of the example, word by word. *)
Lemma signal_deliver_example :
  exists p' m',
    signal_deliver xv6 4096 (fun _ _ => 3) (0, 0) 2 shell_sig mem0 = Some (p', m') /\
    map (load32 m') [12268; 12264; 12260; 12256; 12252; 12248; 12244; 12240]
      = [4660; 22; 7; 9; 3; 4096; 2; 8448] /\
    tf_esp (tf p') = 12240 /\ tf_eip (tf p') = 8192.
Proof.
  eexists. eexists. split; [vm_compute; reflexivity |]. by_evaluation.
Qed.

(** A signal number outside the array: the model gives no result, for
    delivery as for registration. *)
Lemma signal_deliver_outside (K : kconsts) (cr2 : Z) (getprot : Z -> Z -> Z)
    (info0 : Z * Z) (signum : Z) (p : proc) (m : mem) :
  signum < 0 \/ Z.of_nat (length (handlers p)) <= signum ->
  signal_deliver K cr2 getprot info0 signum p m = None.
Proof.
  intros Hout. unfold signal_deliver, signal_frame. cbv zeta. cbn [handlers set_tf].
  destruct (handler_at (handlers p) signum) as [h |] eqn:E; [| reflexivity].
  apply handler_at_Some in E. destruct E as [H0 Hh].
  apply lookup_lt_Some in Hh. lia.
Qed.

(** ** mprotect *)

Lemma sint32_small (x : Z) : - 2 ^ 31 <= x < 2 ^ 31 -> sint32 x = x.
Proof.
  intros H. unfold sint32, wrap32.
  destruct (Z_lt_le_dec x 0) as [Hn | Hp].
  - replace (x mod 2 ^ 32) with (x + 2 ^ 32)
      by (apply (Zmod_unique x (2 ^ 32) (-1)); lia).
    destruct (x + 2 ^ 32 <? 2 ^ 31) eqn:E; [apply Z.ltb_lt in E |]; lia.
  - rewrite Z.mod_small by lia.
    destruct (x <? 2 ^ 31) eqn:E; [reflexivity | apply Z.ltb_ge in E; lia].
Qed.

Section Mprotect.
Context {V : Type}.
Variable K : kconsts.
Variable applyprot : V -> Z -> Z -> Z -> V * Z.
Hypothesis PGSIZE_pos : 0 < PGSIZE K.

(** The loop, for a range of at most [n] pages: it ends, with 0 or -1,
    and with -1 exactly when some page of the range is refused. *)
Lemma mprotect_loop_spec (pd prot lim : Z) (n : nat) :
  forall (fuel : nat) (v : V) (i : Z),
    (n < fuel)%nat ->
    lim - i <= Z.of_nat n * PGSIZE K ->
    - 2 ^ 31 <= i -> lim + PGSIZE K <= 2 ^ 31 ->
    exists r v',
      mprotect_loop K applyprot fuel v pd i lim prot = Some (r, v') /\
      (r = 0 \/ r = -1) /\
      (r = -1 <-> exists k, i + Z.of_nat k * PGSIZE K < lim /\
                            page_refused K applyprot k v pd i prot) /\
      (lim <= i -> r = 0 /\ v' = v).
Proof.
  induction n as [| n IH]; intros fuel v i Hfuel Hn Hlo Hhi;
    (destruct fuel as [| fuel]; [lia |]); simpl;
    destruct (i <? lim) eqn:Hlt;
    try (apply Z.ltb_lt in Hlt); try (apply Z.ltb_ge in Hlt); try lia.
  - exists 0, v. split; [reflexivity |]. split; [auto |]. split; [| auto].
    split; [discriminate |]. intros (k & Hk & _). lia.
  - destruct (applyprot v pd (wrap32 i) prot) as [v1 bad] eqn:Hap.
    destruct (bad =? 0) eqn:Hbad.
    + apply Z.eqb_eq in Hbad. subst bad.
      rewrite sint32_small by lia.
      destruct (IH fuel v1 (i + PGSIZE K)) as (r & v' & Hr & H01 & Hiff & _);
        try lia.
      exists r, v'. split; [exact Hr |]. split; [exact H01 |].
      split; [| lia].
      rewrite Hiff. split.
      * intros (k & Hk & Hrej). exists (S k). split; [lia |].
        unfold page_refused in *. simpl vm_after. rewrite Hap. simpl fst.
        replace (i + Z.of_nat (S k) * PGSIZE K)
          with (i + PGSIZE K + Z.of_nat k * PGSIZE K) by lia.
        exact Hrej.
      * intros (k & Hk & Hrej). destruct k as [| k].
        -- exfalso. unfold page_refused in Hrej. simpl in Hrej.
           rewrite Z.add_0_r, Hap in Hrej. apply Hrej. reflexivity.
        -- exists k. split; [lia |].
           unfold page_refused in *. simpl vm_after in Hrej.
           rewrite Hap in Hrej. simpl fst in Hrej.
           replace (i + Z.of_nat (S k) * PGSIZE K)
             with (i + PGSIZE K + Z.of_nat k * PGSIZE K) in Hrej by lia.
           exact Hrej.
    + apply Z.eqb_neq in Hbad.
      assert (Hbad' : bad <> 0) by exact Hbad.
      exists (-1), v1. split; [reflexivity |]. split; [auto |].
      split; [| lia]. split; [| reflexivity].
      intros _. exists 0%nat. split; [lia |].
      unfold page_refused. simpl. rewrite Z.add_0_r, Hap. exact Hbad'.
  - exists 0, v. split; [reflexivity |]. split; [auto |]. split; [| auto].
    split; [discriminate |]. intros (k & Hk & _). lia.
Qed.

Lemma sint32_range (x : Z) : - 2 ^ 31 <= sint32 x < 2 ^ 31.
Proof.
  unfold sint32, wrap32.
  pose proof (Z.mod_pos_bound x (2 ^ 32) ltac:(lia)).
  destruct (x mod 2 ^ 32 <? 2 ^ 31) eqn:E;
    [apply Z.ltb_lt in E | apply Z.ltb_ge in E]; lia.
Qed.

(** C9, as the code has it, in three parts.
    - An address that is not page-aligned: -1 and nothing changed,
      whatever [len] is, 0 included; the test comes before [len] is read.
    - A page-aligned address and [len = 0]: 0 and nothing changed.
    - A range [addr, addr + len) that stays within the [int]s, with room
      for the last step of the loop: mprotect returns 0 or -1, and -1
      exactly when [addr] is not page-aligned or applyprot refuses some
      page of the range; with [len <= 0] and [addr] page-aligned it
      returns 0 and changes nothing.
    [addr] is read as an [int], as the code does; the fuel is enough for
    [len] bytes. *)
Theorem mprotect_result (fuel : nat) (v : V) (pd addr len prot : Z) :
  (Z.rem (sint32 addr) (PGSIZE K) <> 0 ->
   mprotect K applyprot fuel v pd addr len prot = Some (-1, v)) /\
  (Z.rem (sint32 addr) (PGSIZE K) = 0 -> (0 < fuel)%nat ->
   mprotect K applyprot fuel v pd addr 0 prot = Some (0, v)) /\
  (- 2 ^ 31 <= sint32 addr + len ->
   sint32 addr + len + PGSIZE K <= 2 ^ 31 ->
   (Z.to_nat len < fuel)%nat ->
   exists r v',
     mprotect K applyprot fuel v pd addr len prot = Some (r, v') /\
     (r = 0 \/ r = -1) /\
     (r = -1 <->
        Z.rem (sint32 addr) (PGSIZE K) <> 0 \/
        exists k, sint32 addr + Z.of_nat k * PGSIZE K < sint32 addr + len /\
                  page_refused K applyprot k v pd (sint32 addr) prot) /\
     (len <= 0 -> Z.rem (sint32 addr) (PGSIZE K) = 0 -> r = 0 /\ v' = v)).
Proof.
  pose proof (sint32_range addr) as Ha.
  split; [| split].
  - intros Hal. unfold mprotect.
    destruct (Z.rem (sint32 addr) (PGSIZE K) =? 0) eqn:E; [| reflexivity].
    apply Z.eqb_eq in E. contradiction.
  - intros Hal Hfuel. unfold mprotect.
    rewrite Hal, Z.eqb_refl. cbn [negb].
    rewrite Z.add_0_r, (sint32_small (sint32 addr)) by exact Ha.
    destruct fuel as [| fuel]; [lia |]. cbn [mprotect_loop].
    rewrite Z.ltb_irrefl. reflexivity.
  - intros Hlo Hhi Hfuel. unfold mprotect.
    destruct (Z.rem (sint32 addr) (PGSIZE K) =? 0) eqn:Hal; simpl.
    + apply Z.eqb_eq in Hal.
      rewrite (sint32_small (sint32 addr + len)) by lia.
      destruct (mprotect_loop_spec pd prot (sint32 addr + len) (Z.to_nat len)
                  fuel v (sint32 addr)) as (r & v' & Hr & H01 & Hiff & Hnop);
        try lia.
      { destruct (Z_lt_le_dec len 0); [lia |]. rewrite Z2Nat.id by lia. nia. }
      exists r, v'. split; [exact Hr |]. split; [exact H01 |]. split.
      * rewrite Hiff. split; [auto |].
        intros [Hbad | Hk]; [congruence | exact Hk].
      * intros Hlen _. apply Hnop. lia.
    + apply Z.eqb_neq in Hal.
      exists (-1), v. split; [reflexivity |]. split; [auto |]. split.
      * split; [auto | reflexivity].
      * intros _ H0. congruence.
Qed.
End Mprotect.

Lemma mprotect_result_witness :
  0 < PGSIZE xv6 /\
  (Z.rem (sint32 1) (PGSIZE xv6) <> 0 /\
   mprotect xv6 applyprot_ex 0 [] 4096 1 2147483647 3 = Some (-1, [])) /\
  (Z.rem (sint32 8192) (PGSIZE xv6) = 0 /\
   mprotect xv6 applyprot_ex (S (Z.to_nat 8192)) [] 4096 8192 0 3 = Some (0, [])) /\
  - 2 ^ 31 <= sint32 8192 + 8192 /\
  sint32 8192 + 8192 + PGSIZE xv6 <= 2 ^ 31 /\
  (Z.to_nat 8192 < S (Z.to_nat 8192))%nat /\
  exists r v',
    mprotect xv6 applyprot_ex (S (Z.to_nat 8192)) [] 4096 8192 8192 3 = Some (r, v') /\
    (r = 0 \/ r = -1) /\
    (r = -1 <->
       Z.rem (sint32 8192) (PGSIZE xv6) <> 0 \/
       exists k, sint32 8192 + Z.of_nat k * PGSIZE xv6 < sint32 8192 + 8192 /\
                 page_refused xv6 applyprot_ex k [] 4096 (sint32 8192) 3) /\
    (8192 <= 0 -> Z.rem (sint32 8192) (PGSIZE xv6) = 0 -> r = 0 /\ v' = []).
Proof.
  assert (Hs : sint32 8192 = 8192) by (vm_compute; reflexivity).
  assert (H0 : 0 < PGSIZE xv6) by reflexivity.
  assert (Hu : Z.rem (sint32 1) (PGSIZE xv6) <> 0) by (vm_compute; discriminate).
  assert (Hal : Z.rem (sint32 8192) (PGSIZE xv6) = 0) by (vm_compute; reflexivity).
  assert (H1 : - 2 ^ 31 <= sint32 8192 + 8192) by (rewrite Hs; lia).
  assert (H2 : sint32 8192 + 8192 + PGSIZE xv6 <= 2 ^ 31)
    by (rewrite Hs; simpl; lia).
  assert (H3 : (Z.to_nat 8192 < S (Z.to_nat 8192))%nat) by lia.
  assert (H4 : (0 < S (Z.to_nat 8192))%nat) by lia.
  split; [exact H0 |].
  split.
  { split; [exact Hu |].
    exact (proj1 (mprotect_result xv6 applyprot_ex H0 0 [] 4096 1 2147483647 3) Hu). }
  split.
  { split; [exact Hal |].
    exact (proj1 (proj2 (mprotect_result xv6 applyprot_ex H0 (S (Z.to_nat 8192)) [] 4096
                           8192 8192 3)) Hal H4). }
  split; [exact H1 |]. split; [exact H2 |]. split; [exact H3 |].
  exact (proj2 (proj2 (mprotect_result xv6 applyprot_ex H0 (S (Z.to_nat 8192)) [] 4096
                         8192 8192 3)) H1 H2 H3).
Defined.

(** C9 as the specification words it fails for an address that is not
    page-aligned: mprotect(1, 0, prot) returns -1, not 0. *)
Lemma mprotect_zero_len_unaligned :
  mprotect xv6 applyprot_ex 1 [] 4096 1 0 3 = Some (-1, []) /\
  ~ (forall a prot : Z,
       exists v', mprotect xv6 applyprot_ex 1 [] 4096 a 0 prot = Some (0, v')).
Proof.
  assert (H : mprotect xv6 applyprot_ex 1 [] 4096 1 0 3 = Some (-1, []))
    by (vm_compute; reflexivity).
  split; [exact H |].
  intros Hall. destruct (Hall 1 3) as [v' Hv]. rewrite H in Hv. discriminate Hv.
Qed.

(** A range that runs past the last [int]: the end [addr + len] of
    mprotect(0x7ffff000, 4096, prot) wraps to the least [int], the loop
    does not run, and the result is 0 although the VM layer would refuse
    the page. *)
Lemma mprotect_range_past_int :
  mprotect xv6 applyprot_no 2 [] 4096 2147479552 4096 3 = Some (0, []) /\
  page_refused xv6 applyprot_no 0 [] 4096 (sint32 2147479552) 3.
Proof.
  split; [vm_compute; reflexivity |].
  unfold page_refused. cbn [vm_after applyprot_no snd]. lia.
Qed.

(** mprotect on the example VM layer: an empty range at an aligned
    address; two pages that accept; and a range whose third page refuses,
    the first two keeping their new protection. *)
Lemma mprotect_examples :
  mprotect xv6 applyprot_ex 1 [] 4096 4096 0 3 = Some (0, []) /\
  mprotect xv6 applyprot_ex 3 [] 4096 4096 8192 3
    = Some (0, [(4096, 3); (8192, 3)]) /\
  mprotect xv6 applyprot_ex 4 [] 4096 4096 12288 3
    = Some (-1, [(4096, 3); (8192, 3)]).
Proof. by_evaluation. Qed.

(** With pages of 4096 bytes, the test of mprotect on the signed value is
    the alignment of the address. *)
Lemma mprotect_aligned_test (addr : Z) :
  0 <= addr < 2 ^ 32 ->
  (Z.rem (sint32 addr) (PGSIZE xv6) = 0 <-> addr mod 4096 = 0).
Proof.
  intros Hr. change (PGSIZE xv6) with 4096.
  rewrite Z.rem_divide by lia. rewrite <- Z.mod_divide by lia.
  unfold sint32. rewrite wrap32_small by exact Hr.
  destruct (addr <? 2 ^ 31); [reflexivity |].
  replace (addr - 2 ^ 32) with (addr + (- 1048576) * 4096) by lia.
  rewrite Z.mod_add by lia. reflexivity.
Qed.

(** * Further properties *)

(** The conjuncts already among the hypotheses. *)
Ltac split_known :=
  repeat match goal with |- _ /\ _ => split; [assumption |] end.

(** ** More on slots *)

Lemma chan_eqb_eq (a b : chan_t) : chan_eqb a b = true <-> a = b.
Proof.
  destruct a, b; simpl; split; intros H; try congruence.
  - apply Nat.eqb_eq in H. congruence.
  - injection H as ->. apply Nat.eqb_refl.
  - apply Z.eqb_eq in H. congruence.
  - injection H as ->. apply Z.eqb_refl.
Qed.

Lemma getp_ins_ne (pt : list proc) (lk : bool) (np : Z) (ip : option nat)
    (lg : list event) (i j : nat) (q : proc) :
  i <> j ->
  getp {| ptable := <[i := q]> pt; locked := lk; nextpid := np;
          initproc := ip; klog := lg |} j
  = default proc0 (pt !! j).
Proof.
  intros Hne. unfold getp. simpl. rewrite list_lookup_insert_ne by exact Hne.
  reflexivity.
Qed.

Lemma find_unused_first (ps : list proc) (k i m : nat) (p : proc) :
  find_unused ps k = Some i -> (m < i - k)%nat -> ps !! m = Some p ->
  state p <> UNUSED.
Proof.
  revert k m. induction ps as [| q ps IH]; intros k m H Hm Hp; simpl in H.
  - discriminate.
  - destruct (procstate_eqb (state q) UNUSED) eqn:E.
    + injection H as <-. lia.
    + destruct m as [| m']; simpl in Hp.
      * injection Hp as <-. intros Hu. apply procstate_eqb_eq in Hu. congruence.
      * apply (IH (S k) m' H); [| exact Hp].
        pose proof (find_unused_Some _ _ _ H) as [Hle _]. lia.
Qed.

Lemma find_unused_None (ps : list proc) (k : nat) :
  find_unused ps k = None -> Forall (fun p => state p <> UNUSED) ps.
Proof.
  revert k. induction ps as [| q ps IH]; intros k H; simpl in H.
  - constructor.
  - destruct (procstate_eqb (state q) UNUSED) eqn:E; [discriminate |].
    constructor; [| exact (IH _ H)].
    intros Hu. apply procstate_eqb_eq in Hu. congruence.
Qed.

(** ** allocproc *)

(** allocproc on a table whose first UNUSED slot is [i]. *)
Lemma allocproc_found (K : kconsts) (ka : Z) (pt : list proc) (lk : bool)
    (np : Z) (ip : option nat) (lg : list event) (i : nat) (p : proc) :
  find_unused pt 0 = Some i -> pt !! i = Some p ->
  allocproc K ka {| ptable := pt; locked := lk; nextpid := np;
                    initproc := ip; klog := lg |}
  = if ka =? 0
    then (None,
          {| ptable := <[i := set_state UNUSED (set_kstack ka (set_pid np
                                 (set_state EMBRYO p)))]> pt;
             locked := lk; nextpid := sint32 (np + 1); initproc := ip;
             klog := lg ++ [EvState i UNUSED EMBRYO lk;
                            EvState i EMBRYO UNUSED lk] |})
    else (Some i,
          {| ptable := <[i := slot_defaults K (set_kstack ka (set_pid np
                                 (set_state EMBRYO p)))]> pt;
             locked := lk; nextpid := sint32 (np + 1); initproc := ip;
             klog := lg ++ [EvState i UNUSED EMBRYO lk] |}).
Proof.
  intros Hf Hp.
  destruct (find_unused_Some _ _ _ Hf) as (_ & p' & Hp' & Hu).
  rewrite Nat.sub_0_r, Hp in Hp'. injection Hp' as <-.
  assert (Hi : (i < length pt)%nat) by (eapply lookup_lt_Some; eassumption).
  unfold allocproc. cbn [ptable]. rewrite Hf. cbv zeta.
  rewrite <- (list_insert_id pt i p Hp).
  rewrite !write_state_ins by exact Hi. cbn [nextpid].
  rewrite !upd_slot_ins by exact Hi.
  unfold set_nextpid. cbn [ptable locked nextpid initproc klog].
  rewrite !upd_slot_ins by exact Hi.
  rewrite !list_insert_insert_eq.
  destruct (ka =? 0).
  - rewrite write_state_ins by exact Hi. cbn [state set_kstack set_pid set_state].
    rewrite Hu, <- app_assoc. reflexivity.
  - rewrite Hu. reflexivity.
Qed.

Lemma allocproc_cases (K : kconsts) (ka : Z) (s : kstate) :
  (find_unused (ptable s) 0 = None /\ allocproc K ka s = (None, s)) \/
  (exists i p,
     find_unused (ptable s) 0 = Some i /\ ptable s !! i = Some p /\
     state p = UNUSED /\ (i < length (ptable s))%nat /\
     allocproc K ka s
     = if ka =? 0
       then (None,
             {| ptable := <[i := set_state UNUSED (set_kstack ka
                               (set_pid (nextpid s) (set_state EMBRYO p)))]>
                            (ptable s);
                locked := locked s; nextpid := sint32 (nextpid s + 1);
                initproc := initproc s;
                klog := klog s ++ [EvState i UNUSED EMBRYO (locked s);
                                   EvState i EMBRYO UNUSED (locked s)] |})
       else (Some i,
             {| ptable := <[i := slot_defaults K (set_kstack ka
                               (set_pid (nextpid s) (set_state EMBRYO p)))]>
                            (ptable s);
                locked := locked s; nextpid := sint32 (nextpid s + 1);
                initproc := initproc s;
                klog := klog s ++ [EvState i UNUSED EMBRYO (locked s)] |})).
Proof.
  destruct (find_unused (ptable s) 0) as [i |] eqn:Hf.
  - right. destruct (find_unused_Some _ _ _ Hf) as (_ & p & Hp & Hu).
    rewrite Nat.sub_0_r in Hp. exists i, p.
    split; [reflexivity |]. split; [exact Hp |]. split; [exact Hu |].
    split; [eapply lookup_lt_Some; eassumption |].
    destruct s as [pt lk np ip lg]. cbn [ptable locked nextpid initproc klog] in *.
    apply allocproc_found; assumption.
  - left. split; [reflexivity |]. apply allocproc_full. exact Hf.
Qed.

Lemma lookup_three_inserts (l : list Z) (a b c k : nat) (m : Z) :
  (k < length l)%nat -> k = a \/ k = b \/ k = c ->
  <[c := m]> (<[b := m]> (<[a := m]> l)) !! k = Some m.
Proof.
  intros Hk Hc.
  destruct (decide (c = k)) as [-> | Hck].
  { apply list_lookup_insert_eq. rewrite !length_insert. exact Hk. }
  rewrite list_lookup_insert_ne by exact Hck.
  destruct (decide (b = k)) as [-> | Hbk].
  { apply list_lookup_insert_eq. rewrite !length_insert. exact Hk. }
  rewrite list_lookup_insert_ne by exact Hbk.
  destruct (decide (a = k)) as [-> | Hak].
  { apply list_lookup_insert_eq. exact Hk. }
  exfalso. destruct Hc as [-> | [-> | ->]]; congruence.
Qed.

(** X1: allocproc, when it returns a slot: kalloc gave a page; the slot is the
    first UNUSED one of the table; it is now EMBRYO with the pid that
    [nextpid] held, the new kernel stack, the three default handlers, no
    restorer, and neither the copy-on-write nor the thread mark;
    [nextpid] has moved on by one; no other slot and not the lock has
    changed. *)
Theorem allocproc_takes_first_unused (K : kconsts) (ka : Z) (s s' : kstate)
    (i : nat) :
  allocproc K ka s = (Some i, s') ->
  ka <> 0 /\ state (getp s i) = UNUSED /\ (i < length (ptable s))%nat /\
  (forall j p, (j < i)%nat -> ptable s !! j = Some p -> state p <> UNUSED) /\
  state (getp s' i) = EMBRYO /\ pid (getp s' i) = nextpid s /\
  kstack (getp s' i) = ka /\ cow (getp s' i) = 0 /\ athread (getp s' i) = 0 /\
  restorer_addr (getp s' i) = minus_one /\
  (forall sig, sig = SIGKILL K \/ sig = SIGFPE K \/ sig = SIGSEGV K ->
     (Z.to_nat sig < length (handlers (getp s i)))%nat ->
     handlers (getp s' i) !! Z.to_nat sig = Some minus_one) /\
  nextpid s' = sint32 (nextpid s + 1) /\ locked s' = locked s /\
  (forall j, j <> i -> ptable s' !! j = ptable s !! j).
Proof.
  intros H.
  destruct (allocproc_cases K ka s) as [[_ Hn] | (i0 & p & Hf & Hp & Hu & Hi & Ha)].
  { rewrite Hn in H. discriminate H. }
  rewrite Ha in H. destruct (ka =? 0) eqn:Hka; [discriminate H |].
  injection H as <- <-. apply Z.eqb_neq in Hka.
  rewrite (getp_lookup s i0 p Hp).
  unfold getp at 1 2 3 4 5 6 7. cbn [ptable locked nextpid].
  rewrite list_lookup_insert_eq by exact Hi. cbn [default from_option].
  split; [exact Hka |]. split; [exact Hu |]. split; [exact Hi |].
  split.
  { intros j q Hj Hq. apply (find_unused_first _ 0 i0 j q Hf); [lia | exact Hq]. }
  repeat (split; [reflexivity |]).
  split.
  { intros sig Hsig Hlen. cbn.
    apply lookup_three_inserts; [exact Hlen |].
    destruct Hsig as [-> | [-> | ->]]; auto. }
  split; [reflexivity |]. split; [reflexivity |].
  intros j Hj. apply list_lookup_insert_ne. congruence.
Qed.

Lemma allocproc_takes_first_unused_witness :
  allocproc xv6 2147504128 boot
    = (Some 1%nat, snd (allocproc xv6 2147504128 boot)) /\
  state (getp (snd (allocproc xv6 2147504128 boot)) 1) = EMBRYO /\
  pid (getp (snd (allocproc xv6 2147504128 boot)) 1) = nextpid boot.
Proof.
  assert (H : allocproc xv6 2147504128 boot
              = (Some 1%nat, snd (allocproc xv6 2147504128 boot)))
    by (vm_compute; reflexivity).
  split; [exact H |].
  destruct (allocproc_takes_first_unused _ _ _ _ _ H)
    as (_ & _ & _ & _ & He & Hpid & _).
  split; assumption.
Defined.

(** X2: allocproc, when it returns no slot: either the table has no UNUSED
    slot and nothing has changed, or kalloc gave no page; then the first
    UNUSED slot is UNUSED again with no kernel stack, but it keeps the pid
    it was given, and [nextpid] has moved on: the failed call has used up
    a pid. *)
Theorem allocproc_failure (K : kconsts) (ka : Z) (s s' : kstate) :
  allocproc K ka s = (None, s') ->
  (Forall (fun p => state p <> UNUSED) (ptable s) /\ s' = s) \/
  (ka = 0 /\
   exists i, find_unused (ptable s) 0 = Some i /\
     state (getp s' i) = UNUSED /\ kstack (getp s' i) = 0 /\
     pid (getp s' i) = nextpid s /\
     nextpid s' = sint32 (nextpid s + 1) /\ locked s' = locked s /\
     (forall j, j <> i -> ptable s' !! j = ptable s !! j)).
Proof.
  intros H.
  destruct (allocproc_cases K ka s) as [[Hf Hn] | (i & p & Hf & Hp & Hu & Hi & Ha)].
  - left. rewrite Hn in H. injection H as <-.
    split; [exact (find_unused_None _ _ Hf) | reflexivity].
  - right. rewrite Ha in H. destruct (ka =? 0) eqn:Hka; [| discriminate H].
    injection H as <-. apply Z.eqb_eq in Hka. subst ka.
    split; [reflexivity |]. exists i. split; [exact Hf |].
    unfold getp. cbn [ptable locked nextpid].
    rewrite list_lookup_insert_eq by exact Hi. cbn [default from_option].
    repeat (split; [reflexivity |]).
    intros j Hj. apply list_lookup_insert_ne. congruence.
Qed.

Lemma allocproc_failure_witness :
  allocproc xv6 0 boot = (None, snd (allocproc xv6 0 boot)) /\
  ((Forall (fun p => state p <> UNUSED) (ptable boot) /\
    snd (allocproc xv6 0 boot) = boot) \/
   (0 = 0 /\
    exists i, find_unused (ptable boot) 0 = Some i /\
      state (getp (snd (allocproc xv6 0 boot)) i) = UNUSED /\
      kstack (getp (snd (allocproc xv6 0 boot)) i) = 0 /\
      pid (getp (snd (allocproc xv6 0 boot)) i) = nextpid boot /\
      nextpid (snd (allocproc xv6 0 boot)) = sint32 (nextpid boot + 1) /\
      locked (snd (allocproc xv6 0 boot)) = locked boot /\
      (forall j, j <> i ->
         ptable (snd (allocproc xv6 0 boot)) !! j = ptable boot !! j))).
Proof.
  assert (H : allocproc xv6 0 boot = (None, snd (allocproc xv6 0 boot)))
    by (vm_compute; reflexivity).
  split; [exact H |].
  exact (allocproc_failure xv6 0 boot _ H).
Defined.

(** X3: The pids of the table stay below [nextpid] through allocproc, as long
    as [nextpid] has not reached the end of the [int]s; so the pid of the
    slot it returns is held by no other slot. *)
Theorem allocproc_pid_is_fresh (K : kconsts) (ka : Z) (s s' : kstate)
    (r : option nat) :
  pids_below s -> - 2 ^ 31 <= nextpid s -> nextpid s + 1 < 2 ^ 31 ->
  allocproc K ka s = (r, s') ->
  pids_below s' /\
  (forall i j q, r = Some i -> j <> i -> ptable s' !! j = Some q ->
                 pid q <> pid (getp s' i)).
Proof.
  intros Hinv Hlo Hhi H. unfold pids_below in *.
  destruct (allocproc_cases K ka s) as [[Hf Hn] | (i & p & Hf & Hp & Hu & Hi & Ha)].
  - rewrite Hn in H. injection H as <- <-. split; [exact Hinv |].
    intros i j q Hr. discriminate Hr.
  - rewrite Ha in H.
    assert (Hmono : Forall (fun p => pid p < sint32 (nextpid s + 1)) (ptable s)).
    { rewrite sint32_small by lia.
      eapply Forall_impl; [exact Hinv |]. simpl. intros x Hx. lia. }
    destruct (ka =? 0); injection H as <- <-; cbn [ptable nextpid].
    + split.
      * apply Forall_insert; [exact Hmono |]. cbn.
        rewrite sint32_small by lia. lia.
      * intros i0 j q Hr. discriminate Hr.
    + split.
      * apply Forall_insert; [exact Hmono |]. cbn.
        rewrite sint32_small by lia. lia.
      * intros i0 j q Hr Hj Hq. injection Hr as <-.
        unfold getp. cbn [ptable].
        rewrite list_lookup_insert_eq by exact Hi. cbn.
        rewrite list_lookup_insert_ne in Hq by congruence.
        pose proof (Forall_lookup_1 _ _ _ _ Hinv Hq) as Hlt. simpl in Hlt. lia.
Qed.

Lemma allocproc_pid_is_fresh_witness :
  pids_below boot /\ - 2 ^ 31 <= nextpid boot /\ nextpid boot + 1 < 2 ^ 31 /\
  pids_below (snd (allocproc xv6 2147504128 boot)).
Proof.
  assert (Hinv : pids_below boot).
  { unfold pids_below. vm_compute ptable.
    repeat constructor. }
  assert (Hlo : - 2 ^ 31 <= nextpid boot) by (vm_compute; discriminate).
  assert (Hhi : nextpid boot + 1 < 2 ^ 31) by (vm_compute; reflexivity).
  split; [exact Hinv |]. split; [exact Hlo |]. split; [exact Hhi |].
  exact (proj1 (allocproc_pid_is_fresh xv6 2147504128 boot _ _ Hinv Hlo Hhi
                  eq_refl)).
Defined.

(** ** fork *)

Lemma emit_lit (pt : list proc) (lk : bool) (np : Z) (ip : option nat)
    (lg ev : list event) :
  emit ev {| ptable := pt; locked := lk; nextpid := np; initproc := ip;
             klog := lg |}
  = {| ptable := pt; locked := lk; nextpid := np; initproc := ip;
       klog := lg ++ ev |}.
Proof. reflexivity. Qed.

Lemma dup_files_ins (pt : list proc) (lk : bool) (np : Z) (ip : option nat)
    (lg : list event) (cur i : nat) (q pc : proc) :
  (i < length pt)%nat -> i <> cur -> pt !! cur = Some pc ->
  dup_files cur i {| ptable := <[i := q]> pt; locked := lk; nextpid := np;
                     initproc := ip; klog := lg |}
  = {| ptable := <[i := set_cwd (cwd pc)
                        (set_ofile (fst (dup_ofile (ofile pc) (ofile q))) q)]> pt;
       locked := lk; nextpid := np; initproc := ip;
       klog := (lg ++ snd (dup_ofile (ofile pc) (ofile q))) ++ [EvIdup (cwd pc)] |}.
Proof.
  intros Hi Hne Hc. unfold dup_files.
  rewrite getp_ins by exact Hi.
  rewrite (getp_ins_ne _ _ _ _ _ i cur q Hne), Hc. cbn [default from_option id].
  destruct (dup_ofile (ofile pc) (ofile q)) as [fs ev]. cbn [fst snd].
  rewrite upd_slot_ins by exact Hi. rewrite emit_lit.
  rewrite (getp_ins_ne _ _ _ _ _ i cur _ Hne), Hc. cbn [default from_option id].
  rewrite upd_slot_ins by exact Hi. rewrite emit_lit. reflexivity.
Qed.

(** Rewriting with the primitives, for a new slot [i] and a caller
    [cur]. *)
Ltac step_slots Hi Hne Hc :=
  repeat first
    [ rewrite upd_slot_ins by exact Hi
    | rewrite write_state_ins by exact Hi
    | rewrite kfree_kstack_ins by exact Hi
    | rewrite getp_ins by exact Hi
    | rewrite (dup_files_ins _ _ _ _ _ _ _ _ _ Hi Hne Hc)
    | rewrite (getp_ins_ne _ _ _ _ _ _ _ _ Hne), Hc; cbn [default from_option id] ].

(** The loop over the descriptors, entry by entry: the caller's descriptor
    where it has one, else what the slot held; one filedup for each
    descriptor of the caller, in order. *)
Lemma dup_ofile_lookup (pf nf : list Z) (k : nat) :
  fst (dup_ofile pf nf) !! k
  = match pf !! k, nf !! k with
    | Some f, Some n => Some (if f =? 0 then n else f)
    | _, o => o
    end.
Proof.
  revert nf k. induction pf as [| f pf IH]; intros nf k.
  - destruct nf; reflexivity.
  - destruct nf as [| n nf].
    + cbn [dup_ofile fst]. destruct ((f :: pf) !! k); reflexivity.
    + cbn [dup_ofile]. specialize (IH nf).
      destruct (dup_ofile pf nf) as [r ev]. cbn [fst] in IH.
      destruct k as [| k]; simpl.
      * destruct (f =? 0); reflexivity.
      * destruct (f =? 0); simpl; exact (IH k).
Qed.

Lemma dup_ofile_events (pf nf : list Z) :
  snd (dup_ofile pf nf)
  = map EvFiledup (List.filter (fun f => negb (f =? 0)) (take (length nf) pf)).
Proof.
  revert nf. induction pf as [| f pf IH]; intros nf.
  - destruct nf; reflexivity.
  - destruct nf as [| n nf]; [reflexivity |].
    cbn [dup_ofile length take List.filter]. specialize (IH nf).
    destruct (dup_ofile pf nf) as [r ev]. cbn [snd] in IH.
    destruct (f =? 0); cbn [negb snd map]; rewrite IH; reflexivity.
Qed.

Lemma dup_ofile_clean (pf nf : list Z) :
  length nf = length pf -> Forall (fun n => n = 0) nf ->
  fst (dup_ofile pf nf) = pf.
Proof.
  revert nf. induction pf as [| f pf IH]; intros nf Hlen Hz.
  - destruct nf; [reflexivity | discriminate Hlen].
  - destruct nf as [| n nf]; [discriminate Hlen |].
    cbn [dup_ofile]. injection Hlen as Hlen.
    pose proof (Forall_inv Hz) as Hn. cbn beta in Hn.
    specialize (IH nf Hlen (Forall_inv_tail Hz)).
    destruct (dup_ofile pf nf) as [r ev]. cbn [fst] in IH. subst r n.
    destruct (f =? 0) eqn:E; cbn [fst]; [| reflexivity].
    apply Z.eqb_eq in E. subst f. reflexivity.
Qed.

(** X4: fork, when there is a free slot and both kalloc and copyuvm succeed:
    it returns the pid [nextpid] held; the child [c], in the first UNUSED
    slot, is RUNNABLE with that pid, the caller for parent, the new page
    directory and kernel stack, the caller's size, working directory and
    registers, but 0 in eax, and the caller's name.  At each index the
    child has the caller's descriptor where the caller has one, with one
    filedup for it, and else what the slot held before, which fork does
    not clear; in a slot without such a left-over the child's descriptors
    are the caller's.  Both writes of its state are made with the lock
    held, the lock is released at the end, and no other slot has
    changed. *)
Theorem fork_creates_child (K : kconsts) (ka pd : Z) (cur : nat) (s : kstate)
    (i : nat) (pc : proc) :
  find_unused (ptable s) 0 = Some i -> ptable s !! cur = Some pc ->
  state pc <> UNUSED -> ka <> 0 -> pd <> 0 ->
  exists c,
    fork K ka pd cur s
    = (nextpid s,
       {| ptable := <[i := c]> (ptable s); locked := false;
          nextpid := sint32 (nextpid s + 1); initproc := initproc s;
          klog := klog s ++ [EvState i UNUSED EMBRYO true]
                  ++ map EvFiledup
                       (List.filter (fun f => negb (f =? 0))
                          (take (length (ofile (getp s i))) (ofile pc)))
                  ++ [EvIdup (cwd pc); EvState i EMBRYO RUNNABLE true] |}) /\
    state c = RUNNABLE /\ pid c = nextpid s /\ parent c = Some cur /\
    pgdir c = pd /\ kstack c = ka /\ sz c = sz pc /\ cwd c = cwd pc /\
    tf c = set_tf_eax 0 (tf pc) /\
    name c = safestrcpy K (name (getp s i)) (name pc) (name_size pc) /\
    (forall k, ofile c !! k
               = match ofile pc !! k, ofile (getp s i) !! k with
                 | Some f, Some n => Some (if f =? 0 then n else f)
                 | _, o => o
                 end) /\
    (length (ofile (getp s i)) = length (ofile pc) ->
     Forall (fun n => n = 0) (ofile (getp s i)) -> ofile c = ofile pc).
Proof.
  intros Hf Hc Hst Hka Hpd.
  destruct (find_unused_Some _ _ _ Hf) as (_ & p & Hp & Hu).
  rewrite Nat.sub_0_r in Hp.
  assert (Hi : (i < length (ptable s))%nat) by (eapply lookup_lt_Some; eassumption).
  assert (Hne : i <> cur).
  { intros ->. rewrite Hc in Hp. injection Hp as ->. contradiction. }
  apply Z.eqb_neq in Hka. apply Z.eqb_neq in Hpd.
  rewrite (getp_lookup s i p Hp).
  rewrite <- (dup_ofile_events (ofile pc) (ofile p)).
  destruct s as [pt lk np ip lg]. cbn [ptable locked nextpid initproc klog] in *.
  eexists. split.
  - unfold fork. unfold acquire, set_locked.
    cbn [ptable locked nextpid initproc klog].
    rewrite (allocproc_found K ka pt true np ip lg i p Hf Hp), Hka.
    cbv beta iota zeta.
    step_slots Hi Hne Hc. rewrite Hpd.
    step_slots Hi Hne Hc.
    cbn [ptable locked nextpid initproc klog].
    rewrite <- !app_assoc. reflexivity.
  - repeat (split; [reflexivity |]). split.
    + intros k. exact (dup_ofile_lookup (ofile pc) (ofile p) k).
    + intros Hlen Hz. exact (dup_ofile_clean (ofile pc) (ofile p) Hlen Hz).
Qed.

Lemma fork_creates_child_witness :
  find_unused (ptable boot) 0 = Some 1%nat /\ ptable boot !! 0%nat = Some shell /\
  state shell <> UNUSED /\ 2147504128 <> 0 /\ 20480 <> 0 /\
  fst (fork xv6 2147504128 20480 0 boot) = nextpid boot.
Proof.
  assert (H1 : find_unused (ptable boot) 0 = Some 1%nat) by (vm_compute; reflexivity).
  assert (H2 : ptable boot !! 0%nat = Some shell) by reflexivity.
  assert (H3 : state shell <> UNUSED) by (vm_compute; discriminate).
  assert (H4 : 2147504128 <> 0) by discriminate.
  assert (H5 : 20480 <> 0) by discriminate.
  split_known.
  destruct (fork_creates_child xv6 2147504128 20480 0 boot 1 shell H1 H2 H3 H4 H5)
    as (c & He & _).
  rewrite He. reflexivity.
Defined.

(** A descriptor left in the slot: with 99 at index 0 of the free slot,
    where the shell has no descriptor, the child of fork has 99 there; at
    index 1 it has the shell's 77. *)
Lemma fork_keeps_left_over_descriptor :
  ofile (getp stale_slot 0) = [0; 77] /\ ofile (getp stale_slot 1) = [99; 0] /\
  ofile (getp (snd (fork xv6 2147504128 20480 0 stale_slot)) 1) = [99; 77].
Proof. by_evaluation. Qed.

Lemma map_state_insert (pt : list proc) (i : nat) (p q : proc) :
  pt !! i = Some p -> state q = state p ->
  map state (<[i := q]> pt) = map state pt.
Proof.
  intros Hp Hq. change (state <$> <[i := q]> pt = state <$> pt).
  rewrite list_fmap_insert. apply list_insert_id.
  rewrite list_lookup_fmap, Hp, Hq. reflexivity.
Qed.

(** X5: fork, when the table is full or kalloc or copyuvm gives nothing: it
    returns -1 with the lock released and every slot in the state it had;
    the slot it had taken holds no kernel stack, and a page that kalloc
    had given is handed back to kfree. *)
Theorem fork_failure_rolls_back (K : kconsts) (ka pd : Z) (cur : nat) (s : kstate) :
  find_unused (ptable s) 0 = None \/ ka = 0 \/ pd = 0 ->
  fst (fork K ka pd cur s) = -1 /\
  locked (snd (fork K ka pd cur s)) = false /\
  map state (ptable (snd (fork K ka pd cur s))) = map state (ptable s) /\
  (forall i, find_unused (ptable s) 0 = Some i ->
     kstack (getp (snd (fork K ka pd cur s)) i) = 0 /\
     (ka <> 0 -> In (EvKfree ka) (klog (snd (fork K ka pd cur s))))).
Proof.
  intros Hcase.
  destruct (find_unused (ptable s) 0) as [i |] eqn:Hf.
  - destruct (find_unused_Some _ _ _ Hf) as (_ & p & Hp & Hu).
    rewrite Nat.sub_0_r in Hp.
    assert (Hi : (i < length (ptable s))%nat)
      by (eapply lookup_lt_Some; eassumption).
    destruct s as [pt lk np ip lg]. cbn [ptable locked nextpid initproc klog] in *.
    assert (Hr : exists c lg',
      fork K ka pd cur {| ptable := pt; locked := lk; nextpid := np;
                          initproc := ip; klog := lg |}
      = (-1, {| ptable := <[i := c]> pt; locked := false;
                nextpid := sint32 (np + 1); initproc := ip; klog := lg' |}) /\
      state c = UNUSED /\ kstack c = 0 /\ (ka <> 0 -> In (EvKfree ka) lg')).
    { unfold fork. unfold acquire, set_locked.
      cbn [ptable locked nextpid initproc klog].
      rewrite (allocproc_found K ka pt true np ip lg i p Hf Hp).
      destruct (ka =? 0) eqn:Hka.
      - apply Z.eqb_eq in Hka. subst ka.
        eexists. eexists. split; [reflexivity |].
        split; [reflexivity |]. split; [reflexivity |]. intros H. congruence.
      - destruct Hcase as [Hx | [Hx | Hx]];
          [discriminate Hx | subst ka; discriminate Hka |]. subst pd.
        cbv beta iota zeta.
        rewrite !upd_slot_ins by exact Hi. cbn [Z.eqb].
        rewrite kfree_kstack_ins, upd_slot_ins, write_state_ins by exact Hi.
        eexists. eexists. split; [reflexivity |].
        split; [reflexivity |]. split; [reflexivity |].
        intros _. apply in_or_app. left. apply in_or_app. right.
        left. reflexivity. }
    destruct Hr as (c & lg' & -> & Hc & Hk & Hfree). cbn [fst snd ptable locked klog].
    split; [reflexivity |]. split; [reflexivity |].
    split; [apply (map_state_insert pt i p c Hp); congruence |].
    intros i0 Hi0. injection Hi0 as <-.
    unfold getp. cbn [ptable].
    rewrite list_lookup_insert_eq by exact Hi. cbn [default from_option id].
    split; [exact Hk | exact Hfree].
  - rewrite (fork_full K ka pd cur s Hf). cbn [fst snd].
    split; [reflexivity |]. split; [reflexivity |]. split; [reflexivity |].
    intros i Hi. discriminate Hi.
Qed.

Lemma fork_failure_rolls_back_witness :
  (find_unused (ptable boot) 0 = None \/ 2147504128 = 0 \/ 0 = 0) /\
  fst (fork xv6 2147504128 0 0 boot) = -1 /\
  locked (snd (fork xv6 2147504128 0 0 boot)) = false.
Proof.
  assert (H : find_unused (ptable boot) 0 = None \/ 2147504128 = 0 \/ 0 = 0)
    by (right; right; reflexivity).
  split; [exact H |].
  destruct (fork_failure_rolls_back xv6 2147504128 0 0 boot H) as (H1 & H2 & _).
  split; assumption.
Defined.

(** ** cowfork and clone: the caller's slot changes too *)

Lemma set_locked_lit (pt : list proc) (lk b : bool) (np : Z) (ip : option nat)
    (lg : list event) :
  set_locked b {| ptable := pt; locked := lk; nextpid := np; initproc := ip;
                  klog := lg |}
  = {| ptable := pt; locked := b; nextpid := np; initproc := ip; klog := lg |}.
Proof. reflexivity. Qed.

Lemma upd_slot_under (pt : list proc) (lk : bool) (np : Z) (ip : option nat)
    (lg : list event) (i j : nat) (q r : proc) (f : proc -> proc) :
  i <> j -> (j < length pt)%nat ->
  upd_slot j f {| ptable := <[i := q]> (<[j := r]> pt); locked := lk;
                  nextpid := np; initproc := ip; klog := lg |}
  = {| ptable := <[i := q]> (<[j := f r]> pt); locked := lk; nextpid := np;
       initproc := ip; klog := lg |}.
Proof.
  intros Hne Hj. rewrite (list_insert_insert_ne _ i j) by exact Hne.
  rewrite upd_slot_ins by (rewrite length_insert; exact Hj).
  rewrite (list_insert_insert_ne _ j i) by congruence. reflexivity.
Qed.

Lemma lookup_base (pt : list proc) (j : nat) (r : proc) :
  (j < length pt)%nat -> <[j := r]> pt !! j = Some r.
Proof. apply list_lookup_insert_eq. Qed.

(** Rewriting with the primitives, for a new slot [i] above a caller
    [cur] whose slot is written as well. *)
Ltac step_two Hi Hne Hj :=
  repeat first
    [ rewrite upd_slot_ins by (rewrite length_insert; exact Hi)
    | rewrite (upd_slot_under _ _ _ _ _ _ _ _ _ _ Hne Hj)
    | rewrite write_state_ins by (rewrite length_insert; exact Hi)
    | rewrite kfree_kstack_ins by (rewrite length_insert; exact Hi)
    | rewrite getp_ins by (rewrite length_insert; exact Hi)
    | rewrite set_locked_lit
    | erewrite dup_files_ins
        by first [ rewrite length_insert; exact Hi | exact Hne
                 | apply lookup_base; exact Hj ]
    | rewrite (getp_ins_ne _ _ _ _ _ _ _ _ Hne), (lookup_base _ _ _ Hj);
      cbn [default from_option id] ].

(** X6: cowfork, when there is a free slot and both kalloc and cow_copyuvm
    succeed: as fork, with the page directory cow_copyuvm returned, and
    both the caller and the child carry the copy-on-write mark.  The
    descriptors are as in fork: the caller's where it has one, else what
    the slot held before.  The first write of the child's state is made
    under whatever the lock was at entry, the last with the lock held. *)
Theorem cowfork_creates_child (K : kconsts) (ka pd : Z) (cur : nat) (s : kstate)
    (i : nat) (pc : proc) :
  find_unused (ptable s) 0 = Some i -> ptable s !! cur = Some pc ->
  state pc <> UNUSED -> ka <> 0 -> pd <> 0 ->
  exists c,
    cowfork K ka pd cur s
    = (nextpid s,
       {| ptable := <[i := c]> (<[cur := set_cow 1 pc]> (ptable s));
          locked := false;
          nextpid := sint32 (nextpid s + 1); initproc := initproc s;
          klog := klog s ++ [EvState i UNUSED EMBRYO (locked s)]
                  ++ map EvFiledup
                       (List.filter (fun f => negb (f =? 0))
                          (take (length (ofile (getp s i))) (ofile pc)))
                  ++ [EvIdup (cwd pc); EvState i EMBRYO RUNNABLE true] |}) /\
    cow c = 1 /\
    state c = RUNNABLE /\ pid c = nextpid s /\ parent c = Some cur /\
    pgdir c = pd /\ kstack c = ka /\ sz c = sz pc /\ cwd c = cwd pc /\
    tf c = set_tf_eax 0 (tf pc) /\
    name c = safestrcpy K (name (getp s i)) (name pc) (name_size pc) /\
    (forall k, ofile c !! k
               = match ofile pc !! k, ofile (getp s i) !! k with
                 | Some f, Some n => Some (if f =? 0 then n else f)
                 | _, o => o
                 end) /\
    (length (ofile (getp s i)) = length (ofile pc) ->
     Forall (fun n => n = 0) (ofile (getp s i)) -> ofile c = ofile pc).
Proof.
  intros Hf Hc Hst Hka Hpd.
  destruct (find_unused_Some _ _ _ Hf) as (_ & p & Hp & Hu).
  rewrite Nat.sub_0_r in Hp.
  assert (Hi : (i < length (ptable s))%nat) by (eapply lookup_lt_Some; eassumption).
  assert (Hj : (cur < length (ptable s))%nat) by (eapply lookup_lt_Some; eassumption).
  assert (Hne : i <> cur).
  { intros ->. rewrite Hc in Hp. injection Hp as ->. contradiction. }
  apply Z.eqb_neq in Hka. apply Z.eqb_neq in Hpd.
  rewrite (getp_lookup s i p Hp).
  rewrite <- (dup_ofile_events (ofile pc) (ofile p)).
  destruct s as [pt lk np ip lg]. cbn [ptable locked nextpid initproc klog] in *.
  eexists. split.
  - rewrite <- (list_insert_id pt cur pc Hc) at 1.
    rewrite <- (list_insert_id pt cur pc Hc) in Hf, Hp.
    unfold cowfork.
    rewrite (allocproc_found K ka _ lk np ip lg i p Hf Hp), Hka.
    cbv beta iota zeta.
    unfold acquire, release.
    step_two Hi Hne Hj. rewrite Hpd.
    step_two Hi Hne Hj.
    cbn [ptable locked nextpid initproc klog].
    rewrite <- !app_assoc. reflexivity.
  - repeat (split; [reflexivity |]). split.
    + intros k. exact (dup_ofile_lookup (ofile pc) (ofile p) k).
    + intros Hlen Hz. exact (dup_ofile_clean (ofile pc) (ofile p) Hlen Hz).
Qed.

Lemma cowfork_creates_child_witness :
  find_unused (ptable boot) 0 = Some 1%nat /\ ptable boot !! 0%nat = Some shell /\
  state shell <> UNUSED /\ 2147504128 <> 0 /\ 20480 <> 0 /\
  fst (cowfork xv6 2147504128 20480 0 boot) = nextpid boot.
Proof.
  assert (H1 : find_unused (ptable boot) 0 = Some 1%nat) by (vm_compute; reflexivity).
  assert (H2 : ptable boot !! 0%nat = Some shell) by reflexivity.
  assert (H3 : state shell <> UNUSED) by (vm_compute; discriminate).
  assert (H4 : 2147504128 <> 0) by discriminate.
  assert (H5 : 20480 <> 0) by discriminate.
  split_known.
  destruct (cowfork_creates_child xv6 2147504128 20480 0 boot 1 shell
              H1 H2 H3 H4 H5) as (c & He & _).
  rewrite He. reflexivity.
Defined.

Lemma cowfork_keeps_left_over_descriptor :
  ofile (getp (snd (cowfork xv6 2147504128 20480 0 stale_slot)) 1) = [99; 77].
Proof. by_evaluation. Qed.

(** X7: clone, when there is a free slot and kalloc succeeds: it returns the
    pid [nextpid] held; the new slot [c] is a RUNNABLE thread of the
    caller: marked as a thread, on the caller's page directory and size,
    with the caller for parent, the user stack recorded, the caller's
    registers but for esp, at the top of the stack page less two words,
    and eip, at [func]; the two words on the stack are a return address of
    0 and [arg]; the caller's slot keeps all but its name; the lock is
    released. *)
Theorem clone_creates_thread (K : kconsts) (ka func arg stack : Z) (cur : nat)
    (s : kstate) (m : mem) (i : nat) (pc : proc) :
  find_unused (ptable s) 0 = Some i -> ptable s !! cur = Some pc ->
  state pc <> UNUSED -> ka <> 0 ->
  exists c,
    clone K ka func arg stack cur s m
    = (nextpid s,
       {| ptable :=
            <[i := c]>
              (<[cur := set_name (safestrcpy K (name pc) (name (getp s i))
                                    (name_size (getp s i))) pc]> (ptable s));
          locked := false;
          nextpid := sint32 (nextpid s + 1); initproc := initproc s;
          klog := klog s ++ [EvState i UNUSED EMBRYO true]
                  ++ snd (dup_ofile (ofile pc) (ofile (getp s i)))
                  ++ [EvIdup (cwd pc); EvState i EMBRYO RUNNABLE true] |},
       store32 (store32 m (wrap32 (stack + PGSIZE K - 8)) 0)
         (wrap32 (stack + PGSIZE K - 8) + 4) arg) /\
    state c = RUNNABLE /\ pid c = nextpid s /\ athread c = 1 /\
    tstack c = stack /\ pgdir c = pgdir pc /\ sz c = sz pc /\
    parent c = Some cur /\ killed c = 0 /\ kstack c = ka /\
    tf c = set_tf_eip func (set_tf_esp (wrap32 (stack + PGSIZE K - 8)) (tf pc)) /\
    load32 (store32 (store32 m (wrap32 (stack + PGSIZE K - 8)) 0)
              (wrap32 (stack + PGSIZE K - 8) + 4) arg)
           (wrap32 (stack + PGSIZE K - 8)) = 0 /\
    load32 (store32 (store32 m (wrap32 (stack + PGSIZE K - 8)) 0)
              (wrap32 (stack + PGSIZE K - 8) + 4) arg)
           (wrap32 (stack + PGSIZE K - 8) + 4) = wrap32 arg.
Proof.
  intros Hf Hc Hst Hka.
  destruct (find_unused_Some _ _ _ Hf) as (_ & p & Hp & Hu).
  rewrite Nat.sub_0_r in Hp.
  assert (Hi : (i < length (ptable s))%nat) by (eapply lookup_lt_Some; eassumption).
  assert (Hj : (cur < length (ptable s))%nat) by (eapply lookup_lt_Some; eassumption).
  assert (Hne : i <> cur).
  { intros ->. rewrite Hc in Hp. injection Hp as ->. contradiction. }
  apply Z.eqb_neq in Hka.
  rewrite (getp_lookup s i p Hp).
  destruct s as [pt lk np ip lg]. cbn [ptable locked nextpid initproc klog] in *.
  eexists. split; [| split].
  - rewrite <- (list_insert_id pt cur pc Hc) at 1.
    rewrite <- (list_insert_id pt cur pc Hc) in Hf, Hp.
    unfold clone, acquire, release. rewrite set_locked_lit.
    rewrite (allocproc_found K ka _ true np ip lg i p Hf Hp), Hka.
    unfold thread_init. cbv beta iota zeta.
    step_two Hi Hne Hj.
    cbn [ptable locked nextpid initproc klog].
    rewrite <- !app_assoc. reflexivity.
  - reflexivity.
  - repeat (split; [reflexivity |]). split.
    + rewrite load32_store32_other by lia. apply load32_store32_same.
    + apply load32_store32_same.
Qed.

Lemma clone_creates_thread_witness :
  find_unused (ptable boot) 0 = Some 1%nat /\ ptable boot !! 0%nat = Some shell /\
  state shell <> UNUSED /\ 2147504128 <> 0 /\
  fst (fst (clone xv6 2147504128 256 5 8192 0 boot mem0)) = nextpid boot.
Proof.
  assert (H1 : find_unused (ptable boot) 0 = Some 1%nat) by (vm_compute; reflexivity).
  assert (H2 : ptable boot !! 0%nat = Some shell) by reflexivity.
  assert (H3 : state shell <> UNUSED) by (vm_compute; discriminate).
  assert (H4 : 2147504128 <> 0) by discriminate.
  split_known.
  destruct (clone_creates_thread xv6 2147504128 256 5 8192 0 boot mem0 1 shell
              H1 H2 H3 H4) as (c & He & _).
  rewrite He. reflexivity.
Defined.

(** ** kill, again *)

Lemma find_pid_None (v : Z) (ps : list proc) (k : nat) :
  find_pid v ps k = None -> Forall (fun p => pid p <> v) ps.
Proof.
  revert k. induction ps as [| q ps IH]; intros k H; simpl in H.
  - constructor.
  - destruct (pid q =? v) eqn:E; [discriminate |].
    apply Z.eqb_neq in E. constructor; [exact E | exact (IH _ H)].
Qed.

Lemma find_pid_insert (v : Z) (ps : list proc) (k j : nat) (q : proc) :
  find_pid v ps k = Some j -> pid q = v ->
  find_pid v (<[(j - k)%nat := q]> ps) k = Some j.
Proof.
  revert k. induction ps as [| p ps IH]; intros k H Hq; simpl in H.
  - discriminate.
  - destruct (pid p =? v) eqn:E.
    + injection H as <-. rewrite Nat.sub_diag. simpl.
      apply Z.eqb_eq in Hq. rewrite Hq. reflexivity.
    + pose proof (find_pid_Some _ _ _ _ H) as [Hle _].
      replace (j - k)%nat with (S (j - S k)) by lia. simpl. rewrite E.
      apply IH; assumption.
Qed.

(** X8: kill of a pid no slot holds: -1, and the table and the log are as
    they were, the lock released. *)
Theorem kill_unknown_pid (v : Z) (s : kstate) :
  Forall (fun p => pid p <> v) (ptable s) ->
  kill v s = (-1, {| ptable := ptable s; locked := false; nextpid := nextpid s;
                     initproc := initproc s; klog := klog s |}).
Proof.
  intros Hall.
  destruct (find_pid v (ptable s) 0) as [j |] eqn:Hf.
  - exfalso. destruct (find_pid_Some _ _ _ _ Hf) as (_ & p & Hp & Hv).
    exact (Forall_lookup_1 _ _ _ _ Hall Hp Hv).
  - rewrite (kill_not_found v s Hf). reflexivity.
Qed.

Lemma kill_unknown_pid_witness :
  Forall (fun p => pid p <> 9) (ptable boot) /\
  kill 9 boot = (-1, {| ptable := ptable boot; locked := false;
                        nextpid := nextpid boot; initproc := initproc boot;
                        klog := klog boot |}).
Proof.
  assert (H : Forall (fun p => pid p <> 9) (ptable boot)).
  { vm_compute ptable. repeat constructor; simpl; discriminate. }
  split; [exact H | exact (kill_unknown_pid 9 boot H)].
Defined.

(** X9: kill of a pid some slot holds: 0; the first slot of the table with
    that pid has [killed] set; if it was SLEEPING it is RUNNABLE, else its
    state is as it was; all its other fields, and all other slots, are
    untouched. *)
Theorem kill_marks_first_match (v : Z) (s : kstate) (i : nat) (p : proc) :
  ptable s !! i = Some p -> pid p = v ->
  (forall j q, (j < i)%nat -> ptable s !! j = Some q -> pid q <> v) ->
  fst (kill v s) = 0 /\
  locked (snd (kill v s)) = false /\
  ptable (snd (kill v s))
    = <[i := if procstate_eqb (state p) SLEEPING
             then set_state RUNNABLE (set_killed 1 p) else set_killed 1 p]>
        (ptable s).
Proof.
  intros Hp Hv Hfirst.
  destruct (find_pid_exists v (ptable s) 0 i p Hp Hv) as (j & Hj & Hle).
  assert (j = i) as ->.
  { destruct (find_pid_Some _ _ _ _ Hj) as (_ & q & Hq & Hqv).
    rewrite Nat.sub_0_r in Hq.
    destruct (decide (j = i)) as [E | E]; [exact E |].
    exfalso. apply (Hfirst j q); [lia | exact Hq | exact Hqv]. }
  rewrite (kill_found v s i p Hj Hp).
  destruct (procstate_eqb (state p) SLEEPING); repeat split; reflexivity.
Qed.

Lemma kill_marks_first_match_witness :
  ptable asleep !! 0%nat = Some (getp asleep 0) /\ pid (getp asleep 0) = 1 /\
  (forall j q, (j < 0)%nat -> ptable asleep !! j = Some q -> pid q <> 1) /\
  fst (kill 1 asleep) = 0 /\
  state (getp (snd (kill 1 asleep)) 0) = RUNNABLE /\
  killed (getp (snd (kill 1 asleep)) 0) = 1.
Proof.
  assert (H1 : ptable asleep !! 0%nat = Some (getp asleep 0)) by reflexivity.
  assert (H2 : pid (getp asleep 0) = 1) by reflexivity.
  assert (H3 : forall j q, (j < 0)%nat -> ptable asleep !! j = Some q -> pid q <> 1)
    by (intros j q Hj; lia).
  split_known.
  destruct (kill_marks_first_match 1 asleep 0 _ H1 H2 H3) as (Hr & _ & Ht).
  split; [exact Hr |]. unfold getp. rewrite Ht.
  split; vm_compute; reflexivity.
Defined.

(** X10: kill is idempotent: a second kill of the same pid returns what the
    first returned and leaves the table as the first left it. *)
Theorem kill_twice (v : Z) (s : kstate) :
  fst (kill v (snd (kill v s))) = fst (kill v s) /\
  ptable (snd (kill v (snd (kill v s)))) = ptable (snd (kill v s)).
Proof.
  destruct (find_pid v (ptable s) 0) as [j |] eqn:Hf.
  - destruct (find_pid_Some _ _ _ _ Hf) as (_ & p & Hp & Hv).
    rewrite Nat.sub_0_r in Hp.
    assert (Hj : (j < length (ptable s))%nat) by (eapply lookup_lt_Some; eassumption).
    rewrite (kill_found v s j p Hf Hp).
    set (q := if procstate_eqb (state p) SLEEPING
              then set_state RUNNABLE (set_killed 1 p) else set_killed 1 p).
    assert (Hs1 : snd (0, if procstate_eqb (state p) SLEEPING
        then {| ptable := <[j := set_state RUNNABLE (set_killed 1 p)]> (ptable s);
                locked := false; nextpid := nextpid s; initproc := initproc s;
                klog := klog s ++ [EvState j SLEEPING RUNNABLE true] |}
        else {| ptable := <[j := set_killed 1 p]> (ptable s);
                locked := false; nextpid := nextpid s; initproc := initproc s;
                klog := klog s |})
      = {| ptable := <[j := q]> (ptable s); locked := false;
           nextpid := nextpid s; initproc := initproc s;
           klog := if procstate_eqb (state p) SLEEPING
                   then klog s ++ [EvState j SLEEPING RUNNABLE true]
                   else klog s |}).
    { unfold q. destruct (procstate_eqb (state p) SLEEPING); reflexivity. }
    rewrite Hs1. clear Hs1.
    assert (Hq : pid q = v /\ procstate_eqb (state q) SLEEPING = false /\
                 set_killed 1 q = q).
    { unfold q. destruct (procstate_eqb (state p) SLEEPING) eqn:E.
      - repeat split; auto.
      - repeat split; auto. }
    destruct Hq as (Hqv & Hqs & Hqk).
    pose proof (find_pid_insert v (ptable s) 0 j q Hf Hqv) as Hf2.
    rewrite Nat.sub_0_r in Hf2.
    erewrite kill_found;
      [| cbn [ptable]; exact Hf2
       | cbn [ptable]; apply list_lookup_insert_eq; exact Hj].
    rewrite Hqs, Hqk. cbn [fst snd ptable].
    split; [reflexivity |]. apply list_insert_insert_eq.
  - rewrite (kill_not_found v s Hf). cbn [fst snd].
    rewrite kill_not_found by exact Hf. split; reflexivity.
Qed.

(** ** sleep and wakeup, again *)

Lemma ptable_wakeup1 (c : chan_t) (s : kstate) :
  ptable (wakeup1 c s) = map (wake_on c) (ptable s).
Proof.
  unfold wakeup1.
  rewrite <- (wakeup1_scan_map c (locked s) 0 (ptable s)).
  destruct (wakeup1_scan c (locked s) 0 (ptable s)); reflexivity.
Qed.

Lemma wake_on_cases (c : chan_t) (p : proc) :
  (state p = SLEEPING /\ chan p = c /\ wake_on c p = set_state RUNNABLE p) \/
  (~ (state p = SLEEPING /\ chan p = c) /\ wake_on c p = p).
Proof.
  unfold wake_on.
  destruct (procstate_eqb (state p) SLEEPING) eqn:Es;
    destruct (chan_eqb (chan p) c) eqn:Ec; simpl.
  - left. apply procstate_eqb_eq in Es. apply chan_eqb_eq in Ec. auto.
  - right. split; [| reflexivity]. intros [_ H].
    apply chan_eqb_eq in H. congruence.
  - right. split; [| reflexivity]. intros [H _].
    apply procstate_eqb_eq in H. congruence.
  - right. split; [| reflexivity]. intros [H _].
    apply procstate_eqb_eq in H. congruence.
Qed.

(** X11: wakeup(chan) turns every slot that is SLEEPING on [chan] into a
    RUNNABLE one, touching nothing else of it, and leaves every other slot
    as it is; afterwards no slot sleeps on [chan], and the lock is free. *)
Theorem wakeup_wakes_all (c : chan_t) (s : kstate) :
  (forall i p, ptable s !! i = Some p ->
     ptable (wakeup c s) !! i
     = Some (if procstate_eqb (state p) SLEEPING && chan_eqb (chan p) c
             then set_state RUNNABLE p else p)) /\
  Forall (fun q => ~ (state q = SLEEPING /\ chan q = c)) (ptable (wakeup c s)) /\
  length (ptable (wakeup c s)) = length (ptable s) /\
  locked (wakeup c s) = false.
Proof.
  rewrite ptable_wakeup. split; [| split; [| split]].
  - intros i p Hp. rewrite list_lookup_fmap, Hp. reflexivity.
  - apply Forall_fmap, Forall_forall. intros p _. simpl.
    destruct (wake_on_cases c p) as [(_ & _ & ->) | (Hn & ->)].
    + simpl. intros [H _]. discriminate H.
    + exact Hn.
  - apply length_map.
  - reflexivity.
Qed.

(** X12: A second wakeup on the same channel finds nobody to wake. *)
Theorem wakeup_twice (c : chan_t) (s : kstate) :
  ptable (wakeup c (wakeup c s)) = ptable (wakeup c s) /\
  klog (wakeup c (wakeup c s)) = klog (wakeup c s).
Proof.
  assert (Hscan : forall held k ps,
    Forall (fun q => ~ (state q = SLEEPING /\ chan q = c)) ps ->
    wakeup1_scan c held k ps = (ps, [])).
  { intros held k ps. revert k. induction ps as [| p ps IH]; intros k Hall.
    - reflexivity.
    - simpl. apply Forall_cons in Hall as [Hp Hall]. rewrite (IH _ Hall).
      destruct (procstate_eqb (state p) SLEEPING) eqn:Es;
        destruct (chan_eqb (chan p) c) eqn:Ec; simpl; try reflexivity.
      exfalso. apply Hp. split;
        [apply procstate_eqb_eq; exact Es | apply chan_eqb_eq; exact Ec]. }
  assert (Hall : Forall (fun q => ~ (state q = SLEEPING /\ chan q = c))
                   (ptable (wakeup c s))).
  { rewrite ptable_wakeup. apply Forall_fmap, Forall_forall. intros p _. simpl.
    destruct (wake_on_cases c p) as [(_ & _ & ->) | (Hn & ->)].
    - simpl. intros [H _]. discriminate H.
    - exact Hn. }
  assert (Hno : forall s',
    Forall (fun q => ~ (state q = SLEEPING /\ chan q = c)) (ptable s') ->
    ptable (wakeup c s') = ptable s' /\ klog (wakeup c s') = klog s').
  { intros s' Hall'. unfold wakeup, wakeup1.
    cbn [acquire set_locked ptable locked].
    rewrite (Hscan true 0%nat _ Hall'). cbn.
    split; [reflexivity | apply app_nil_r]. }
  exact (Hno (wakeup c s) Hall).
Qed.

(** ** wait, again *)

Lemma wait_find_inr (cur : nat) (ps : list proc) (k : nat) (hk b : bool) :
  wait_find cur ps k hk = inr b ->
  Forall (fun p => ~ (child_of cur p = true /\ state p = ZOMBIE)) ps /\
  (b = true <-> hk = true \/ Exists (fun p => child_of cur p = true) ps).
Proof.
  revert k hk. induction ps as [| q ps IH]; intros k hk H; simpl in H.
  - injection H as <-. split; [constructor |].
    split; [auto |]. intros [E | E]; [exact E | inversion E].
  - destruct (child_of cur q) eqn:Hc.
    + destruct (procstate_eqb (state q) ZOMBIE) eqn:Hz; [discriminate |].
      apply IH in H as [Hall Hb]. split.
      * constructor; [| exact Hall]. intros [_ Hzq].
        apply procstate_eqb_eq in Hzq. congruence.
      * split; [intros _; right; left; exact Hc |].
        intros _. apply Hb. left. reflexivity.
    + apply IH in H as [Hall Hb]. split.
      * constructor; [| exact Hall]. intros [Hcq _]. congruence.
      * rewrite Hb. split.
        -- intros [E | E]; [left; exact E | right; right; exact E].
        -- intros [E | E]; [left; exact E |].
           apply Exists_cons in E as [E | E]; [congruence | right; exact E].
Qed.

Lemma wait_find_no_zombie (cur : nat) (ps : list proc) (k : nat) (hk : bool) :
  Forall (fun p => ~ (child_of cur p = true /\ state p = ZOMBIE)) ps ->
  exists b, wait_find cur ps k hk = inr b.
Proof.
  revert k hk. induction ps as [| q ps IH]; intros k hk Hall; simpl.
  - eauto.
  - apply Forall_cons in Hall as [Hq Hall].
    destruct (child_of cur q) eqn:Hc; [| apply IH; exact Hall].
    destruct (procstate_eqb (state q) ZOMBIE) eqn:Hz; [| apply IH; exact Hall].
    exfalso. apply Hq. split; [reflexivity | apply procstate_eqb_eq; exact Hz].
Qed.

Lemma wait_find_first (cur : nat) (ps : list proc) (k i : nat) (hk : bool)
    (p : proc) :
  ps !! i = Some p -> child_of cur p = true -> state p = ZOMBIE ->
  (forall j q, (j < i)%nat -> ps !! j = Some q ->
               ~ (child_of cur q = true /\ state q = ZOMBIE)) ->
  wait_find cur ps k hk = inl (k + i)%nat.
Proof.
  revert k i hk. induction ps as [| q ps IH]; intros k i hk Hp Hc Hz Hfirst.
  - destruct i; discriminate.
  - destruct i as [| i]; simpl in Hp |- *.
    + injection Hp as ->. rewrite Hc, Hz. simpl. f_equal. lia.
    + assert (Hq : ~ (child_of cur q = true /\ state q = ZOMBIE))
        by (apply (Hfirst 0%nat q); [lia | reflexivity]).
      assert (Hrest : forall hk', wait_find cur ps (S k) hk' = inl (k + S i)%nat).
      { intros hk'. replace (k + S i)%nat with (S k + i)%nat by lia.
        apply (IH (S k) i hk' Hp Hc Hz).
        intros j r Hj Hr. apply (Hfirst (S j) r); [lia | exact Hr]. }
      destruct (child_of cur q) eqn:Hcq; [| apply Hrest].
      destruct (procstate_eqb (state q) ZOMBIE) eqn:Hzq; [| apply Hrest].
      exfalso. apply Hq. split; [reflexivity | apply procstate_eqb_eq; exact Hzq].
Qed.

(** X14: wait by a process with no ZOMBIE child, when it has no child at all
    or has been killed: -1, with the lock released and the table and the
    log as they were. *)
Theorem wait_returns_minus_one (cur : nat) (s : kstate) :
  Forall (fun p => ~ (child_of cur p = true /\ state p = ZOMBIE)) (ptable s) ->
  Forall (fun p => child_of cur p = false) (ptable s) \/ killed (getp s cur) <> 0 ->
  wait cur s = (Ret (-1), {| ptable := ptable s; locked := false;
                             nextpid := nextpid s; initproc := initproc s;
                             klog := klog s |}).
Proof.
  intros Hnz Hcase.
  destruct s as [pt lk np ip lg]. unfold getp in Hcase.
  cbn [ptable locked nextpid initproc klog] in *.
  unfold wait, wait_pass, acquire, set_locked, getp.
  cbn [ptable locked nextpid initproc klog].
  destruct (wait_find_no_zombie cur pt 0 false Hnz) as [b Hb].
  rewrite Hb. destruct (wait_find_inr _ _ _ _ _ Hb) as [_ Hiff].
  assert (Hgo : negb b || negb (killed (default proc0 (pt !! cur)) =? 0) = true).
  { destruct Hcase as [Hnone | Hk].
    - destruct b; [| reflexivity]. exfalso.
      destruct (proj1 Hiff eq_refl) as [E | E]; [discriminate |].
      apply Exists_exists in E as (q & Hin & Hq).
      rewrite Forall_forall in Hnone. rewrite (Hnone q Hin) in Hq. discriminate.
    - apply Z.eqb_neq in Hk. rewrite Hk. apply orb_true_r. }
  rewrite Hgo. reflexivity.
Qed.

Lemma wait_returns_minus_one_witness :
  Forall (fun p => ~ (child_of 0 p = true /\ state p = ZOMBIE)) (ptable boot) /\
  (Forall (fun p => child_of 0 p = false) (ptable boot)
   \/ killed (getp boot 0) <> 0) /\
  wait 0 boot = (Ret (-1), {| ptable := ptable boot; locked := false;
                              nextpid := nextpid boot; initproc := initproc boot;
                              klog := klog boot |}).
Proof.
  assert (H1 : Forall (fun p => ~ (child_of 0 p = true /\ state p = ZOMBIE))
                 (ptable boot)).
  { vm_compute ptable. repeat constructor; intros [H _]; discriminate H. }
  assert (H2 : Forall (fun p => child_of 0 p = false) (ptable boot)
               \/ killed (getp boot 0) <> 0).
  { left. vm_compute ptable. repeat constructor. }
  split; [exact H1 |]. split; [exact H2 |].
  exact (wait_returns_minus_one 0 boot H1 H2).
Defined.

(** X15: wait by a process that has children, none of them a ZOMBIE, and has
    not been killed: it goes to sleep on its own slot, the lock held and
    every other slot as it was. *)
Theorem wait_sleeps_on_own_slot (cur : nat) (s : kstate) (p : proc) :
  ptable s !! cur = Some p -> killed p = 0 ->
  Forall (fun q => ~ (child_of cur q = true /\ state q = ZOMBIE)) (ptable s) ->
  Exists (fun q => child_of cur q = true) (ptable s) ->
  wait cur s
  = (Sleeps,
     {| ptable := <[cur := set_state SLEEPING (set_chan (CProc cur) p)]> (ptable s);
        locked := true; nextpid := nextpid s; initproc := initproc s;
        klog := klog s ++ [EvState cur (state p) SLEEPING true] |}).
Proof.
  intros Hp Hk Hnz Hex.
  assert (Hcur : (cur < length (ptable s))%nat) by (eapply lookup_lt_Some; eassumption).
  destruct s as [pt lk np ip lg].
  cbn [ptable locked nextpid initproc klog] in *.
  unfold wait, wait_pass, acquire, set_locked.
  cbn [ptable locked nextpid initproc klog].
  destruct (wait_find_no_zombie cur pt 0 false Hnz) as [b Hb].
  rewrite Hb. destruct (wait_find_inr _ _ _ _ _ Hb) as [_ Hiff].
  assert (b = true) as -> by (apply Hiff; right; exact Hex).
  unfold getp at 1. cbn [ptable]. rewrite Hp. cbn [default from_option id].
  rewrite Hk. cbn [negb orb Z.eqb].
  unfold sleep_enter. cbn [is_ptable_lock]. cbv zeta.
  rewrite <- (list_insert_id pt cur p Hp) at 1.
  rewrite upd_slot_ins, write_state_ins by exact Hcur. reflexivity.
Qed.

Lemma wait_sleeps_on_own_slot_witness :
  ptable forked !! 0%nat = Some (getp forked 0) /\ killed (getp forked 0) = 0 /\
  Forall (fun q => ~ (child_of 0 q = true /\ state q = ZOMBIE)) (ptable forked) /\
  Exists (fun q => child_of 0 q = true) (ptable forked) /\
  fst (wait 0 forked) = Sleeps.
Proof.
  assert (H1 : ptable forked !! 0%nat = Some (getp forked 0))
    by (vm_compute; reflexivity).
  assert (H2 : killed (getp forked 0) = 0) by (vm_compute; reflexivity).
  assert (H3 : Forall (fun q => ~ (child_of 0 q = true /\ state q = ZOMBIE))
                 (ptable forked)).
  { vm_compute ptable.
    repeat constructor; intros [Ha Hb]; solve [discriminate Ha | discriminate Hb]. }
  assert (H4 : Exists (fun q => child_of 0 q = true) (ptable forked)).
  { vm_compute ptable. apply Exists_cons_tl, Exists_cons_hd. reflexivity. }
  split_known.
  rewrite (wait_sleeps_on_own_slot 0 forked _ H1 H2 H3 H4). reflexivity.
Defined.

(** X16: wait by a process with a ZOMBIE child: it returns the pid of the first
    such child in table order, makes its slot UNUSED, and leaves every
    other slot as it was. *)
Theorem wait_reaps_first_zombie (cur : nat) (s : kstate) (i : nat) (p : proc) :
  ptable s !! i = Some p -> child_of cur p = true -> state p = ZOMBIE ->
  (forall j q, (j < i)%nat -> ptable s !! j = Some q ->
               ~ (child_of cur q = true /\ state q = ZOMBIE)) ->
  fst (wait cur s) = Ret (pid p) /\
  state (getp (snd (wait cur s)) i) = UNUSED /\
  (forall j, j <> i -> ptable (snd (wait cur s)) !! j = ptable s !! j) /\
  locked (snd (wait cur s)) = false.
Proof.
  intros Hp Hc Hz Hfirst.
  assert (Hi : (i < length (ptable s))%nat) by (eapply lookup_lt_Some; eassumption).
  pose proof (wait_find_first cur (ptable s) 0 i false p Hp Hc Hz Hfirst) as Hf.
  unfold wait.
  rewrite (wait_pass_reaps cur (acquire s) i p Hf Hp). cbn [fst snd ptable locked].
  split; [reflexivity |]. split.
  { unfold getp. cbn [ptable acquire set_locked].
    rewrite list_lookup_insert_eq by exact Hi. reflexivity. }
  split; [| reflexivity].
  intros j Hj. cbn [ptable acquire set_locked].
  apply list_lookup_insert_ne. congruence.
Qed.

Lemma wait_reaps_first_zombie_witness :
  ptable child_exited !! 1%nat = Some (getp child_exited 1) /\
  child_of 0 (getp child_exited 1) = true /\
  state (getp child_exited 1) = ZOMBIE /\
  fst (wait 0 child_exited) = Ret (pid (getp child_exited 1)).
Proof.
  assert (H1 : ptable child_exited !! 1%nat = Some (getp child_exited 1))
    by (vm_compute; reflexivity).
  assert (H2 : child_of 0 (getp child_exited 1) = true) by (vm_compute; reflexivity).
  assert (H3 : state (getp child_exited 1) = ZOMBIE) by (vm_compute; reflexivity).
  assert (H4 : forall j q, (j < 1)%nat -> ptable child_exited !! j = Some q ->
                 ~ (child_of 0 q = true /\ state q = ZOMBIE)).
  { intros j q Hj Hq [Ha _]. assert (j = 0%nat) as -> by lia.
    vm_compute in Hq. injection Hq as <-. discriminate Ha. }
  split_known.
  exact (proj1 (wait_reaps_first_zombie 0 child_exited 1 _ H1 H2 H3 H4)).
Defined.

(** ** exit and texit *)

Lemma getp_wakeup1 (c : chan_t) (s : kstate) (j : nat) :
  getp (wakeup1 c s) j = wake_on c (getp s j).
Proof.
  unfold getp. rewrite ptable_wakeup1, list_lookup_fmap.
  destruct (ptable s !! j); reflexivity.
Qed.

Lemma wake_on_keeps (c : chan_t) (p : proc) :
  but_state_parent (wake_on c p) = but_state_parent p /\
  parent (wake_on c p) = parent p /\
  (state (wake_on c p) = state p \/
   (state p = SLEEPING /\ state (wake_on c p) = RUNNABLE)).
Proof.
  destruct (wake_on_cases c p) as [(Hs & _ & ->) | (_ & ->)].
  - split; [reflexivity |]. split; [reflexivity |]. right. auto.
  - auto.
Qed.

Lemma child_of_parent (cur : nat) (p q : proc) :
  parent p = parent q -> child_of cur p = child_of cur q.
Proof. unfold child_of. intros ->. reflexivity. Qed.

Lemma child_of_proc0 (cur : nat) : child_of cur proc0 = false.
Proof. reflexivity. Qed.

Lemma child_of_in_range (cur : nat) (s : kstate) (j : nat) :
  child_of cur (getp s j) = true -> (j < length (ptable s))%nat.
Proof.
  unfold getp. intros H. destruct (ptable s !! j) as [p |] eqn:E.
  - eapply lookup_lt_Some; eassumption.
  - discriminate H.
Qed.

Lemma reparent_invariant (cur : nat) (n : nat) :
  forall (i : nat) (s : kstate),
    initproc (reparent cur n i s) = initproc s /\
    locked (reparent cur n i s) = locked s /\
    length (ptable (reparent cur n i s)) = length (ptable s) /\
    forall j, reparent_spec cur i (i + n) (initproc s)
                (getp s j) (getp (reparent cur n i s) j) j.
Proof.
  induction n as [| n IH]; intros i s.
  - simpl. split; [reflexivity |]. split; [reflexivity |].
    split; [reflexivity |]. intros j. unfold reparent_spec.
    replace ((i <=? j)%nat && (j <? i + 0)%nat) with false
      by (symmetry; apply andb_false_iff;
          destruct (Nat.leb_spec i j); [right; apply Nat.ltb_ge; lia | left; reflexivity]).
    simpl. auto.
  - cbn [reparent].
    set (s1 := if child_of cur (getp s i)
               then (if procstate_eqb
                          (state (getp (upd_slot i (set_parent (initproc s)) s) i))
                          ZOMBIE
                     then wakeup1
                            (chan_of_ptr
                               (initproc (upd_slot i (set_parent (initproc s)) s)))
                            (upd_slot i (set_parent (initproc s)) s)
                     else upd_slot i (set_parent (initproc s)) s)
               else s).
    assert (Hstep : initproc s1 = initproc s /\ locked s1 = locked s /\
                    length (ptable s1) = length (ptable s) /\
                    forall j, reparent_spec cur i (S i) (initproc s)
                                (getp s j) (getp s1 j) j).
    { unfold s1. destruct (child_of cur (getp s i)) eqn:Hc.
      - pose proof (child_of_in_range cur s i Hc) as Hi.
        assert (Hu : forall j,
          reparent_spec cur i (S i) (initproc s) (getp s j)
            (getp (upd_slot i (set_parent (initproc s)) s) j) j).
        { intros j. unfold reparent_spec. destruct (decide (i = j)) as [<- | Hne].
          - rewrite getp_upd_same by exact Hi. rewrite Hc.
            replace ((i <=? i)%nat && (i <? S i)%nat) with true
              by (symmetry; apply andb_true_iff; split;
                  [apply Nat.leb_le | apply Nat.ltb_lt]; lia).
            simpl. auto.
          - rewrite getp_upd_ne by exact Hne.
            replace ((i <=? j)%nat && (j <? S i)%nat) with false
              by (symmetry; apply andb_false_iff;
                  destruct (Nat.leb_spec i j);
                  [right; apply Nat.ltb_ge; lia | left; reflexivity]).
            simpl. auto. }
        destruct (procstate_eqb
                    (state (getp (upd_slot i (set_parent (initproc s)) s) i)) ZOMBIE).
        + split; [unfold wakeup1;
                  destruct (wakeup1_scan _ _ _ _); reflexivity |].
          split; [unfold wakeup1;
                  destruct (wakeup1_scan _ _ _ _); reflexivity |].
          split; [rewrite ptable_wakeup1, length_map; apply upd_slot_length |].
          intros j. rewrite getp_wakeup1.
          destruct (Hu j) as (Ha & Hb & Hd).
          destruct (wake_on_keeps
                      (chan_of_ptr (initproc (upd_slot i (set_parent (initproc s)) s)))
                      (getp (upd_slot i (set_parent (initproc s)) s) j))
            as (Ha' & Hb' & Hd').
          unfold reparent_spec. rewrite Ha', Hb'.
          split; [exact Ha |]. split; [exact Hb |].
          destruct Hd as [Hd | [Hd1 Hd2]]; destruct Hd' as [Hd' | [Hd1' Hd2']].
          * left. congruence.
          * right. split; congruence.
          * right. split; congruence.
          * congruence.
        + split; [reflexivity |]. split; [reflexivity |].
          split; [apply upd_slot_length | exact Hu].
      - split; [reflexivity |]. split; [reflexivity |]. split; [reflexivity |].
        intros j. unfold reparent_spec.
        destruct (decide (i = j)) as [<- | Hne].
        + rewrite Hc, andb_false_r. auto.
        + replace ((i <=? j)%nat && (j <? S i)%nat) with false
            by (symmetry; apply andb_false_iff;
                destruct (Nat.leb_spec i j);
                [right; apply Nat.ltb_ge; lia | left; reflexivity]).
          simpl. auto. }
    destruct Hstep as (Hini & Hlk & Hlen & Hsp).
    destruct (IH (S i) s1) as (Hini' & Hlk' & Hlen' & Hsp').
    split; [congruence |]. split; [congruence |]. split; [congruence |].
    intros j. destruct (Hsp j) as (Ha & Hb & Hd).
    destruct (Hsp' j) as (Ha' & Hb' & Hd').
    unfold reparent_spec. split; [congruence |]. split.
    + rewrite Hb'. rewrite Hini.
      destruct (decide (i = j)) as [<- | Hne].
      * replace ((S i <=? i)%nat) with false
          by (symmetry; apply Nat.leb_gt; lia).
        replace ((i <=? i)%nat && (i <? i + S n)%nat) with true
          by (symmetry; apply andb_true_iff; split;
              [apply Nat.leb_le | apply Nat.ltb_lt]; lia).
        simpl. rewrite Hb.
        replace ((i <=? i)%nat && (i <? S i)%nat) with true
          by (symmetry; apply andb_true_iff; split;
              [apply Nat.leb_le | apply Nat.ltb_lt]; lia).
        reflexivity.
      * assert (Hpar : parent (getp s1 j) = parent (getp s j)).
        { rewrite Hb.
          replace ((i <=? j)%nat && (j <? S i)%nat) with false
            by (symmetry; apply andb_false_iff;
                destruct (Nat.leb_spec i j);
                [right; apply Nat.ltb_ge; lia | left; reflexivity]).
          reflexivity. }
        rewrite (child_of_parent cur _ _ Hpar), Hpar.
        replace ((S i <=? j)%nat && (j <? S i + n)%nat)
          with ((i <=? j)%nat && (j <? i + S n)%nat).
        { reflexivity. }
        destruct (Nat.leb_spec i j); destruct (Nat.leb_spec (S i) j);
          destruct (Nat.ltb_spec j (i + S n)); destruct (Nat.ltb_spec j (S i + n));
          simpl; try reflexivity; lia.
    + destruct Hd as [Hd | [Hd1 Hd2]]; destruct Hd' as [Hd' | [Hd1' Hd2']].
      * left. congruence.
      * right. split; congruence.
      * right. split; congruence.
      * congruence.
Qed.

Lemma getp_write_state_same (i : nat) (x : procstate) (s : kstate) :
  (i < length (ptable s))%nat ->
  getp (write_state i x s) i = set_state x (getp s i).
Proof.
  intros Hi. destruct (lookup_lt_is_Some_2 (ptable s) i Hi) as [p Hp].
  unfold write_state. rewrite Hp.
  change (getp (emit [EvState i (state p) x (locked s)]
                  (upd_slot i (set_state x) s)) i)
    with (getp (upd_slot i (set_state x) s) i).
  apply getp_upd_same. exact Hi.
Qed.

Lemma getp_write_state_ne (i j : nat) (x : procstate) (s : kstate) :
  i <> j -> getp (write_state i x s) j = getp s j.
Proof.
  intros Hne. unfold write_state. destruct (ptable s !! i) as [p |]; [| reflexivity].
  change (getp (emit [EvState i (state p) x (locked s)]
                  (upd_slot i (set_state x) s)) j)
    with (getp (upd_slot i (set_state x) s) j).
  apply getp_upd_ne. exact Hne.
Qed.

Lemma write_state_keeps (i : nat) (x : procstate) (s : kstate) :
  locked (write_state i x s) = locked s /\
  initproc (write_state i x s) = initproc s /\
  length (ptable (write_state i x s)) = length (ptable s).
Proof.
  unfold write_state. destruct (ptable s !! i) as [p |]; [| auto].
  cbn. rewrite length_alter. auto.
Qed.

Lemma wakeup1_keeps (c : chan_t) (s : kstate) :
  locked (wakeup1 c s) = locked s /\ initproc (wakeup1 c s) = initproc s /\
  length (ptable (wakeup1 c s)) = length (ptable s).
Proof.
  split; [| split].
  - unfold wakeup1. destruct (wakeup1_scan _ _ _ _); reflexivity.
  - unfold wakeup1. destruct (wakeup1_scan _ _ _ _); reflexivity.
  - rewrite ptable_wakeup1. apply length_map.
Qed.

Lemma child_of_false (cur : nat) (p : proc) :
  child_of cur p = false -> parent p <> Some cur.
Proof.
  unfold child_of. intros H E. rewrite E in H.
  rewrite Nat.eqb_refl in H. discriminate H.
Qed.

(** exit up to its last line, slot by slot. *)
Lemma exit_slots (cur : nat) (s : kstate) (p : proc) :
  ptable s !! cur = Some p ->
  locked (exit cur s) = true /\ initproc (exit cur s) = initproc s /\
  length (ptable (exit cur s)) = length (ptable s) /\
  (exists q, getp (exit cur s) cur = set_state ZOMBIE q /\
     reparent_spec cur 0 (length (ptable s)) (initproc s)
       (set_cwd 0 (set_ofile (map (fun _ => 0) (ofile p)) p)) q cur) /\
  (forall j, j <> cur ->
     reparent_spec cur 0 (length (ptable s)) (initproc s)
       (wake_on (chan_of_ptr (parent p)) (getp s j)) (getp (exit cur s) j) j).
Proof.
  intros Hp.
  assert (Hcur : (cur < length (ptable s))%nat) by (eapply lookup_lt_Some; eassumption).
  unfold exit. cbv zeta.
  set (s5 := acquire (upd_slot cur (set_cwd 0) _)).
  assert (H5 : s5 = {| ptable := <[cur := set_cwd 0
                         (set_ofile (map (fun _ => 0) (ofile p)) p)]> (ptable s);
                       locked := true; nextpid := nextpid s;
                       initproc := initproc s;
                       klog := (klog s ++ close_events (ofile p))
                               ++ [EvIput (cwd p)] |}).
  { unfold s5. clear s5. destruct s as [pt lk np ip lg]. cbn [ptable] in *.
    rewrite <- (list_insert_id pt cur p Hp). unfold acquire.
    repeat first [ rewrite getp_ins by exact Hcur
                 | rewrite emit_lit
                 | rewrite set_locked_lit
                 | rewrite upd_slot_ins by exact Hcur ].
    rewrite list_insert_insert_eq. reflexivity. }
  assert (Hg5 : getp s5 cur = set_cwd 0 (set_ofile (map (fun _ => 0) (ofile p)) p)).
  { rewrite H5. apply getp_ins. exact Hcur. }
  assert (Hg5' : forall j, j <> cur -> getp s5 j = getp s j).
  { intros j Hj. rewrite H5. unfold getp. cbn [ptable].
    rewrite list_lookup_insert_ne by congruence. reflexivity. }
  assert (Hl5 : length (ptable s5) = length (ptable s)).
  { rewrite H5. cbn [ptable]. apply length_insert. }
  rewrite Hg5. change (parent (set_cwd 0 (set_ofile (map (fun _ => 0) (ofile p)) p)))
    with (parent p).
  set (s6 := wakeup1 (chan_of_ptr (parent p)) s5).
  destruct (wakeup1_keeps (chan_of_ptr (parent p)) s5) as (Hk6 & Hi6 & Hl6).
  fold s6 in Hk6, Hi6, Hl6.
  destruct (reparent_invariant cur (length (ptable s6)) 0 s6)
    as (Hi7 & Hk7 & Hl7 & Hsp).
  set (s7 := reparent cur (length (ptable s6)) 0 s6) in *.
  destruct (write_state_keeps cur ZOMBIE s7) as (Hk8 & Hi8 & Hl8).
  assert (Hini : initproc s6 = initproc s) by (rewrite Hi6, H5; reflexivity).
  assert (Hlen : length (ptable s6) = length (ptable s)) by congruence.
  split; [rewrite Hk8, Hk7, Hk6, H5; reflexivity |].
  split; [congruence |]. split; [congruence |].
  rewrite Hini, Hlen in Hsp. cbn [Nat.add] in Hsp.
  split.
  - exists (getp s7 cur). split.
    + apply getp_write_state_same. congruence.
    + specialize (Hsp cur). unfold s6 in Hsp at 1. rewrite getp_wakeup1, Hg5 in Hsp.
      destruct (wake_on_keeps (chan_of_ptr (parent p))
                  (set_cwd 0 (set_ofile (map (fun _ => 0) (ofile p)) p)))
        as (Ha & Hb & Hd).
      destruct Hsp as (Ha' & Hb' & Hd').
      unfold reparent_spec.
      rewrite (child_of_parent cur _ _ Hb), Hb in Hb'.
      split; [congruence |]. split; [exact Hb' |].
      destruct Hd as [Hd | [Hd1 Hd2]]; destruct Hd' as [Hd' | [Hd1' Hd2']].
      * left. congruence.
      * right. split; congruence.
      * right. split; congruence.
      * congruence.
  - intros j Hj. rewrite getp_write_state_ne by congruence.
    specialize (Hsp j). unfold s6 in Hsp at 1.
    rewrite getp_wakeup1, (Hg5' j Hj) in Hsp. exact Hsp.
Qed.

Lemma whole_table_range (cur : nat) (s : kstate) (j : nat) (p : proc) :
  parent p = parent (getp s j) ->
  (if (0 <=? j)%nat && (j <? length (ptable s))%nat && child_of cur p
   then initproc s else parent p)
  = (if child_of cur (getp s j) then initproc s else parent (getp s j)).
Proof.
  intros Hpar. rewrite (child_of_parent cur _ _ Hpar), Hpar.
  destruct (child_of cur (getp s j)) eqn:Hc.
  - apply child_of_in_range in Hc. apply Nat.ltb_lt in Hc. rewrite Hc. reflexivity.
  - rewrite andb_false_r. reflexivity.
Qed.

Lemma exit_parents (cur : nat) (s : kstate) (p : proc) (j : nat) :
  ptable s !! cur = Some p ->
  parent (getp (exit cur s) j)
  = (if child_of cur (getp s j) then initproc s else parent (getp s j)).
Proof.
  intros Hp.
  destruct (exit_slots cur s p Hp) as (_ & _ & _ & (q & Hq & Hsq) & Hoth).
  destruct (decide (j = cur)) as [-> | Hne].
  - rewrite Hq. destruct Hsq as (_ & Hb & _).
    change (parent (set_state ZOMBIE q)) with (parent q). rewrite Hb.
    apply whole_table_range. rewrite (getp_lookup s cur p Hp). reflexivity.
  - destruct (Hoth j Hne) as (_ & Hb & _). rewrite Hb.
    apply whole_table_range.
    apply (proj1 (proj2 (wake_on_keeps _ _))).
Qed.

(** X17: exit leaves its caller a ZOMBIE with no open file and no working
    directory, the lock held for the scheduler; every child of the caller
    has [initproc] for parent, every other slot the parent it had; so,
    the caller not being init, no slot has the caller for parent. *)
Theorem exit_hands_children_to_init (cur : nat) (s : kstate) (p : proc) :
  ptable s !! cur = Some p -> initproc s <> Some cur ->
  state (getp (exit cur s) cur) = ZOMBIE /\
  locked (exit cur s) = true /\
  ofile (getp (exit cur s) cur) = map (fun _ => 0) (ofile p) /\
  cwd (getp (exit cur s) cur) = 0 /\
  pid (getp (exit cur s) cur) = pid p /\
  (forall j, parent (getp (exit cur s) j)
             = if child_of cur (getp s j) then initproc s
               else parent (getp s j)) /\
  (forall j, parent (getp (exit cur s) j) <> Some cur).
Proof.
  intros Hp Hini.
  destruct (exit_slots cur s p Hp) as (Hlk & _ & _ & (q & Hq & Hsq) & _).
  destruct Hsq as (Ha & _ & _).
  rewrite Hq.
  split; [reflexivity |]. split; [exact Hlk |].
  split; [exact (f_equal ofile Ha) |].
  split; [exact (f_equal cwd Ha) |].
  split; [exact (f_equal pid Ha) |].
  split; [intros j; apply (exit_parents cur s p j Hp) |].
  intros j. rewrite (exit_parents cur s p j Hp).
  destruct (child_of cur (getp s j)) eqn:Hc; [exact Hini |].
  apply child_of_false. exact Hc.
Qed.

Lemma exit_hands_children_to_init_witness :
  ptable (forkret (scheduler_pick 1 forked)) !! 1%nat
    = Some (getp (forkret (scheduler_pick 1 forked)) 1) /\
  initproc (forkret (scheduler_pick 1 forked)) <> Some 1%nat /\
  state (getp (exit 1 (forkret (scheduler_pick 1 forked))) 1) = ZOMBIE.
Proof.
  assert (H1 : ptable (forkret (scheduler_pick 1 forked)) !! 1%nat
               = Some (getp (forkret (scheduler_pick 1 forked)) 1))
    by (vm_compute; reflexivity).
  assert (H2 : initproc (forkret (scheduler_pick 1 forked)) <> Some 1%nat)
    by (vm_compute; discriminate).
  split_known.
  exact (proj1 (exit_hands_children_to_init 1 _ _ H1 H2)).
Defined.

(** A process picked by the scheduler and back from sleep: what has
    changed of the slot [j]. *)
Lemma picked_and_resumed (i : nat) (lk : lockref) (s : kstate) (j : nat) :
  parent (getp (sleep_resume i lk (scheduler_pick i s)) j) = parent (getp s j) /\
  pid (getp (sleep_resume i lk (scheduler_pick i s)) j) = pid (getp s j) /\
  (state (getp (sleep_resume i lk (scheduler_pick i s)) j) = state (getp s j) \/
   state (getp (sleep_resume i lk (scheduler_pick i s)) j) = RUNNING) /\
  length (ptable (sleep_resume i lk (scheduler_pick i s))) = length (ptable s).
Proof.
  assert (Hpick : parent (getp (scheduler_pick i s) j) = parent (getp s j) /\
                  pid (getp (scheduler_pick i s) j) = pid (getp s j) /\
                  (state (getp (scheduler_pick i s) j) = state (getp s j) \/
                   state (getp (scheduler_pick i s) j) = RUNNING) /\
                  length (ptable (scheduler_pick i s)) = length (ptable s)).
  { unfold scheduler_pick. cbv zeta.
    change (getp (acquire s) i) with (getp s i).
    destruct (procstate_eqb (state (getp s i)) RUNNABLE); [| auto].
    destruct (write_state_keeps i RUNNING (acquire s)) as (_ & _ & Hl).
    destruct (decide (i = j)) as [<- | Hne].
    - destruct (ptable s !! i) as [p |] eqn:Hp.
      + rewrite getp_write_state_same
          by (cbn; eapply lookup_lt_Some; eassumption).
        repeat split; auto.
      + unfold write_state. cbn [acquire set_locked ptable]. rewrite Hp. auto.
    - rewrite getp_write_state_ne by exact Hne. repeat split; auto. }
  destruct Hpick as (Ha & Hb & Hc & Hd).
  assert (Hres : forall s', parent (getp (sleep_resume i lk s') j) = parent (getp s' j) /\
                   pid (getp (sleep_resume i lk s') j) = pid (getp s' j) /\
                   state (getp (sleep_resume i lk s') j) = state (getp s' j) /\
                   length (ptable (sleep_resume i lk s')) = length (ptable s')).
  { intros s'. unfold sleep_resume. cbv zeta.
    assert (Hu : parent (getp (upd_slot i (set_chan CNull) s') j) = parent (getp s' j) /\
                 pid (getp (upd_slot i (set_chan CNull) s') j) = pid (getp s' j) /\
                 state (getp (upd_slot i (set_chan CNull) s') j) = state (getp s' j) /\
                 length (ptable (upd_slot i (set_chan CNull) s')) = length (ptable s')).
    { destruct (decide (i = j)) as [<- | Hne].
      - destruct (ptable s' !! i) as [p |] eqn:Hp.
        + rewrite getp_upd_same by (eapply lookup_lt_Some; eassumption).
          rewrite upd_slot_length. auto.
        + unfold getp, upd_slot. cbn [set_ptable ptable].
          rewrite list_lookup_alter_eq, Hp, length_alter. auto.
      - rewrite getp_upd_ne by exact Hne. rewrite upd_slot_length. auto. }
    destruct (is_ptable_lock lk); exact Hu. }
  destruct (Hres (scheduler_pick i s)) as (Ha' & Hb' & Hc' & Hd').
  split; [congruence |]. split; [congruence |]. split; [| congruence].
  rewrite Hc'. exact Hc.
Qed.

(** X18: exit and wait together.  A process sleeps in wait; one of its
    children, in a table with no ZOMBIE, calls exit: the parent is
    RUNNABLE at once, and when the scheduler has picked it and its sleep
    has returned, its wait finds the child, returns the child's pid and
    leaves the child's slot UNUSED. *)
Theorem exit_then_wait (cur par : nat) (s : kstate) (p pp : proc) :
  ptable s !! cur = Some p -> parent p = Some par -> par <> cur ->
  ptable s !! par = Some pp -> state pp = SLEEPING -> chan pp = CProc par ->
  Forall (fun q => state q <> ZOMBIE) (ptable s) ->
  state (getp (exit cur s) par) = RUNNABLE /\
  fst (wait_resume par (scheduler_pick par (exit cur s))) = Ret (pid p) /\
  state (getp (snd (wait_resume par (scheduler_pick par (exit cur s)))) cur)
    = UNUSED.
Proof.
  intros Hp Hpar Hne Hpp Hsl Hch Hnz.
  assert (Hcur : (cur < length (ptable s))%nat) by (eapply lookup_lt_Some; eassumption).
  destruct (exit_slots cur s p Hp) as (_ & _ & Hlen & (q & Hq & Hsq) & Hoth).
  assert (Hcnot : child_of cur p = false).
  { unfold child_of. rewrite Hpar. apply Nat.eqb_neq. exact Hne. }
  assert (Hwoken : state (getp (exit cur s) par) = RUNNABLE).
  { destruct (Hoth par Hne) as (_ & _ & Hd).
    rewrite (getp_lookup s par pp Hpp), Hpar in Hd. cbn [chan_of_ptr] in Hd.
    unfold wake_on in Hd. rewrite Hsl, Hch, chan_eqb_refl in Hd. cbn in Hd.
    destruct Hd as [Hd | [Hd _]]; [exact Hd | discriminate Hd]. }
  split; [exact Hwoken |].
  set (E := exit cur s) in *.
  set (S2 := sleep_resume par LkPtable (scheduler_pick par E)).
  assert (HE : parent (getp E cur) = Some par /\ state (getp E cur) = ZOMBIE /\
               pid (getp E cur) = pid p).
  { rewrite Hq. destruct Hsq as (Ha & Hb & _).
    change (parent (set_state ZOMBIE q)) with (parent q). rewrite Hb.
    change (child_of cur (set_cwd 0 (set_ofile (map (fun _ => 0) (ofile p)) p)))
      with (child_of cur p). rewrite Hcnot, andb_false_r.
    split; [exact Hpar |]. split; [reflexivity |]. exact (f_equal pid Ha). }
  destruct HE as (HEp & HEs & HEpid).
  assert (HEoth : forall j, j <> cur -> state (getp E j) <> ZOMBIE).
  { intros j Hj. destruct (Hoth j Hj) as (_ & _ & Hd).
    assert (Hsj : state (getp s j) <> ZOMBIE).
    { unfold getp. destruct (ptable s !! j) as [r |] eqn:Hr.
      - exact (Forall_lookup_1 _ _ _ _ Hnz Hr).
      - discriminate. }
    destruct (wake_on_keeps (chan_of_ptr (parent p)) (getp s j)) as (_ & _ & Hw).
    destruct Hd as [Hd | [_ Hd]]; [| rewrite Hd; discriminate].
    rewrite Hd. destruct Hw as [Hw | [_ Hw]]; [congruence | rewrite Hw; discriminate]. }
  assert (H2 : forall j, parent (getp S2 j) = parent (getp E j) /\
                         pid (getp S2 j) = pid (getp E j) /\
                         (state (getp S2 j) = state (getp E j) \/
                          state (getp S2 j) = RUNNING) /\
                         length (ptable S2) = length (ptable E))
    by (intros j; apply picked_and_resumed).
  assert (Hl2 : (cur < length (ptable S2))%nat).
  { destruct (H2 cur) as (_ & _ & _ & Hl). rewrite Hl, Hlen. exact Hcur. }
  destruct (lookup_lt_is_Some_2 (ptable S2) cur Hl2) as [qc Hqc].
  assert (Hgc : getp S2 cur = qc) by (apply getp_lookup; exact Hqc).
  assert (Hpickne : getp (scheduler_pick par E) cur = getp E cur).
  { unfold scheduler_pick. cbv zeta.
    destruct (procstate_eqb (state (getp (acquire E) par)) RUNNABLE); [| reflexivity].
    rewrite getp_write_state_ne by exact Hne. reflexivity. }
  assert (Hg2c : getp S2 cur = getp E cur).
  { unfold S2, sleep_resume. cbn [is_ptable_lock]. cbv zeta.
    rewrite getp_upd_ne by exact Hne. exact Hpickne. }
  assert (Hfind : wait_find par (ptable S2) 0 false = inl (0 + cur)%nat).
  { apply (wait_find_first par (ptable S2) 0 cur false qc Hqc).
    - rewrite <- Hgc, Hg2c. unfold child_of. rewrite HEp. apply Nat.eqb_refl.
    - rewrite <- Hgc, Hg2c. exact HEs.
    - intros j r Hj Hr [_ Hz].
      assert (Hgj : getp S2 j = r) by (apply getp_lookup; exact Hr).
      destruct (H2 j) as (_ & _ & Hst & _). rewrite Hgj in Hst.
      destruct Hst as [Hst | Hst]; [| congruence].
      apply (HEoth j); [lia | congruence]. }
  unfold wait_resume. fold S2.
  rewrite (wait_pass_reaps par S2 cur qc Hfind Hqc). cbn [fst snd].
  split; [rewrite <- Hgc, Hg2c, HEpid; reflexivity |].
  unfold getp. cbn [ptable]. rewrite list_lookup_insert_eq by exact Hl2.
  reflexivity.
Qed.

Lemma exit_then_wait_witness :
  fst (wait_resume 0 (scheduler_pick 0
        (exit 1 (forkret (scheduler_pick 1 (snd (wait 0 forked)))))))
  = Ret (pid (getp (forkret (scheduler_pick 1 (snd (wait 0 forked)))) 1)).
Proof.
  assert (H1 : ptable (forkret (scheduler_pick 1 (snd (wait 0 forked)))) !! 1%nat
               = Some (getp (forkret (scheduler_pick 1 (snd (wait 0 forked)))) 1))
    by (vm_compute; reflexivity).
  assert (H2 : parent (getp (forkret (scheduler_pick 1 (snd (wait 0 forked)))) 1)
               = Some 0%nat) by (vm_compute; reflexivity).
  assert (H3 : 0%nat <> 1%nat) by discriminate.
  assert (H4 : ptable (forkret (scheduler_pick 1 (snd (wait 0 forked)))) !! 0%nat
               = Some (getp (forkret (scheduler_pick 1 (snd (wait 0 forked)))) 0))
    by (vm_compute; reflexivity).
  assert (H5 : state (getp (forkret (scheduler_pick 1 (snd (wait 0 forked)))) 0)
               = SLEEPING) by (vm_compute; reflexivity).
  assert (H6 : chan (getp (forkret (scheduler_pick 1 (snd (wait 0 forked)))) 0)
               = CProc 0) by (vm_compute; reflexivity).
  assert (H7 : Forall (fun q => state q <> ZOMBIE)
                 (ptable (forkret (scheduler_pick 1 (snd (wait 0 forked)))))).
  { vm_compute ptable. repeat constructor; discriminate. }
  exact (proj1 (proj2 (exit_then_wait 1 0 _ _ _ H1 H2 H3 H4 H5 H6 H7))).
Defined.

(** ** join and texit *)

Lemma join_find_None (cur : nat) (v : Z) (ps : list proc) (k : nat) :
  Forall (fun p => ~ (child_of cur p = true /\ pid p = v)) ps ->
  join_find cur v ps k = None.
Proof.
  revert k. induction ps as [| q ps IH]; intros k Hall; simpl; [reflexivity |].
  apply Forall_cons in Hall as [Hq Hall].
  destruct (child_of cur q) eqn:Hc; simpl; [| apply IH; exact Hall].
  destruct (pid q =? v) eqn:Hv; [| apply IH; exact Hall].
  exfalso. apply Hq. split; [reflexivity | apply Z.eqb_eq; exact Hv].
Qed.

Lemma join_find_first (cur : nat) (v : Z) (ps : list proc) (k i : nat) (p : proc) :
  ps !! i = Some p -> child_of cur p = true -> pid p = v ->
  (forall j q, (j < i)%nat -> ps !! j = Some q ->
               ~ (child_of cur q = true /\ pid q = v)) ->
  join_find cur v ps k = Some (k + i)%nat.
Proof.
  revert k i. induction ps as [| q ps IH]; intros k i Hp Hc Hv Hfirst.
  - destruct i; discriminate.
  - destruct i as [| i]; simpl in Hp |- *.
    + injection Hp as ->. rewrite Hc. apply Z.eqb_eq in Hv. rewrite Hv.
      simpl. f_equal. lia.
    + assert (Hq : ~ (child_of cur q = true /\ pid q = v))
        by (apply (Hfirst 0%nat q); [lia | reflexivity]).
      assert (Hrest : join_find cur v ps (S k) = Some (k + S i)%nat).
      { replace (k + S i)%nat with (S k + i)%nat by lia.
        apply (IH (S k) i Hp Hc Hv).
        intros j r Hj Hr. apply (Hfirst (S j) r); [lia | exact Hr]. }
      destruct (child_of cur q) eqn:Hcq; [| exact Hrest].
      destruct (pid q =? v) eqn:Hvq; [| exact Hrest].
      exfalso. apply Hq. split; [reflexivity | apply Z.eqb_eq; exact Hvq].
Qed.

(** X19: join for a pid that no child of the caller holds: -1, the table and
    the log as they were, the lock released, and nothing handed out. *)
Theorem join_without_such_child (cur : nat) (v : Z) (s : kstate) :
  Forall (fun p => ~ (child_of cur p = true /\ pid p = v)) (ptable s) ->
  join cur v s
  = (Ret (-1), {| ptable := ptable s; locked := false; nextpid := nextpid s;
                  initproc := initproc s; klog := klog s |}, None).
Proof.
  intros Hall. unfold join. cbn [acquire set_locked ptable].
  rewrite (join_find_None cur v (ptable s) 0 Hall). reflexivity.
Qed.

Lemma join_without_such_child_witness :
  Forall (fun p => ~ (child_of 0 p = true /\ pid p = 7)) (ptable thread_exited) /\
  fst (fst (join 0 7 thread_exited)) = Ret (-1).
Proof.
  assert (H : Forall (fun p => ~ (child_of 0 p = true /\ pid p = 7))
                (ptable thread_exited)).
  { vm_compute ptable.
    repeat constructor; intros [Ha Hb]; solve [discriminate Ha | discriminate Hb]. }
  split; [exact H |].
  rewrite (join_without_such_child 0 7 thread_exited H). reflexivity.
Defined.

(** X20: join for a child that is a ZOMBIE, the first child of the caller with
    that pid: it returns 0 and hands out the child's return value and
    stack; it gives the child's kernel stack to kfree and frees no page
    directory; the slot [c] it leaves is UNUSED with the thread fields,
    the size, the page directory, the parent and [killed] cleared, but it
    still holds the child's pid; the lock is released. *)
Theorem join_collects_thread (cur : nat) (v : Z) (s : kstate) (i : nat) (p : proc) :
  ptable s !! i = Some p -> child_of cur p = true -> pid p = v ->
  state p = ZOMBIE ->
  (forall j q, (j < i)%nat -> ptable s !! j = Some q ->
               ~ (child_of cur q = true /\ pid q = v)) ->
  exists c,
    join cur v s
    = (Ret 0,
       {| ptable := <[i := c]> (ptable s); locked := false;
          nextpid := nextpid s; initproc := initproc s;
          klog := klog s ++ [EvKfree (kstack p); EvState i ZOMBIE UNUSED true] |},
       Some (tretval p, tstack p)) /\
    state c = UNUSED /\ kstack c = 0 /\ pgdir c = 0 /\ parent c = None /\
    athread c = 0 /\ tstack c = 0 /\ tretval c = 0 /\ sz c = 0 /\
    killed c = 0 /\ pid c = pid p.
Proof.
  intros Hp Hc Hv Hz Hfirst.
  assert (Hi : (i < length (ptable s))%nat) by (eapply lookup_lt_Some; eassumption).
  pose proof (join_find_first cur v (ptable s) 0 i p Hp Hc Hv Hfirst) as Hf.
  destruct s as [pt lk np ip lg]. cbn [ptable locked nextpid initproc klog] in *.
  eexists. split.
  - unfold join, acquire. rewrite set_locked_lit. cbn [ptable]. rewrite Hf.
    cbn [Nat.add]. unfold join_pass.
    rewrite <- (list_insert_id pt i p Hp).
    rewrite !getp_ins by exact Hi. rewrite Hz. cbn [procstate_eqb negb].
    cbv zeta.
    repeat first [ rewrite upd_slot_ins by exact Hi
                 | rewrite kfree_kstack_ins by exact Hi
                 | rewrite write_state_ins by exact Hi ].
    unfold release. rewrite set_locked_lit.
    match goal with
    | |- context [EvState i ?st UNUSED true] => change st with (state p)
    end.
    rewrite Hz, <- app_assoc, list_insert_insert_eq. reflexivity.
  - repeat (split; [reflexivity |]). reflexivity.
Qed.

Lemma join_collects_thread_witness :
  ptable thread_exited !! 1%nat = Some (getp thread_exited 1) /\
  child_of 0 (getp thread_exited 1) = true /\ pid (getp thread_exited 1) = 2 /\
  state (getp thread_exited 1) = ZOMBIE /\
  snd (join 0 2 thread_exited) = Some (42, 8192).
Proof.
  assert (H1 : ptable thread_exited !! 1%nat = Some (getp thread_exited 1))
    by (vm_compute; reflexivity).
  assert (H2 : child_of 0 (getp thread_exited 1) = true) by (vm_compute; reflexivity).
  assert (H3 : pid (getp thread_exited 1) = 2) by (vm_compute; reflexivity).
  assert (H4 : state (getp thread_exited 1) = ZOMBIE) by (vm_compute; reflexivity).
  assert (H5 : forall j q, (j < 1)%nat -> ptable thread_exited !! j = Some q ->
                 ~ (child_of 0 q = true /\ pid q = 2)).
  { intros j q Hj Hq [Ha _]. assert (j = 0%nat) as -> by lia.
    vm_compute in Hq. injection Hq as <-. discriminate Ha. }
  split_known.
  destruct (join_collects_thread 0 2 thread_exited 1 _ H1 H2 H3 H4 H5)
    as (c & He & _).
  rewrite He. vm_compute. reflexivity.
Defined.

Lemma picked_and_resumed_other (i : nat) (lk : lockref) (s : kstate) (j : nat) :
  i <> j -> getp (sleep_resume i lk (scheduler_pick i s)) j = getp s j.
Proof.
  intros Hne.
  assert (Hpick : getp (scheduler_pick i s) j = getp s j).
  { unfold scheduler_pick. cbv zeta.
    destruct (procstate_eqb (state (getp (acquire s) i)) RUNNABLE); [| reflexivity].
    rewrite getp_write_state_ne by exact Hne. reflexivity. }
  unfold sleep_resume. cbv zeta.
  destruct (is_ptable_lock lk).
  - rewrite getp_upd_ne by exact Hne. exact Hpick.
  - change (getp (release (upd_slot i (set_chan CNull) (scheduler_pick i s))) j)
      with (getp (upd_slot i (set_chan CNull) (scheduler_pick i s)) j).
    rewrite getp_upd_ne by exact Hne. exact Hpick.
Qed.

(** texit of a thread up to its last line, slot by slot. *)
Lemma texit_slots (r : Z) (i : nat) (s : kstate) (p : proc) :
  ptable s !! i = Some p -> athread p <> 0 ->
  locked (texit r i s) = true /\
  length (ptable (texit r i s)) = length (ptable s) /\
  (exists q, getp (texit r i s) i = set_state ZOMBIE q /\
     reparent_spec i 0 (length (ptable s)) (initproc s) (set_tretval r p) q i) /\
  (forall j, j <> i ->
     reparent_spec i 0 (length (ptable s)) (initproc s)
       (wake_on (chan_of_int (pid p)) (getp s j)) (getp (texit r i s) j) j).
Proof.
  intros Hp Hth.
  assert (Hi : (i < length (ptable s))%nat) by (eapply lookup_lt_Some; eassumption).
  unfold texit. rewrite (getp_lookup s i p Hp).
  apply Z.eqb_neq in Hth. rewrite Hth. cbv zeta.
  set (s5 := acquire (upd_slot i (set_tretval r) s)).
  assert (Hg5 : getp s5 i = set_tretval r p).
  { unfold s5. change (getp (acquire (upd_slot i (set_tretval r) s)) i)
      with (getp (upd_slot i (set_tretval r) s) i).
    rewrite getp_upd_same by exact Hi. rewrite (getp_lookup s i p Hp). reflexivity. }
  assert (Hg5' : forall j, j <> i -> getp s5 j = getp s j).
  { intros j Hj. unfold s5.
    change (getp (acquire (upd_slot i (set_tretval r) s)) j)
      with (getp (upd_slot i (set_tretval r) s) j).
    apply getp_upd_ne. congruence. }
  assert (Hl5 : length (ptable s5) = length (ptable s))
    by (unfold s5; cbn; apply length_alter).
  assert (Hi5 : initproc s5 = initproc s) by reflexivity.
  assert (Hk5 : locked s5 = true) by reflexivity.
  rewrite Hg5. change (pid (set_tretval r p)) with (pid p).
  set (s6 := wakeup1 (chan_of_int (pid p)) s5).
  destruct (wakeup1_keeps (chan_of_int (pid p)) s5) as (Hk6 & Hi6 & Hl6).
  fold s6 in Hk6, Hi6, Hl6.
  destruct (reparent_invariant i (length (ptable s6)) 0 s6)
    as (Hi7 & Hk7 & Hl7 & Hsp).
  set (s7 := reparent i (length (ptable s6)) 0 s6) in *.
  destruct (write_state_keeps i ZOMBIE s7) as (Hk8 & Hi8 & Hl8).
  assert (Hini : initproc s6 = initproc s) by congruence.
  assert (Hlen : length (ptable s6) = length (ptable s)) by congruence.
  split; [congruence |]. split; [congruence |].
  rewrite Hini, Hlen in Hsp. cbn [Nat.add] in Hsp.
  split.
  - exists (getp s7 i). split.
    + apply getp_write_state_same. congruence.
    + specialize (Hsp i). unfold s6 in Hsp at 1. rewrite getp_wakeup1, Hg5 in Hsp.
      destruct (wake_on_keeps (chan_of_int (pid p)) (set_tretval r p))
        as (Ha & Hb & Hd).
      destruct Hsp as (Ha' & Hb' & Hd').
      unfold reparent_spec.
      rewrite (child_of_parent i _ _ Hb), Hb in Hb'.
      split; [congruence |]. split; [exact Hb' |].
      destruct Hd as [Hd | [Hd1 Hd2]]; destruct Hd' as [Hd' | [Hd1' Hd2']].
      * left. congruence.
      * right. split; congruence.
      * right. split; congruence.
      * congruence.
  - intros j Hj. rewrite getp_write_state_ne by congruence.
    specialize (Hsp j). unfold s6 in Hsp at 1.
    rewrite getp_wakeup1, (Hg5' j Hj) in Hsp. exact Hsp.
Qed.

(** texit by a process that is no thread does nothing at all. *)
Lemma texit_of_process_is_noop (r : Z) (i : nat) (s : kstate) :
  athread (getp s i) = 0 -> texit r i s = s.
Proof. intros H. unfold texit. rewrite H. reflexivity. Qed.

(** X21: join and texit together.  A process joins a thread of its own, the
    first of its children with that pid and not yet a ZOMBIE: join puts
    the caller to sleep on the pid.  The thread calls texit(r): the
    caller is RUNNABLE at once; and when the scheduler has picked it and
    its sleep has returned, join goes on to return 0 and hands out [r]
    and the stack the thread was given. *)
Theorem texit_then_join (cur i : nat) (v r : Z) (s : kstate) (p pc : proc) :
  ptable s !! i = Some p -> athread p <> 0 -> parent p = Some cur ->
  cur <> i -> pid p = v -> state p <> ZOMBIE -> ptable s !! cur = Some pc ->
  (forall j q, (j < i)%nat -> ptable s !! j = Some q ->
               ~ (child_of cur q = true /\ pid q = v)) ->
  fst (fst (join cur v s)) = Sleeps /\
  state (getp (snd (fst (join cur v s))) cur) = SLEEPING /\
  chan (getp (snd (fst (join cur v s))) cur) = chan_of_int v /\
  state (getp (texit r i (scheduler_done (snd (fst (join cur v s))))) cur)
    = RUNNABLE /\
  fst (fst (join_pass cur v i
         (sleep_resume cur LkPtable (scheduler_pick cur
            (texit r i (scheduler_done (snd (fst (join cur v s))))))))) = Ret 0 /\
  snd (join_pass cur v i
         (sleep_resume cur LkPtable (scheduler_pick cur
            (texit r i (scheduler_done (snd (fst (join cur v s))))))))
    = Some (r, tstack p).
Proof.
  intros Hp Hth Hpar Hne Hv Hnz Hc Hfirst.
  assert (Hi : (i < length (ptable s))%nat) by (eapply lookup_lt_Some; eassumption).
  assert (Hcur : (cur < length (ptable s))%nat) by (eapply lookup_lt_Some; eassumption).
  assert (Hchild : child_of cur p = true).
  { unfold child_of. rewrite Hpar. apply Nat.eqb_refl. }
  pose proof (join_find_first cur v (ptable s) 0 i p Hp Hchild Hv Hfirst) as Hf.
  assert (Hjoin : exists lg1,
    join cur v s
    = (Sleeps,
       {| ptable := <[cur := set_state SLEEPING (set_chan (chan_of_int v) pc)]>
                      (ptable s);
          locked := true; nextpid := nextpid s; initproc := initproc s;
          klog := lg1 |}, None)).
  { destruct s as [pt lk np ip lg]. cbn [ptable locked nextpid initproc klog] in *.
    unfold join, acquire. rewrite set_locked_lit. cbn [ptable]. rewrite Hf.
    cbn [Nat.add]. unfold join_pass.
    unfold getp at 1. cbn [ptable]. rewrite Hp. cbn [default from_option id].
    assert (Hb : procstate_eqb (state p) ZOMBIE = false).
    { destruct (procstate_eqb (state p) ZOMBIE) eqn:E; [| reflexivity].
      apply procstate_eqb_eq in E. contradiction. }
    rewrite Hb. cbn [negb]. unfold sleep_enter. cbn [is_ptable_lock]. cbv zeta.
    eexists.
    rewrite <- (list_insert_id pt cur pc Hc) at 1.
    rewrite upd_slot_ins, write_state_ins by exact Hcur.
    reflexivity. }
  destruct Hjoin as (lg1 & ->). cbn [fst snd].
  set (s1 := {| ptable := <[cur := set_state SLEEPING (set_chan (chan_of_int v) pc)]>
                            (ptable s);
                locked := true; nextpid := nextpid s; initproc := initproc s;
                klog := lg1 |}).
  assert (Hg1 : getp s1 cur = set_state SLEEPING (set_chan (chan_of_int v) pc))
    by (apply getp_ins; exact Hcur).
  split; [reflexivity |]. rewrite Hg1.
  split; [reflexivity |]. split; [reflexivity |].
  assert (Hp1 : ptable (scheduler_done s1) !! i = Some p).
  { cbn. rewrite list_lookup_insert_ne by exact Hne. exact Hp. }
  destruct (texit_slots r i (scheduler_done s1) p Hp1 Hth)
    as (_ & _ & (q & Hq & Hsq) & Hoth).
  set (T := texit r i (scheduler_done s1)) in *.
  split.
  { destruct (Hoth cur Hne) as (_ & _ & Hd).
    change (getp (scheduler_done s1) cur) with (getp s1 cur) in Hd.
    rewrite Hg1, Hv in Hd. unfold wake_on in Hd. cbn in Hd.
    rewrite chan_eqb_refl in Hd. cbn in Hd.
    destruct Hd as [Hd | [Hd _]]; [exact Hd | discriminate Hd]. }
  assert (Hg2 : getp (sleep_resume cur LkPtable (scheduler_pick cur T)) i
                = set_state ZOMBIE q).
  { rewrite picked_and_resumed_other by exact Hne. exact Hq. }
  unfold join_pass. rewrite !Hg2. cbn [state set_state procstate_eqb negb].
  cbn [fst snd]. split; [reflexivity |].
  destruct Hsq as (Ha & _ & _).
  pose proof (f_equal tretval Ha) as Hr. pose proof (f_equal tstack Ha) as Ht.
  cbn in Hr, Ht. cbn. rewrite Hr, Ht. reflexivity.
Qed.

Lemma texit_then_join_witness :
  snd (join_pass 0 2 1
         (sleep_resume 0 LkPtable (scheduler_pick 0
            (texit 42 1 (scheduler_done
               (snd (fst (join 0 2 (forkret (scheduler_pick 1 cloned))))))))))
  = Some (42, tstack (getp (forkret (scheduler_pick 1 cloned)) 1)).
Proof.
  assert (H1 : ptable (forkret (scheduler_pick 1 cloned)) !! 1%nat
               = Some (getp (forkret (scheduler_pick 1 cloned)) 1))
    by (vm_compute; reflexivity).
  assert (H2 : athread (getp (forkret (scheduler_pick 1 cloned)) 1) <> 0)
    by (vm_compute; discriminate).
  assert (H3 : parent (getp (forkret (scheduler_pick 1 cloned)) 1) = Some 0%nat)
    by (vm_compute; reflexivity).
  assert (H4 : 0%nat <> 1%nat) by discriminate.
  assert (H5 : pid (getp (forkret (scheduler_pick 1 cloned)) 1) = 2)
    by (vm_compute; reflexivity).
  assert (H6 : state (getp (forkret (scheduler_pick 1 cloned)) 1) <> ZOMBIE)
    by (vm_compute; discriminate).
  assert (H7 : ptable (forkret (scheduler_pick 1 cloned)) !! 0%nat
               = Some (getp (forkret (scheduler_pick 1 cloned)) 0))
    by (vm_compute; reflexivity).
  assert (H8 : forall j q, (j < 1)%nat ->
                 ptable (forkret (scheduler_pick 1 cloned)) !! j = Some q ->
                 ~ (child_of 0 q = true /\ pid q = 2)).
  { intros j q Hj Hq [Ha _]. assert (j = 0%nat) as -> by lia.
    vm_compute in Hq. injection Hq as <-. discriminate Ha. }
  exact (proj2 (proj2 (proj2 (proj2 (proj2
           (texit_then_join 0 1 2 42 _ _ _ H1 H2 H3 H4 H5 H6 H7 H8)))))).
Defined.

(** ** sleep, wakeup and the scheduler *)

Lemma scheduler_pick_runnable (i : nat) (s : kstate) :
  (i < length (ptable s))%nat -> state (getp s i) = RUNNABLE ->
  getp (scheduler_pick i s) i = set_state RUNNING (getp s i) /\
  locked (scheduler_pick i s) = true /\
  length (ptable (scheduler_pick i s)) = length (ptable s).
Proof.
  intros Hi Hst. unfold scheduler_pick. cbv zeta.
  change (getp (acquire s) i) with (getp s i). rewrite Hst. cbn [procstate_eqb].
  destruct (write_state_keeps i RUNNING (acquire s)) as (Hl & _ & Hlen).
  split; [| split].
  - rewrite getp_write_state_same by exact Hi. reflexivity.
  - rewrite Hl. reflexivity.
  - rewrite Hlen. reflexivity.
Qed.

Lemma sleep_resume_slot (cur : nat) (lk : lockref) (s : kstate) :
  (cur < length (ptable s))%nat ->
  getp (sleep_resume cur lk s) cur = set_chan CNull (getp s cur) /\
  (lk <> LkPtable -> locked (sleep_resume cur lk s) = false).
Proof.
  intros Hcur. unfold sleep_resume. cbv zeta.
  destruct lk; cbn [is_ptable_lock].
  - split; [apply getp_upd_same; exact Hcur | congruence].
  - split; [| reflexivity].
    change (getp (release (upd_slot cur (set_chan CNull) s)) cur)
      with (getp (upd_slot cur (set_chan CNull) s) cur).
    apply getp_upd_same. exact Hcur.
Qed.

(** X13: sleep and wakeup together.  A process that calls sleep(chan, lk)
    with a lock is SLEEPING on [chan] when it leaves the CPU, the table
    lock held if [lk] is another lock; a wakeup on [chan] makes it
    RUNNABLE, a wakeup on another channel leaves it asleep; and once the
    scheduler has picked it again it is RUNNING, and sleep clears its
    channel and, if [lk] is another lock, releases the table lock. *)
Theorem sleep_then_wakeup (cur : nat) (c : chan_t) (lk : lockref) (s : kstate) :
  (cur < length (ptable s))%nat ->
  exists s1,
    sleep cur c (Some lk) s = Some s1 /\
    state (getp s1 cur) = SLEEPING /\
    chan (getp s1 cur) = c /\
    (lk <> LkPtable -> locked s1 = true) /\
    state (getp (wakeup c s1) cur) = RUNNABLE /\
    (forall c', c' <> c -> state (getp (wakeup c' s1) cur) = SLEEPING) /\
    state (getp (sleep_resume cur lk (scheduler_pick cur (wakeup c s1))) cur)
      = RUNNING /\
    chan (getp (sleep_resume cur lk (scheduler_pick cur (wakeup c s1))) cur)
      = CNull /\
    (lk <> LkPtable ->
     locked (sleep_resume cur lk (scheduler_pick cur (wakeup c s1))) = false).
Proof.
  intros Hcur. exists (sleep_enter cur c lk s). split; [reflexivity |].
  destruct (lookup_lt_is_Some_2 (ptable s) cur Hcur) as [p Hp].
  assert (Hs1 : exists lk1 lg1,
    sleep_enter cur c lk s
    = {| ptable := <[cur := set_state SLEEPING (set_chan c p)]> (ptable s);
         locked := lk1; nextpid := nextpid s; initproc := initproc s;
         klog := lg1 |} /\ (lk <> LkPtable -> lk1 = true)).
  { unfold sleep_enter. cbv zeta.
    destruct s as [pt l np ip lg]. cbn [ptable nextpid initproc] in *.
    rewrite <- (list_insert_id pt cur p Hp).
    destruct lk; cbn [is_ptable_lock]; unfold acquire;
      rewrite ?set_locked_lit, upd_slot_ins, write_state_ins by exact Hcur;
      rewrite list_insert_insert_eq;
      eexists; eexists; (split; [reflexivity |]); intros H; congruence. }
  destruct Hs1 as (lk1 & lg1 & -> & Hlk).
  set (S1 := {| ptable := <[cur := set_state SLEEPING (set_chan c p)]> (ptable s);
                locked := lk1; nextpid := nextpid s; initproc := initproc s;
                klog := lg1 |}).
  assert (Hget : forall c', getp (wakeup c' S1) cur
                            = wake_on c' (set_state SLEEPING (set_chan c p))).
  { intros c'. unfold getp. rewrite ptable_wakeup. unfold S1. cbn [ptable].
    rewrite list_lookup_fmap, list_lookup_insert_eq by exact Hcur. reflexivity. }
  assert (Hlen : (cur < length (ptable (wakeup c S1)))%nat).
  { rewrite ptable_wakeup, length_map. unfold S1. cbn [ptable].
    rewrite length_insert. exact Hcur. }
  assert (Hw : getp (wakeup c S1) cur
               = set_state RUNNABLE (set_state SLEEPING (set_chan c p))).
  { rewrite Hget. unfold wake_on. cbn [state set_state chan set_chan procstate_eqb].
    rewrite chan_eqb_refl. reflexivity. }
  destruct (scheduler_pick_runnable cur (wakeup c S1) Hlen)
    as (Hpick & _ & Hlen2); [rewrite Hw; reflexivity |].
  rewrite <- Hlen2 in Hlen.
  destruct (sleep_resume_slot cur lk (scheduler_pick cur (wakeup c S1)) Hlen)
    as (Hres & Hrel).
  split; [unfold S1; rewrite getp_ins by exact Hcur; reflexivity |].
  split; [unfold S1; rewrite getp_ins by exact Hcur; reflexivity |].
  split; [exact Hlk |].
  split; [rewrite Hw; reflexivity |].
  split.
  { intros c' Hc'. rewrite Hget. unfold wake_on.
    cbn [state set_state chan set_chan procstate_eqb andb].
    destruct (chan_eqb c c') eqn:E; [| reflexivity].
    apply chan_eqb_eq in E. congruence. }
  rewrite Hres, Hpick, Hw.
  split; [reflexivity |]. split; [reflexivity | exact Hrel].
Qed.

Lemma sleep_then_wakeup_witness :
  (0 < length (ptable boot))%nat /\
  state (getp (sleep_resume 0 LkOther (scheduler_pick 0
           (wakeup (CVal 7) (sleep_enter 0 (CVal 7) LkOther boot)))) 0)
    = RUNNING.
Proof.
  assert (H : (0 < length (ptable boot))%nat) by (vm_compute; lia).
  split; [exact H |].
  destruct (sleep_then_wakeup 0 (CVal 7) LkOther boot H)
    as (s1 & He & _ & _ & _ & _ & _ & Hr & _).
  injection He as <-. exact Hr.
Defined.

(** ** Signals, again *)

Lemma set_handlers_same (p : proc) : set_handlers (handlers p) p = p.
Proof. destruct p; reflexivity. Qed.

(** X22: Registering a handler and putting the old one back.  For a signal
    number within the array, signal_register_handler returns the handler
    that was registered, installs the new one and touches no other entry;
    registering the returned value again returns the new handler and
    leaves the process exactly as it was. *)
Theorem signal_register_round_trip (signum h : Z) (p : proc) :
  0 <= signum -> (Z.to_nat signum < length (handlers p))%nat ->
  exists prev p1,
    signal_register_handler signum h (Some p) = Some (prev, Some p1) /\
    handlers p !! Z.to_nat signum = Some prev /\
    handlers p1 !! Z.to_nat signum = Some h /\
    (forall k, k <> Z.to_nat signum -> handlers p1 !! k = handlers p !! k) /\
    signal_register_handler signum prev (Some p1) = Some (h, Some p).
Proof.
  intros H0 Hk.
  destruct (lookup_lt_is_Some_2 (handlers p) _ Hk) as [prev Hprev].
  assert (Hat : handler_at (handlers p) signum = Some prev)
    by (apply handler_at_Some; split; assumption).
  exists prev, (set_handlers (<[Z.to_nat signum := h]> (handlers p)) p).
  split; [unfold signal_register_handler; rewrite Hat; reflexivity |].
  split; [exact Hprev |].
  split; [cbn; apply list_lookup_insert_eq; exact Hk |].
  split; [intros k Hne; cbn; apply list_lookup_insert_ne; congruence |].
  unfold signal_register_handler. cbn [handlers set_handlers].
  assert (Hat' : handler_at (<[Z.to_nat signum := h]> (handlers p)) signum = Some h).
  { apply handler_at_Some. split; [exact H0 |].
    apply list_lookup_insert_eq. exact Hk. }
  rewrite Hat'.
  rewrite list_insert_insert_eq, (list_insert_id _ _ _ Hprev).
  f_equal. f_equal. f_equal. apply (set_handlers_same p).
Qed.

Lemma signal_register_round_trip_witness :
  0 <= 2 /\ (Z.to_nat 2 < length (handlers shell))%nat /\
  exists p1, signal_register_handler 2 8192 (Some shell) = Some (0, Some p1).
Proof.
  assert (H0 : 0 <= 2) by lia.
  assert (H : (Z.to_nat 2 < length (handlers shell))%nat) by (vm_compute; lia).
  split; [exact H0 |]. split; [exact H |].
  destruct (signal_register_round_trip 2 8192 shell H0 H)
    as (prev & p1 & He & Hp & _).
  exists p1. rewrite He. vm_compute in Hp. congruence.
Defined.

(** Outside the array nothing is said of the registration. *)
Lemma signal_register_outside (signum h : Z) (p : proc) :
  signum < 0 \/ Z.of_nat (length (handlers p)) <= signum ->
  signal_register_handler signum h (Some p) = None.
Proof.
  intros Hout. unfold signal_register_handler.
  destruct (handler_at (handlers p) signum) as [x |] eqn:E; [| reflexivity].
  apply handler_at_Some in E. destruct E as [H0 Hh].
  apply lookup_lt_Some in Hh. lia.
Qed.

(** X23: A handler that was registered is the one a delivery enters: after
    signal_register_handler(signum, h) for a signal number within the
    array, signal_deliver(signum) leaves [h] in the eip of the trap
    frame. *)
Theorem registered_handler_is_entered (K : kconsts) (cr2 : Z)
    (getprot : Z -> Z -> Z) (info0 : Z * Z) (signum h : Z) (p p1 : proc)
    (prev : Z) (m : mem) :
  signal_register_handler signum h (Some p) = Some (prev, Some p1) ->
  exists p2 m2,
    signal_deliver K cr2 getprot info0 signum p1 m = Some (p2, m2) /\
    tf_eip (tf p2) = h.
Proof.
  intros Hreg. unfold signal_register_handler in Hreg.
  destruct (handler_at (handlers p) signum) as [x |] eqn:E; [| discriminate Hreg].
  apply handler_at_Some in E. destruct E as [H0 Hx].
  injection Hreg as _ <-. unfold signal_deliver, signal_frame. cbv zeta.
  cbn [handlers set_tf set_handlers].
  assert (Hat : handler_at (<[Z.to_nat signum := h]> (handlers p)) signum = Some h).
  { apply handler_at_Some. split; [exact H0 |].
    apply list_lookup_insert_eq. eapply lookup_lt_Some. exact Hx. }
  rewrite Hat. eexists. eexists. split; reflexivity.
Qed.

Lemma registered_handler_is_entered_witness :
  signal_register_handler 2 8192 (Some shell)
    = Some (0, Some (set_handlers (<[Z.to_nat 2 := 8192]> (handlers shell)) shell)) /\
  exists p2 m2,
    signal_deliver xv6 4096 (fun _ _ => 3) (0, 0) 2
      (set_handlers (<[Z.to_nat 2 := 8192]> (handlers shell)) shell) mem0
    = Some (p2, m2) /\
    tf_eip (tf p2) = 8192.
Proof.
  assert (H : signal_register_handler 2 8192 (Some shell)
              = Some (0, Some (set_handlers (<[Z.to_nat 2 := 8192]> (handlers shell))
                                 shell)))
    by reflexivity.
  split; [exact H |].
  exact (registered_handler_is_entered xv6 4096 (fun _ _ => 3) (0, 0) 2 8192
           shell _ 0 mem0 H).
Defined.

(** X24: signal_deliver writes the 32 bytes below the user stack pointer and
    nothing else of memory, and leaves eax, ecx and edx in the trap frame
    as they were: so it is after the stores, whatever the signal number,
    and so it is in the result of the call. *)
Theorem signal_deliver_writes_frame_only (K : kconsts) (cr2 : Z)
    (getprot : Z -> Z -> Z) (info0 : Z * Z) (signum : Z) (p : proc) (m : mem)
    (a : Z) :
  (forall k, 1 <= k <= 32 -> wrap32 a <> wrap32 (tf_esp (tf p) - k)) ->
  (load8 (snd (signal_frame K cr2 getprot info0 signum p m)) a = load8 m a /\
   tf_eax (tf (fst (signal_frame K cr2 getprot info0 signum p m)))
     = tf_eax (tf p) /\
   tf_ecx (tf (fst (signal_frame K cr2 getprot info0 signum p m)))
     = tf_ecx (tf p) /\
   tf_edx (tf (fst (signal_frame K cr2 getprot info0 signum p m)))
     = tf_edx (tf p)) /\
  (forall p' m',
     signal_deliver K cr2 getprot info0 signum p m = Some (p', m') ->
     load8 m' a = load8 m a /\ tf_eax (tf p') = tf_eax (tf p) /\
     tf_ecx (tf p') = tf_ecx (tf p) /\ tf_edx (tf p') = tf_edx (tf p)).
Proof.
  intros Hout.
  assert (Hm : load8 (snd (signal_frame K cr2 getprot info0 signum p m)) a
               = load8 m a).
  { unfold signal_frame. cbv zeta. cbn [snd].
    unfold store32, store8, load8.
    repeat match goal with
    | |- context [wrap32 a =? wrap32 ?e] =>
        destruct (Z.eqb_spec (wrap32 a) (wrap32 e)) as [Heq | _];
        [ exfalso; apply (Hout (tf_esp (tf p) - e)); [lia |];
          rewrite Heq; f_equal; lia | ]
    end.
    reflexivity. }
  split.
  - split; [exact Hm |]. split; [| split]; reflexivity.
  - intros p' m' Hd. unfold signal_deliver in Hd.
    destruct (signal_frame K cr2 getprot info0 signum p m) as [p1 m1] eqn:Hfr.
    assert (Hp1 : p1 = fst (signal_frame K cr2 getprot info0 signum p m))
      by (rewrite Hfr; reflexivity).
    cbn [snd] in Hm.
    destruct (handler_at (handlers p1) signum) as [h |]; [| discriminate Hd].
    injection Hd as <- <-. split; [exact Hm |].
    rewrite Hp1. split; [| split]; reflexivity.
Qed.

Lemma signal_deliver_writes_frame_only_witness :
  (forall k, 1 <= k <= 32 -> wrap32 12272 <> wrap32 (tf_esp (tf shell_sig) - k)) /\
  load8 (snd (signal_frame xv6 4096 (fun _ _ => 3) (0, 0) 2 shell_sig mem0)) 12272
    = load8 mem0 12272.
Proof.
  assert (H : forall k, 1 <= k <= 32 ->
                wrap32 12272 <> wrap32 (tf_esp (tf shell_sig) - k)).
  { intros k Hk. change (tf_esp (tf shell_sig)) with 12272.
    apply wrap32_neq. lia. }
  split; [exact H |].
  exact (proj1 (proj1 (signal_deliver_writes_frame_only xv6 4096 (fun _ _ => 3)
                         (0, 0) 2 shell_sig mem0 12272 H))).
Defined.

(** ** growproc *)

Section GrowProps.
Context {V : Type}.
Variable allocuvm : V -> Z -> Z -> Z -> V * Z.
Variable deallocuvm : V -> Z -> Z -> Z -> V * Z.
Variable switchuvm : V -> proc -> V.

Lemma upd_slot_set_sz (cur : nat) (s : kstate) (p : proc) (x : Z) :
  ptable s !! cur = Some p ->
  upd_slot cur (set_sz x) s
  = {| ptable := <[cur := set_sz x p]> (ptable s); locked := locked s;
       nextpid := nextpid s; initproc := initproc s; klog := klog s |}.
Proof.
  intros Hp. unfold upd_slot, set_ptable.
  rewrite (alter_lookup_insert _ _ _ _ Hp). reflexivity.
Qed.

(** X25: growproc returns 0 or -1.  With -1 the table is exactly as it was:
    the size of the process has not changed, whatever the VM layer did;
    this is the case when, and only when, [n] is not 0 and the VM routine
    returned 0, also when a process shrinks to no memory at all.  With 0
    the size of the process is the one the VM routine returned, or the old
    one if [n] is 0, no other slot has changed, and the address space of
    the process has been loaded. *)
Theorem growproc_outcome (n : Z) (cur : nat) (s : kstate) (v : V) (p : proc) :
  ptable s !! cur = Some p ->
  let r := if 0 <? n then allocuvm v (pgdir p) (sz p) (wrap32 (sz p + n))
           else if n <? 0 then deallocuvm v (pgdir p) (sz p) (wrap32 (sz p + n))
           else (v, sz p) in
  (n <> 0 /\ snd r = 0 /\
   growproc allocuvm deallocuvm switchuvm n cur s v = (-1, s, fst r)) \/
  ((n = 0 \/ snd r <> 0) /\
   growproc allocuvm deallocuvm switchuvm n cur s v
   = (0,
      {| ptable := <[cur := set_sz (snd r) p]> (ptable s); locked := locked s;
         nextpid := nextpid s; initproc := initproc s; klog := klog s |},
      switchuvm (fst r) (set_sz (snd r) p))).
Proof.
  intros Hp r.
  assert (Hcur : (cur < length (ptable s))%nat) by (eapply lookup_lt_Some; eassumption).
  assert (Hok : forall v1 x,
    (let s' := upd_slot cur (set_sz x) s in (0, s', switchuvm v1 (getp s' cur)))
    = (0, {| ptable := <[cur := set_sz x p]> (ptable s); locked := locked s;
             nextpid := nextpid s; initproc := initproc s; klog := klog s |},
       switchuvm v1 (set_sz x p))).
  { intros v1 x. cbv zeta. rewrite (upd_slot_set_sz cur s p x Hp).
    unfold getp. cbn [ptable]. rewrite list_lookup_insert_eq by exact Hcur.
    reflexivity. }
  unfold growproc. rewrite (getp_lookup s cur p Hp). cbv zeta. subst r.
  destruct (0 <? n) eqn:Hpos.
  - apply Z.ltb_lt in Hpos.
    destruct (allocuvm v (pgdir p) (sz p) (wrap32 (sz p + n))) as [v1 x].
    cbn [fst snd]. destruct (x =? 0) eqn:Hx.
    + apply Z.eqb_eq in Hx. left. split; [lia |]. split; [exact Hx | reflexivity].
    + apply Z.eqb_neq in Hx. right. split; [right; exact Hx |]. apply Hok.
  - destruct (n <? 0) eqn:Hneg.
    + apply Z.ltb_lt in Hneg.
      destruct (deallocuvm v (pgdir p) (sz p) (wrap32 (sz p + n))) as [v1 x].
      cbn [fst snd]. destruct (x =? 0) eqn:Hx.
      * apply Z.eqb_eq in Hx. left. split; [lia |]. split; [exact Hx | reflexivity].
      * apply Z.eqb_neq in Hx. right. split; [right; exact Hx |]. apply Hok.
    + apply Z.ltb_ge in Hpos. apply Z.ltb_ge in Hneg.
      cbn [fst snd]. right. split; [left; lia |]. apply Hok.
Qed.
End GrowProps.

Lemma growproc_outcome_witness :
  ptable boot !! 0%nat = Some shell /\
  fst (fst (growproc allocuvm_ex allocuvm_ex switchuvm_ex 4096 0 boot 0%nat)) = 0.
Proof.
  assert (H : ptable boot !! 0%nat = Some shell) by reflexivity.
  split; [exact H |].
  destruct (growproc_outcome allocuvm_ex allocuvm_ex switchuvm_ex 4096 0 boot
              0%nat shell H) as [(_ & Hz & _) | (_ & He)].
  - vm_compute in Hz. discriminate Hz.
  - rewrite He. reflexivity.
Defined.

(** ** mprotect, again *)

Section MprotectOrder.
Context {V : Type}.
Variable K : kconsts.
Variable applyprot : V -> Z -> Z -> Z -> V * Z.
Hypothesis PGSIZE_pos : 0 < PGSIZE K.

Lemma mprotect_loop_state (pd prot lim : Z) (fuel : nat) :
  forall (v : V) (i r : Z) (v' : V),
    - 2 ^ 31 <= i -> lim + PGSIZE K <= 2 ^ 31 ->
    mprotect_loop K applyprot fuel v pd i lim prot = Some (r, v') ->
    exists k : nat,
      (forall j, (j < k)%nat -> ~ page_refused K applyprot j v pd i prot) /\
      (forall j, (j < k)%nat -> i + Z.of_nat j * PGSIZE K < lim) /\
      ((r = 0 /\ v' = vm_after K applyprot k v pd i prot /\
        lim <= i + Z.of_nat k * PGSIZE K) \/
       (r = -1 /\ page_refused K applyprot k v pd i prot /\
        i + Z.of_nat k * PGSIZE K < lim /\
        v' = fst (applyprot (vm_after K applyprot k v pd i prot) pd
                    (wrap32 (i + Z.of_nat k * PGSIZE K)) prot))).
Proof.
  induction fuel as [| fuel IH]; intros v i r v' Hlo Hhi H; simpl in H.
  - discriminate H.
  - destruct (i <? lim) eqn:Hlt.
    + apply Z.ltb_lt in Hlt.
      destruct (applyprot v pd (wrap32 i) prot) as [v1 bad] eqn:Hap.
      destruct (bad =? 0) eqn:Hbad.
      * apply Z.eqb_eq in Hbad. subst bad.
        rewrite sint32_small in H by lia.
        destruct (IH v1 (i + PGSIZE K) r v') as (k & Hacc & Hin & Hend);
          [lia | lia | exact H |].
        assert (Hshift : forall j,
          i + Z.of_nat (S j) * PGSIZE K = i + PGSIZE K + Z.of_nat j * PGSIZE K)
          by (intros j; lia).
        assert (Hvm : forall j, vm_after K applyprot (S j) v pd i prot
                               = vm_after K applyprot j v1 pd (i + PGSIZE K) prot).
        { intros j. simpl. rewrite Hap. reflexivity. }
        assert (Hrej : forall j, page_refused K applyprot (S j) v pd i prot
                       <-> page_refused K applyprot j v1 pd (i + PGSIZE K) prot).
        { intros j. unfold page_refused. rewrite Hvm, Hshift. reflexivity. }
        exists (S k). split; [| split].
        -- intros j Hj. destruct j as [| j].
           ++ unfold page_refused. simpl. rewrite Z.add_0_r, Hap. simpl.
              intros Hc. apply Hc. reflexivity.
           ++ rewrite Hrej. apply Hacc. lia.
        -- intros j Hj. destruct j as [| j]; [lia |].
           rewrite Hshift. apply Hin. lia.
        -- rewrite Hvm, Hshift, Hrej. exact Hend.
      * apply Z.eqb_neq in Hbad. injection H as <- <-.
        exists 0%nat. split; [intros j Hj; lia |]. split; [intros j Hj; lia |].
        right. split; [reflexivity |].
        unfold page_refused. simpl. rewrite Z.add_0_r, Hap.
        split; [exact Hbad |]. split; [exact Hlt | reflexivity].
    + apply Z.ltb_ge in Hlt. injection H as <- <-.
      exists 0%nat. split; [intros j Hj; lia |]. split; [intros j Hj; lia |].
      left. split; [reflexivity |]. split; [reflexivity |]. simpl. lia.
Qed.

(** X26: mprotect goes through the pages of the range in ascending order and
    stops at the first one that applyprot refuses, undoing nothing.  For a
    page-aligned address, when it returns: the pages before some page [k]
    all lie in the range and were accepted; with 0, they are all the
    pages of the range and their protection has been changed; with -1,
    page [k] lies in the range and was refused, and the pages before it
    keep the new protection. *)
Theorem mprotect_stops_at_first_refusal (fuel : nat) (v : V)
    (pd addr len prot r : Z) (v' : V) :
  - 2 ^ 31 <= sint32 addr + len ->
  sint32 addr + len + PGSIZE K <= 2 ^ 31 ->
  Z.rem (sint32 addr) (PGSIZE K) = 0 ->
  mprotect K applyprot fuel v pd addr len prot = Some (r, v') ->
  exists k : nat,
    (forall j, (j < k)%nat ->
       ~ page_refused K applyprot j v pd (sint32 addr) prot) /\
    (forall j, (j < k)%nat ->
       sint32 addr + Z.of_nat j * PGSIZE K < sint32 addr + len) /\
    ((r = 0 /\ v' = vm_after K applyprot k v pd (sint32 addr) prot /\
      sint32 addr + len <= sint32 addr + Z.of_nat k * PGSIZE K) \/
     (r = -1 /\ page_refused K applyprot k v pd (sint32 addr) prot /\
      sint32 addr + Z.of_nat k * PGSIZE K < sint32 addr + len /\
      v' = fst (applyprot (vm_after K applyprot k v pd (sint32 addr) prot) pd
                  (wrap32 (sint32 addr + Z.of_nat k * PGSIZE K)) prot))).
Proof.
  intros Hlo Hhi Hal H. unfold mprotect in H.
  apply Z.eqb_eq in Hal. rewrite Hal in H. cbn [negb] in H.
  assert (Ha : - 2 ^ 31 <= sint32 addr < 2 ^ 31).
  { unfold sint32, wrap32.
    pose proof (Z.mod_pos_bound addr (2 ^ 32) ltac:(lia)).
    destruct (addr mod 2 ^ 32 <? 2 ^ 31) eqn:E;
      [apply Z.ltb_lt in E | apply Z.ltb_ge in E]; lia. }
  rewrite (sint32_small (sint32 addr + len)) in H by lia.
  apply (mprotect_loop_state pd prot (sint32 addr + len) fuel v (sint32 addr) r v');
    [lia | lia | exact H].
Qed.
End MprotectOrder.

Lemma mprotect_stops_at_first_refusal_witness :
  0 < PGSIZE xv6 /\
  exists k : nat,
    (forall j, (j < k)%nat ->
       ~ page_refused xv6 applyprot_ex j [] 4096 (sint32 4096) 3) /\
    (forall j, (j < k)%nat ->
       sint32 4096 + Z.of_nat j * PGSIZE xv6 < sint32 4096 + 12288) /\
    ((-1 = 0 /\
      [(4096, 3); (8192, 3)] = vm_after xv6 applyprot_ex k [] 4096 (sint32 4096) 3 /\
      sint32 4096 + 12288 <= sint32 4096 + Z.of_nat k * PGSIZE xv6) \/
     (-1 = -1 /\ page_refused xv6 applyprot_ex k [] 4096 (sint32 4096) 3 /\
      sint32 4096 + Z.of_nat k * PGSIZE xv6 < sint32 4096 + 12288 /\
      [(4096, 3); (8192, 3)]
      = fst (applyprot_ex (vm_after xv6 applyprot_ex k [] 4096 (sint32 4096) 3)
               4096 (wrap32 (sint32 4096 + Z.of_nat k * PGSIZE xv6)) 3))).
Proof.
  assert (Hs : sint32 4096 = 4096) by (vm_compute; reflexivity).
  assert (H0 : 0 < PGSIZE xv6) by reflexivity.
  assert (H1 : - 2 ^ 31 <= sint32 4096 + 12288) by (rewrite Hs; lia).
  assert (H2 : sint32 4096 + 12288 + PGSIZE xv6 <= 2 ^ 31)
    by (rewrite Hs; simpl; lia).
  assert (H3 : Z.rem (sint32 4096) (PGSIZE xv6) = 0) by (vm_compute; reflexivity).
  assert (H4 : mprotect xv6 applyprot_ex 4 [] 4096 4096 12288 3
               = Some (-1, [(4096, 3); (8192, 3)])) by (vm_compute; reflexivity).
  split; [exact H0 |].
  exact (mprotect_stops_at_first_refusal xv6 applyprot_ex H0 4 [] 4096 4096
           12288 3 (-1) _ H1 H2 H3 H4).
Defined.

(** ** yield *)

Lemma set_state_same (p : proc) : set_state (state p) p = p.
Proof. destruct p; reflexivity. Qed.

(** X27: yield and the scheduler together.  A running process that yields is
    RUNNABLE when it leaves the CPU, the lock held; when the scheduler
    picks it again and yield returns, the table is as it was before the
    call and the lock is free. *)
Theorem yield_round_trip (cur : nat) (s : kstate) (p : proc) :
  ptable s !! cur = Some p -> state p = RUNNING ->
  state (getp (yield_enter cur s) cur) = RUNNABLE /\
  locked (yield_enter cur s) = true /\
  (forall j, j <> cur -> getp (yield_enter cur s) j = getp s j) /\
  ptable (yield_resume (scheduler_pick cur (yield_enter cur s))) = ptable s /\
  locked (yield_resume (scheduler_pick cur (yield_enter cur s))) = false.
Proof.
  intros Hp Hrun.
  assert (Hcur : (cur < length (ptable s))%nat) by (eapply lookup_lt_Some; eassumption).
  assert (Hy : yield_enter cur s
               = {| ptable := <[cur := set_state RUNNABLE p]> (ptable s);
                    locked := true; nextpid := nextpid s; initproc := initproc s;
                    klog := klog s ++ [EvState cur RUNNING RUNNABLE true] |}).
  { unfold yield_enter, acquire. cbv zeta.
    destruct s as [pt lk np ip lg]. cbn [ptable locked nextpid initproc klog] in *.
    rewrite set_locked_lit. rewrite <- (list_insert_id pt cur p Hp) at 1.
    rewrite write_state_ins by exact Hcur. rewrite Hrun. reflexivity. }
  rewrite Hy. rewrite getp_ins by exact Hcur.
  split; [reflexivity |]. split; [reflexivity |].
  split.
  { intros j Hj. unfold getp. cbn [ptable].
    rewrite list_lookup_insert_ne by congruence. reflexivity. }
  unfold scheduler_pick, acquire. cbv zeta. rewrite set_locked_lit.
  rewrite getp_ins by exact Hcur. cbn [state set_state procstate_eqb].
  rewrite write_state_ins by exact Hcur.
  unfold yield_resume, release. rewrite set_locked_lit. cbn [ptable locked].
  split; [| reflexivity].
  replace (set_state RUNNING (set_state RUNNABLE p)) with p.
  - apply list_insert_id. exact Hp.
  - rewrite <- (set_state_same p) at 1. rewrite Hrun. reflexivity.
Qed.

Lemma yield_round_trip_witness :
  ptable boot !! 0%nat = Some shell /\ state shell = RUNNING /\
  ptable (yield_resume (scheduler_pick 0 (yield_enter 0 boot))) = ptable boot.
Proof.
  assert (H1 : ptable boot !! 0%nat = Some shell) by reflexivity.
  assert (H2 : state shell = RUNNING) by reflexivity.
  split_known.
  destruct (yield_round_trip 0 boot shell H1 H2) as (_ & _ & _ & Ht & _).
  exact Ht.
Defined.
